(** * MarketAnalyzer: indicators, feature builder, forecaster, decision rule

    A shallow embedding of [src/indicators.py], [src/features.py],
    [src/forecasting.py] and [src/strategy.py].

    Conventions of the embedding.
    - A float64 cell is a [float64]: a finite value (an exact rational, so
      rounding error is left out), one of the two infinities, or NaN, the
      missing-value marker of pandas.  The two zeros of IEEE-754 are one
      value here.
    - A pandas Series is the list of its cells in row order; every Series
      the code combines comes from the same table, so label alignment is
      the identity and is left out together with the index.
    - A DataFrame is an object of a heap, components hold references.
    - Python exceptions are values of [exn]; a method returns a [result]. *)

From Stdlib Require Import QArith Qcanon ZArith List String Lia.
From Stdlib Require DecimalString DecimalPos DecimalZ.
From stdpp Require Import gmap strings list numbers.

Local Open Scope Qc_scope.

(** ** Numbers *)

Module Float.

Inductive float64 : Type :=
| NaN
| PInf
| NInf
| Num (q : Qc).

#[global] Instance float64_eq_dec : EqDecision float64.
Proof. solve_decision. Defined.

Definition of_Z (z : Z) : float64 := Num (Qc_of_Z z).

(** [of_ratio n d] is the literal n/d, as in [0.01 = of_ratio 1 100]. *)
Definition of_ratio (n : Z) (d : positive) : float64 := Num (Q2Qc (n # d)).

Definition isnan (x : float64) : bool :=
  match x with NaN => true | _ => false end.

Definition isinf (x : float64) : bool :=
  match x with PInf | NInf => true | _ => false end.

Definition is_zero (x : float64) : bool :=
  match x with Num q => bool_decide (q = 0) | _ => false end.

Definition neg (x : float64) : float64 :=
  match x with
  | NaN => NaN
  | PInf => NInf
  | NInf => PInf
  | Num q => Num (- q)
  end.

Definition add (x y : float64) : float64 :=
  match x, y with
  | NaN, _ | _, NaN => NaN
  | PInf, NInf | NInf, PInf => NaN
  | PInf, _ | _, PInf => PInf
  | NInf, _ | _, NInf => NInf
  | Num a, Num b => Num (a + b)
  end.

Definition sub (x y : float64) : float64 := add x (neg y).

(** An infinity of the sign of [q]; [inf * 0] is NaN. *)
Definition inf_signed (q : Qc) : float64 :=
  if bool_decide (0 < q) then PInf
  else if bool_decide (q < 0) then NInf
  else NaN.

Definition mul (x y : float64) : float64 :=
  match x, y with
  | NaN, _ | _, NaN => NaN
  | PInf, PInf | NInf, NInf => PInf
  | PInf, NInf | NInf, PInf => NInf
  | PInf, Num q | Num q, PInf => inf_signed q
  | NInf, Num q | Num q, NInf => inf_signed (- q)
  | Num a, Num b => Num (a * b)
  end.

(** IEEE division, as numpy does it on arrays: a non-zero value over zero is
    an infinity, [0/0] and [inf/inf] are NaN.  With one zero the infinity
    takes the sign of the numerator. *)
Definition div (x y : float64) : float64 :=
  match x, y with
  | NaN, _ | _, NaN => NaN
  | (PInf | NInf), (PInf | NInf) => NaN
  | Num _, (PInf | NInf) => Num 0
  | PInf, Num b => if bool_decide (b < 0) then NInf else PInf
  | NInf, Num b => if bool_decide (b < 0) then PInf else NInf
  | Num a, Num b => if bool_decide (b = 0) then inf_signed a else Num (a / b)
  end.

(** Comparisons: every comparison with NaN is false. *)
Definition ltb (x y : float64) : bool :=
  match x, y with
  | NaN, _ | _, NaN => false
  | _, NInf => false
  | PInf, _ => false
  | NInf, _ => true
  | _, PInf => true
  | Num a, Num b => bool_decide (a < b)
  end.

Definition gtb (x y : float64) : bool := ltb y x.

(** [x == y] of IEEE: NaN differs from everything, itself included. *)
Definition eqb (x y : float64) : bool :=
  match x, y with
  | NaN, _ | _, NaN => false
  | _, _ => bool_decide (x = y)
  end.

(** A cell that is missing or zero. *)
Definition nan_or_zero (x : float64) : Prop := x = NaN \/ x = Num 0.

End Float.

Export Float.

Declare Scope float_scope.
Delimit Scope float_scope with flt.
Bind Scope float_scope with float64.
Infix "+" := Float.add : float_scope.
Infix "-" := Float.sub : float_scope.
Infix "*" := Float.mul : float_scope.
Infix "/" := Float.div : float_scope.
Notation "- x" := (Float.neg x) : float_scope.
Infix "<?" := Float.ltb : float_scope.
Infix ">?" := Float.gtb : float_scope.

(** ** Exceptions and results *)

(** The exception classes the code raises itself, with their messages, the
    two the interpreter raises ([ZeroDivisionError] on a float division by
    zero, [AttributeError] on an attribute of [None], [IndexError] on an
    index out of range), and [LibraryError cls] for an exception of class
    [cls] raised inside pandas, numpy or scikit-learn. *)
Inductive exn : Type :=
| TypeError (msg : string)
| ValueError (msg : string)
| RuntimeError (msg : string)
| ZeroDivisionError
| AttributeError
| IndexError
| LibraryError (cls : string).

#[global] Instance exn_eq_dec : EqDecision exn.
Proof. solve_decision. Defined.

(** The spec's [ValidationError] is the condition the code signals with
    [ValueError] or [TypeError], its own or a library's. *)
Definition is_ValidationError (e : exn) : bool :=
  match e with
  | ValueError _ | TypeError _ => true
  | LibraryError cls => bool_decide (cls = "ValueError" ∨ cls = "TypeError")
  | _ => false
  end.

(** The spec's [NotTrainedError] is the [RuntimeError] of [predict_next]. *)
Definition NotTrainedError : exn := RuntimeError "Model is not trained.".

Inductive result (A : Type) : Type :=
| Ok (a : A)
| Raise (e : exn).
Arguments Ok {A} a.
Arguments Raise {A} e.

Definition bind {A B} (r : result A) (k : A -> result B) : result B :=
  match r with
  | Ok a => k a
  | Raise e => Raise e
  end.

#[global] Instance result_ret : MRet result := @Ok.
#[global] Instance result_bind : MBind result := fun A B k r => bind r k.

(** ** Decision rule: [src/strategy.py] *)

Module Strategy.

Inductive recommendation : Type := BUY | SELL | HOLD.

#[global] Instance recommendation_eq_dec : EqDecision recommendation.
Proof. solve_decision. Defined.

(** A number the rule is given: a built-in [float], or a numpy [float64]
    scalar, which is what a cell read from a table is and which is a
    [float] too. *)
Record number : Type := { numpy : bool; value : float64 }.

Definition PyFloat (x : float64) : number := {| numpy := false; value := x |}.
Definition NpFloat (x : float64) : number := {| numpy := true; value := x |}.

(** Arithmetic with a numpy scalar on either side is numpy's. *)
Definition sub (a b : number) : number :=
  {| numpy := numpy a || numpy b; value := (value a - value b)%flt |}.

Definition neg (a : number) : number :=
  {| numpy := numpy a; value := (- value a)%flt |}.

(** [a / b]: on built-in floats a zero divisor raises; numpy divides as
    IEEE-754 does and warns. *)
Definition truediv (a b : number) : result number :=
  if numpy a || numpy b then Ok {| numpy := true; value := (value a / value b)%flt |}
  else if is_zero (value b) then Raise ZeroDivisionError
  else Ok {| numpy := false; value := (value a / value b)%flt |}.

Definition gt (a b : number) : bool := (value a >? value b)%flt.
Definition lt (a b : number) : bool := (value a <? value b)%flt.

Record TradingStrategy : Type := {
  last_close : number;
  predicted_price : number;
  threshold : number
}.

(** [__init__]: stores its three arguments, [threshold] defaults to 0.01. *)
Definition default_threshold : number := PyFloat (of_ratio 1 100).

Definition __init__ (last_close predicted_price threshold : number) : TradingStrategy :=
  {| last_close := last_close;
     predicted_price := predicted_price;
     threshold := threshold |}.

Definition recommend (self : TradingStrategy) : result recommendation :=
  change ← truediv (sub (predicted_price self) (last_close self)) (last_close self);
  if gt change (threshold self) then Ok BUY
  else if lt change (neg (threshold self)) then Ok SELL
  else Ok HOLD.

(** The relative change of the spec, [(predicted - last_close) / last_close]. *)
Definition change (last_close predicted_price : Qc) : Qc :=
  (predicted_price - last_close) / last_close.

End Strategy.

(** ** The pandas operations the code calls

    Each definition follows the documented behaviour of the pandas call it
    is named after, with the arguments the code passes. *)

Module Pandas.

Abbreviation Series := (list float64).

(** *** Elementwise arithmetic of two Series of one table, and of a Series
    and a scalar. *)
Definition series_sub (a b : Series) : Series := zip_with Float.sub a b.
Definition series_div (a b : Series) : Series := zip_with Float.div a b.
Definition series_neg (a : Series) : Series := Float.neg <$> a.

(** *** [Series.diff()], [Series.shift(periods)], [Series.pct_change()] *)

(** Row 0 has no predecessor and is NaN; row [t+1] is [x[t+1] - x[t]]. *)
Definition diff (xs : Series) : Series :=
  match xs with
  | [] => []
  | _ :: tl => NaN :: zip_with Float.sub tl xs
  end.

(** [shift(periods)] for [periods > 0]: the value [periods] rows earlier,
    NaN on the first [periods] rows. *)
Definition shift (periods : nat) (xs : Series) : Series :=
  take (length xs) (replicate periods NaN ++ xs).

(** [x[t] / x[t-1] - 1], NaN on row 0: the formula of the docstring of
    [add_returns], which is what pandas computes on a column without
    missing cells. *)
Definition pct_change (xs : Series) : Series :=
  match xs with
  | [] => []
  | _ :: tl => NaN :: zip_with (fun cur prev => (cur / prev - of_Z 1)%flt) tl xs
  end.

(** *** [Series.clip(lower=..)] and [Series.clip(upper=..)]: NaN stays NaN. *)
Definition clip_lower (bound : float64) (xs : Series) : Series :=
  (fun x => if (x <? bound)%flt then bound else x) <$> xs.
Definition clip_upper (bound : float64) (xs : Series) : Series :=
  (fun x => if (x >? bound)%flt then bound else x) <$> xs.

(** *** [Series.rolling(window)] with the default [min_periods = window] *)

(** The rows of the window that ends at row [t], [t] included: the last
    [window] rows up to [t], or all of them while there are fewer. *)
Definition window_at (window t : nat) (xs : Series) : Series :=
  take (window `min` (t + 1)) (drop (t + 1 - window) xs).

(** Rolling and exponential windows take an infinite cell for a missing
    one: they replace it by NaN before they aggregate. *)
Definition prep_values (xs : Series) : Series :=
  (fun x => if isinf x then NaN else x) <$> xs.

(** The observations of a window, the cells that are neither missing nor
    infinite. *)
Definition observation (x : float64) : option Qc :=
  match x with Num q => Some q | _ => None end.
Definition observations (win : Series) : list Qc := omap observation win.

(** The values of a Series that is finite throughout. *)
Definition finite_values (s : Series) : option (list Qc) := mapM observation s.

(** A window with fewer than [window] observations has no value. *)
Definition rolling (agg : list Qc -> float64) (window : nat) (xs : Series) : Series :=
  (fun t => let obs := observations (window_at window t xs) in
            if decide (window <= length obs)%nat then agg obs else NaN)
    <$> seq 0 (length xs).

Definition Qc_sum (l : list Qc) : Qc := foldr Qcplus 0 l.
Definition Qc_of_nat (n : nat) : Qc := Qc_of_Z (Z.of_nat n).
Definition Qc_mean (l : list Qc) : Qc := Qc_sum l / Qc_of_nat (length l).

Definition rolling_mean : nat -> Series -> Series :=
  rolling (fun obs => Num (Qc_mean obs)).

(** *** [Series.ewm(span, adjust=False).mean()]

    [alpha = 2 / (span + 1)].  The running value is seeded with the first
    cell; an observation [x] moves it to
    [(old_wt * weighted + alpha * x) / (old_wt + alpha)], where [old_wt] is
    [1 - alpha] after an observation and one more factor [1 - alpha] for
    every missing cell since then; a missing cell repeats the value, and a
    value equal to the observation is kept as it is. *)
Record ewm_state : Type := { weighted : float64; old_wt : Qc }.

Definition ewm_step (alpha : Qc) (st : ewm_state) (cur : float64) : ewm_state :=
  if isnan (weighted st) then
    {| weighted := cur; old_wt := old_wt st |}
  else
    let w := old_wt st * (1 - alpha) in
    if isnan cur then {| weighted := weighted st; old_wt := w |}
    else
      {| weighted :=
           if Float.eqb (weighted st) cur then weighted st
           else ((Num w * weighted st + Num alpha * cur) / Num (w + alpha))%flt;
         old_wt := 1 |}.

Fixpoint ewm_scan (alpha : Qc) (st : ewm_state) (xs : Series) : Series :=
  match xs with
  | [] => []
  | cur :: tl => let st' := ewm_step alpha st cur in weighted st' :: ewm_scan alpha st' tl
  end.

Definition span_alpha (span : nat) : Qc := Qc_of_Z 2 / (Qc_of_nat span + 1).

Definition ewm_mean (span : nat) (xs : Series) : Series :=
  match prep_values xs with
  | [] => []
  | x0 :: tl => x0 :: ewm_scan (span_alpha span) {| weighted := x0; old_wt := 1 |} tl
  end.

(** *** DataFrame: named columns of equally many rows, in column order *)

Record DataFrame : Type := { nrows : nat; columns : list (string * Series) }.

#[global] Instance DataFrame_eq_dec : EqDecision DataFrame.
Proof. solve_decision. Defined.

Definition column_names (df : DataFrame) : list string := fst <$> columns df.

(** Every column of a table has one cell per row. *)
Definition well_formed (df : DataFrame) : Prop :=
  Forall (fun c => length c.2 = nrows df) (columns df).

(** [name in df.columns] *)
Definition has_column (name : string) (df : DataFrame) : bool :=
  bool_decide (name ∈ column_names df).

(** [df.empty]: no rows or no columns. *)
Definition is_empty (df : DataFrame) : bool :=
  bool_decide (nrows df = 0%nat) || bool_decide (columns df = []).

Fixpoint assoc_get (name : string) (cols : list (string * Series)) : option Series :=
  match cols with
  | [] => None
  | (k, s) :: tl => if decide (k = name) then Some s else assoc_get name tl
  end.

(** Assignment to a column replaces it in place or appends it. *)
Fixpoint assoc_set (name : string) (s : Series) (cols : list (string * Series))
  : list (string * Series) :=
  match cols with
  | [] => [(name, s)]
  | (k, s') :: tl =>
      if decide (k = name) then (k, s) :: tl else (k, s') :: assoc_set name s tl
  end.

(** [df[name]]: a missing column is a [KeyError] of pandas. *)
Definition getitem (name : string) (df : DataFrame) : result Series :=
  match assoc_get name (columns df) with
  | Some s => Ok s
  | None => Raise (LibraryError "KeyError")
  end.

(** [df[name] = s] *)
Definition setitem (name : string) (s : Series) (df : DataFrame) : DataFrame :=
  {| nrows := nrows df; columns := assoc_set name s (columns df) |}.

(** [df.drop(columns=[name])] *)
Definition drop_column (name : string) (df : DataFrame) : DataFrame :=
  {| nrows := nrows df;
     columns := filter (fun c => c.1 ≠ name) (columns df) |}.

(** [pd.DataFrame({...})] of Series of one table with [n] rows. *)
Definition from_columns (n : nat) (cols : list (string * Series)) : DataFrame :=
  {| nrows := n; columns := foldl (fun acc c => assoc_set c.1 c.2 acc) [] cols |}.

(** [df.iloc[:k]] and [df.iloc[k:]] *)
Definition head_rows (k : nat) (df : DataFrame) : DataFrame :=
  {| nrows := k `min` nrows df; columns := prod_map id (take k) <$> columns df |}.
Definition tail_rows (k : nat) (df : DataFrame) : DataFrame :=
  {| nrows := nrows df - k; columns := prod_map id (drop k) <$> columns df |}.

(** [df.dropna()]: keep the rows that have no NaN in any column. *)
Definition row_complete (df : DataFrame) (t : nat) : bool :=
  forallb (fun c => negb (isnan (nth t c.2 NaN))) (columns df).

Definition keep_rows (keep : nat -> bool) (s : Series) : Series :=
  snd <$> filter (fun p => keep p.1 = true) (zip (seq 0 (length s)) s).

Definition dropna (df : DataFrame) : DataFrame :=
  {| nrows := length (filter (fun t => row_complete df t = true) (seq 0 (nrows df)));
     columns := prod_map id (keep_rows (row_complete df)) <$> columns df |}.

End Pandas.

Export Pandas.

(** ** Objects and methods *)

(** A method is a computation over a state that survives an exception: what
    was written before the [raise] stays written. *)
Definition M (S A : Type) : Type := S -> result A * S.

#[global] Instance M_ret {S} : MRet (M S) := fun A a s => (Ok a, s).
#[global] Instance M_bind {S} : MBind (M S) := fun A B k m s =>
  match m s with
  | (Ok a, s') => k a s'
  | (Raise e, s') => (Raise e, s')
  end.

Definition raise {S A} (e : exn) : M S A := fun s => (Raise e, s).
Definition lift {S A} (r : result A) : M S A := fun s => (r, s).

(** DataFrame objects live in a heap; a variable or attribute that holds a
    table holds its reference. *)
Definition loc : Type := positive.
Abbreviation heap := (gmap loc DataFrame).

(** A reference always has its object in Python; outside the heap it has no
    meaning and the access fails. *)
Definition deref (l : loc) : M heap DataFrame := fun h =>
  match h !! l with
  | Some df => (Ok df, h)
  | None => (Raise (LibraryError "ReferenceError"), h)
  end.

Definition assign (l : loc) (df : DataFrame) : M heap unit := fun h =>
  (Ok tt, <[l := df]> h).

Definition new (df : DataFrame) : M heap loc := fun h =>
  let l := fresh (dom h) in (Ok l, <[l := df]> h).

(** [df.copy()]: a new object with the same cells. *)
Definition copy (l : loc) : M heap loc := df ← deref l; new df.

(** The heap after a method wrote [w] to the object at [l], or nothing. *)
Definition written (l : loc) (w : option DataFrame) (h : heap) : heap :=
  match w with
  | Some d => <[l := d]> h
  | None => h
  end.

(** A method that touches the heap at [l] only: what it returns and what
    it writes depend on the object at [l] alone, and it writes there or
    nowhere. *)
Definition local {A} (l : loc) (m : M heap A) : Prop :=
  forall h h' : heap, h !! l = h' !! l ->
    exists (r : result A) (w : option DataFrame),
      m h = (r, written l w h) /\ m h' = (r, written l w h').

(** Two heaps that hold the same objects everywhere but at [table]. *)
Definition agree_off (table : loc) (h h' : heap) : Prop :=
  forall l : loc, l ≠ table -> h !! l = h' !! l.

(** ** Indicator engine: [src/indicators.py] *)

Module Indicators.

Record TechnicalIndicators : Type := { data : loc }.

Definition _validate (self : TechnicalIndicators) : M heap unit :=
  df ← deref (data self);
  if negb (has_column "Close" df) then
    raise (ValueError "DataFrame must contain a 'Close' column.")
  else if is_empty df then
    raise (ValueError "Input DataFrame is empty.")
  else mret tt.

Definition __init__ (data : loc) : M heap TechnicalIndicators :=
  l ← copy data;
  let self := {| data := l |} in
  _ ← _validate self;
  mret self.

Definition Close (self : TechnicalIndicators) : M heap Series :=
  df ← deref (data self); lift (getitem "Close" df).

Definition sma (self : TechnicalIndicators) (window : Z) : M heap Series :=
  if bool_decide (window ≤ 0)%Z then
    raise (ValueError "Window must be a positive integer.")
  else
    close ← Close self;
    mret (rolling_mean (Z.to_nat window) close).

Definition ema (self : TechnicalIndicators) (window : Z) : M heap Series :=
  if bool_decide (window ≤ 0)%Z then
    raise (ValueError "Window must be a positive integer.")
  else
    close ← Close self;
    mret (ewm_mean (Z.to_nat window) close).

(** The intermediate Series of [rsi], each a function of Close. *)
Definition gain (close : Series) : Series := clip_lower (of_Z 0) (diff close).
Definition loss (close : Series) : Series := series_neg (clip_upper (of_Z 0) (diff close)).
Definition avg_gain (window : nat) (close : Series) : Series :=
  rolling_mean window (gain close).
Definition avg_loss (window : nat) (close : Series) : Series :=
  rolling_mean window (loss close).

(** [100 - (100 / (1 + rs))] on one cell. *)
Definition rsi_of_rs (rs : float64) : float64 :=
  (of_Z 100 - of_Z 100 / (of_Z 1 + rs))%flt.

(** The default arguments of [rsi] and [macd]. *)
Definition rsi_window : Z := 14.
Definition macd_fast : Z := 12.
Definition macd_slow : Z := 26.
Definition macd_signal : Z := 9.

Definition rsi (self : TechnicalIndicators) (window : Z) : M heap Series :=
  if bool_decide (window ≤ 0)%Z then
    raise (ValueError "Window must be a positive integer.")
  else
    close ← Close self;
    let avg_gain := avg_gain (Z.to_nat window) close in
    let avg_loss := avg_loss (Z.to_nat window) close in
    let rs := series_div avg_gain avg_loss in
    let rsi := rsi_of_rs <$> rs in
    mret rsi.

Definition macd (self : TechnicalIndicators) (fast slow signal : Z) : M heap DataFrame :=
  if negb (forallb (fun x => bool_decide (0 < x)%Z) [fast; slow; signal]) then
    raise (ValueError "All periods must be positive integers.")
  else
    ema_fast ← ema self fast;
    ema_slow ← ema self slow;
    let macd_line := series_sub ema_fast ema_slow in
    let signal_line := ewm_mean (Z.to_nat signal) macd_line in
    let histogram := series_sub macd_line signal_line in
    mret (from_columns (length macd_line)
            [("MACD", macd_line); ("Signal", signal_line); ("Histogram", histogram)]).

End Indicators.

(** ** numpy and scikit-learn *)

Module Sklearn.

(** [np.sqrt] on a float64, over a square root [sqrt] of the finite
    non-negative values. *)
Definition np_sqrt (sqrt : Qc -> Qc) (x : float64) : float64 :=
  match x with
  | Num q => if bool_decide (q < 0) then NaN else Num (sqrt q)
  | PInf => PInf
  | _ => NaN
  end.

(** What a call into an estimator gives: a value, or an exception of the
    library, by the name of its class. *)
Inductive lib_result (A : Type) : Type :=
| Returns (a : A)
| Raises (cls : string).
Arguments Returns {A} a.
Arguments Raises {A} cls.

Definition lift_lib {A} (r : lib_result A) : result A :=
  match r with
  | Returns a => Ok a
  | Raises cls => Raise (LibraryError cls)
  end.

(** A fitted estimator is its [predict]; an estimator is its [fit]. *)
Definition Model : Type := DataFrame -> lib_result Series.
Definition Regressor : Type := DataFrame -> Series -> lib_result Model.

(** [train_test_split(X, y, test_size=0.2, shuffle=False)]: the last
    [ceil(0.2 * n)] of the [n] rows are the test rows, the rows before them
    the training rows; an empty training part is a [ValueError]. *)
Definition n_test (n_samples : nat) : nat := (n_samples + 4) / 5.
Definition n_train (n_samples : nat) : nat := n_samples - n_test n_samples.

Definition train_test_split (X : DataFrame) (y : Series)
  : result (DataFrame * DataFrame * Series * Series) :=
  let k := n_train (nrows X) in
  if decide (k = 0%nat) then Raise (LibraryError "ValueError")
  else Ok (head_rows k X, tail_rows k X, take k y, drop k y).

(** [mean_squared_error(y_true, y_pred)]: both of one length, not empty and
    finite throughout, or a [ValueError]; the mean of the squared
    differences. *)
Definition mean_squared_error (y_true y_pred : Series) : result float64 :=
  match finite_values y_true, finite_values y_pred with
  | Some a, Some b =>
      if decide (length a = length b ∧ a ≠ []) then
        Ok (Num (Qc_mean (zip_with (fun u v => (u - v) * (u - v)) a b)))
      else Raise (LibraryError "ValueError")
  | _, _ => Raise (LibraryError "ValueError")
  end.

End Sklearn.

Export Sklearn.

(** ** Feature builder: [src/features.py] *)

Module Features.

Record FeatureEngineer : Type := { df : loc }.

Definition __init__ (df : loc) : M heap FeatureEngineer :=
  d ← deref df;
  if is_empty d then raise (ValueError "Input DataFrame is empty.")
  else l ← copy df; mret {| df := l |}.

(** [f"Close_lag_{lag}"] *)
Definition lag_column (lag : Z) : string :=
  "Close_lag_" ++ DecimalString.NilZero.string_of_int (Z.to_int lag).

Fixpoint add_lag_features_loop (self : FeatureEngineer) (lags : list Z) : M heap unit :=
  match lags with
  | [] => mret tt
  | lag :: rest =>
      if bool_decide (lag ≤ 0)%Z then raise (ValueError "Lag values must be positive.")
      else
        d ← deref (df self);
        close ← lift (getitem "Close" d);
        _ ← assign (df self) (setitem (lag_column lag) (shift (Z.to_nat lag) close) d);
        add_lag_features_loop self rest
  end.

Definition add_lag_features (self : FeatureEngineer) (lags : list Z) : M heap FeatureEngineer :=
  _ ← add_lag_features_loop self lags; mret self.

(** The table [d] with the lag columns of [lags] assigned one after the
    other, [close] being its Close column. *)
Definition with_lags (close : Series) (lags : list Z) (d : DataFrame) : DataFrame :=
  foldl (fun d lag => setitem (lag_column lag) (shift (Z.to_nat lag) close) d) d lags.

Definition add_returns (self : FeatureEngineer) : M heap FeatureEngineer :=
  d ← deref (df self);
  close ← lift (getitem "Close" d);
  _ ← assign (df self) (setitem "Return" (pct_change close) d);
  mret self.

(** The sample standard deviation of a window, [ddof = 1]: no value for a
    single observation. *)
Definition Qc_var (obs : list Qc) : Qc :=
  let m := Qc_mean obs in
  Qc_sum ((fun x => (x - m) * (x - m)) <$> obs) / (Qc_of_nat (length obs) - 1).

Definition rolling_std (sqrt : Qc -> Qc) : nat -> Series -> Series :=
  rolling (fun obs =>
    if decide (length obs ≤ 1)%nat then NaN else np_sqrt sqrt (Num (Qc_var obs))).

Definition add_volatility (sqrt : Qc -> Qc) (self : FeatureEngineer) (window : Z)
  : M heap FeatureEngineer :=
  if bool_decide (window ≤ 0)%Z then raise (ValueError "Window must be positive.")
  else
    d ← deref (df self);
    _ ← (if negb (has_column "Return" d) then add_returns self else mret self);
    d ← deref (df self);
    ret ← lift (getitem "Return" d);
    _ ← assign (df self) (setitem "Volatility" (rolling_std sqrt (Z.to_nat window) ret) d);
    mret self.

(** [drop_na] returns the builder's own table: its reference. *)
Definition drop_na (self : FeatureEngineer) : M heap loc :=
  d ← deref (df self);
  _ ← assign (df self) (dropna d);
  mret (df self).

End Features.

(** ** Forecast selector: [src/forecasting.py] *)

Module Forecasting.

(** The attributes [model], [rmse] and [best_model_name] do not exist until
    they are assigned; [model] can then hold [None]. *)
Record PriceForecaster : Type := {
  df : loc;
  target : string;
  model : option (option Model);
  rmse : option float64;
  best_model_name : option string
}.

Definition __init__ (df : loc) (target : string) : M heap PriceForecaster :=
  d ← deref df;
  if negb (has_column target d) then raise (ValueError "Target column not found.")
  else
    l ← copy df;
    mret {| df := l; target := target;
            model := None; rmse := None; best_model_name := None |}.

Definition default_target : string := "Close".

Definition _prepare_data (self : PriceForecaster)
  : M heap (DataFrame * DataFrame * Series * Series) :=
  d ← deref (df self);
  let X := drop_column (target self) d in
  y ← lift (getitem (target self) d);
  lift (train_test_split X y).

Section Candidates.

Variable sqrt : Qc -> Qc.
Variables LinearRegression RandomForestRegressor : Regressor.

(** The dictionary [models], in insertion order. *)
Definition models : list (string * Regressor) :=
  [("LinearRegression", LinearRegression); ("RandomForest", RandomForestRegressor)].

(** One turn of the loop up to the score: fit on the training part, predict
    the test part, take the root of the mean squared error. *)
Definition score (candidate : Regressor) (X_train X_test : DataFrame)
  (y_train y_test : Series) : result (Model * float64) :=
  m ← lift_lib (candidate X_train y_train);
  preds ← lift_lib (m X_test);
  mse ← mean_squared_error y_test preds;
  mret (m, np_sqrt sqrt mse).

(** A candidate evaluated on the split: fitted on the training part to [m],
    with [r] the root of the mean squared error of its predictions on the
    test part. *)
Definition evaluated (candidate : Regressor) (X_train X_test : DataFrame)
  (y_train y_test : Series) (m : Model) (r : float64) : Prop :=
  exists (preds : Series) (mse : float64),
    candidate X_train y_train = Returns m
    /\ m X_test = Returns preds
    /\ mean_squared_error y_test preds = Ok mse
    /\ r = np_sqrt sqrt mse.

Definition set_best_model_name (name : string) : M PriceForecaster unit := fun self =>
  (Ok tt, {| df := df self; target := target self; model := model self;
             rmse := rmse self; best_model_name := Some name |}).

Definition set_model (m : option Model) : M PriceForecaster unit := fun self =>
  (Ok tt, {| df := df self; target := target self; model := Some m;
             rmse := rmse self; best_model_name := best_model_name self |}).

Definition set_rmse (r : float64) : M PriceForecaster unit := fun self =>
  (Ok tt, {| df := df self; target := target self; model := model self;
             rmse := Some r; best_model_name := best_model_name self |}).

(** The [for] loop over [models.items()], from the current [best_model] and
    [best_rmse]. *)
Fixpoint select_loop (candidates : list (string * Regressor))
  (X_train X_test : DataFrame) (y_train y_test : Series)
  (best_model : option Model) (best_rmse : float64)
  : M PriceForecaster (option Model * float64) :=
  match candidates with
  | [] => mret (best_model, best_rmse)
  | (name, candidate) :: rest =>
      '(m, r) ← lift (score candidate X_train X_test y_train y_test);
      if (r <? best_rmse)%flt then
        _ ← set_best_model_name name;
        select_loop rest X_train X_test y_train y_test (Some m) r
      else
        select_loop rest X_train X_test y_train y_test best_model best_rmse
  end.

(** The forecaster reads its table and writes only its own attributes. *)
Definition train_and_select_model (h : heap) : M PriceForecaster (option Model * float64) :=
  fun self =>
  ('(X_train, X_test, y_train, y_test) ← lift (_prepare_data self h).1;
   '(best_model, best_rmse) ←
      select_loop models X_train X_test y_train y_test None PInf;
   _ ← set_model best_model;
   _ ← set_rmse best_rmse;
   mret (best_model, best_rmse)) self.

End Candidates.

(** [float(self.model.predict(X_last)[0])] behind the [hasattr] guard. *)
Definition predict_next (self : PriceForecaster) (X_last : DataFrame) : result float64 :=
  match model self with
  | None => Raise NotTrainedError
  | Some None => Raise AttributeError
  | Some (Some m) =>
      preds ← lift_lib (m X_last);
      match preds with
      | [] => Raise IndexError
      | p :: _ => Ok p
      end
  end.

End Forecasting.

(** ** The spec's own words, for comparison with the code *)

Module Spec.

(** The trailing [window] rows ending at and including row [t]. *)
Definition trailing_window (window t : nat) (xs : Series) : Series :=
  take window (drop (t + 1 - window) xs).

(** The arithmetic mean of the values of a window; a window with a cell
    that is not a finite number has none. *)
Definition arithmetic_mean (win : Series) : float64 :=
  match finite_values win with
  | Some qs => Num (Qc_sum qs / Qc_of_nat (length qs))
  | None => NaN
  end.

End Spec.

(** ** The three components side by side

    A caller builds a component from its table, calls its methods, and may
    write to its own table in between. *)

Module Components.

Inductive component : Type :=
| Indicator (ti : Indicators.TechnicalIndicators)
| Builder (fe : Features.FeatureEngineer)
| Forecaster (pf : Forecasting.PriceForecaster).

(** The table a component works on. *)
Definition own (c : component) : loc :=
  match c with
  | Indicator ti => Indicators.data ti
  | Builder fe => Features.df fe
  | Forecaster pf => Forecasting.df pf
  end.

Inductive class : Type :=
| TechnicalIndicators
| FeatureEngineer
| PriceForecaster (target : string).

(** [TechnicalIndicators(table)], [FeatureEngineer(table)],
    [PriceForecaster(table, target)] *)
Definition construct (k : class) (table : loc) : M heap component :=
  match k with
  | TechnicalIndicators => ti ← Indicators.__init__ table; mret (Indicator ti)
  | FeatureEngineer => fe ← Features.__init__ table; mret (Builder fe)
  | PriceForecaster target => pf ← Forecasting.__init__ table target; mret (Forecaster pf)
  end.

Inductive call : Type :=
| Sma (window : Z)
| Ema (window : Z)
| Rsi (window : Z)
| Macd (fast slow signal : Z)
| AddLagFeatures (lags : list Z)
| AddReturns
| AddVolatility (window : Z)
| DropNa
| PrepareData
| TrainAndSelectModel
| PredictNext (X_last : DataFrame).

(** What a call hands back: a new Series or table, the builder itself, the
    reference of the builder's table, the split, the selection, a number. *)
Inductive value : Type :=
| Series_value (s : Series)
| Table_value (d : DataFrame)
| Self_value
| Ref_value (l : loc)
| Split_value (parts : DataFrame * DataFrame * Series * Series)
| Selection_value (best : option Model * float64)
| Float_value (x : float64).

Definition result_map {A B} (f : A -> B) (r : result A) : result B :=
  match r with
  | Ok a => Ok (f a)
  | Raise e => Raise e
  end.

Definition outcome : Type := result value * component * heap.

(** A method of a component that leaves the component's attributes alone. *)
Definition method {A} (c : component) (f : A -> value) (m : M heap A) (h : heap) : outcome :=
  let '(r, h') := m h in (result_map f r, c, h').

Section Invoke.

Variable sqrt : Qc -> Qc.
Variables LinearRegression RandomForestRegressor : Regressor.

(** A method a class does not have is an [AttributeError]. *)
Definition invoke (c : component) (op : call) (h : heap) : outcome :=
  match c, op with
  | Indicator ti, Sma window => method c Series_value (Indicators.sma ti window) h
  | Indicator ti, Ema window => method c Series_value (Indicators.ema ti window) h
  | Indicator ti, Rsi window => method c Series_value (Indicators.rsi ti window) h
  | Indicator ti, Macd fast slow signal =>
      method c Table_value (Indicators.macd ti fast slow signal) h
  | Builder fe, AddLagFeatures lags =>
      method c (fun _ => Self_value) (Features.add_lag_features fe lags) h
  | Builder fe, AddReturns => method c (fun _ => Self_value) (Features.add_returns fe) h
  | Builder fe, AddVolatility window =>
      method c (fun _ => Self_value) (Features.add_volatility sqrt fe window) h
  | Builder fe, DropNa => method c Ref_value (Features.drop_na fe) h
  | Forecaster pf, PrepareData => method c Split_value (Forecasting._prepare_data pf) h
  | Forecaster pf, TrainAndSelectModel =>
      let '(r, pf') :=
        Forecasting.train_and_select_model sqrt LinearRegression RandomForestRegressor h pf in
      (result_map Selection_value r, Forecaster pf', h)
  | Forecaster pf, PredictNext X_last =>
      (result_map Float_value (Forecasting.predict_next pf X_last), c, h)
  | _, _ => (Raise AttributeError, c, h)
  end.

(** What the caller does after the construction: a call on the component,
    or a write to its own table. *)
Inductive event : Type :=
| Call (op : call)
| CallerAssign (d : DataFrame).

Definition is_call (ev : event) : bool :=
  match ev with Call _ => true | CallerAssign _ => false end.

(** The outcomes of the calls, in order, the component and the heap at the
    end. *)
Fixpoint run (table : loc) (c : component) (evs : list event) (h : heap)
  : list (result value) * component * heap :=
  match evs with
  | [] => ([], c, h)
  | Call op :: rest =>
      let '(r, c', h') := invoke c op h in
      let '(rs, c'', h'') := run table c' rest h' in
      (r :: rs, c'', h'')
  | CallerAssign d :: rest => run table c rest (<[table := d]> h)
  end.

(** The caller's table after its own writes. *)
Definition caller_table (d : DataFrame) (evs : list event) : DataFrame :=
  foldl (fun cur ev => match ev with CallerAssign d' => d' | Call _ => cur end) d evs.

End Invoke.

End Components.

(** ** Concrete tables, for the examples *)

Module Examples.

Definition prices (l : list Z) : Series := of_Z <$> l.

(** A table with the single column Close. *)
Definition close_table (close : Series) : DataFrame :=
  {| nrows := length close; columns := [("Close", close)] |}.

(** The caller's table is the one object of the heap. *)
Definition caller : loc := 1%positive.
Definition caller_heap (df : DataFrame) : heap := {[ caller := df ]}.

(** A table with Close and one feature column. *)
Definition feature_table (feature close : Series) : DataFrame :=
  {| nrows := length close; columns := [("Feature", feature); ("Close", close)] |}.

(** Two estimators: one predicts the first training target on every row,
    one predicts zero. *)
Definition first_value : Regressor := fun X y =>
  Returns (fun X' => Returns (replicate (nrows X') (default NaN (head y)))).
Definition always_zero : Regressor := fun X y =>
  Returns (fun X' => Returns (replicate (nrows X') (of_Z 0))).

End Examples.

(** ** Charts: [src/visualization.py] *)

Module Visualization.

(** The calls into [matplotlib.pyplot], in the order they are made.  The
    x values are the table's index throughout. *)
Inductive plt_call : Type :=
| figure (width height : Z)
| plot (y : Series) (label : string)
| bar (height : Series) (alpha : Qc) (label : string)
| axhline (y : Z) (linestyle : string)
| title (text : string)
| xlabel (text : string)
| ylabel (text : string)
| legend
| grid (visible : bool)
| show.

Definition plt (c : plt_call) : M (list plt_call) unit := fun calls =>
  (Ok tt, calls ++ [c]).

Definition price_title : string := "Price with Moving Averages".
Definition rsi_column : string := "RSI".
Definition rsi_title : string := "Relative Strength Index (RSI)".
Definition macd_title : string := "MACD Indicator".

Section Charts.

(** The text [f"DataFrame must contain columns: {required_columns}"]: how
    a set is printed is Python's matter. *)
Variable columns_message : gset string -> string.

(** The argument is a table by its type: the [TypeError] of the
    [isinstance] test has no case here. *)
Definition _validate_dataframe (df : DataFrame) (required_columns : gset string)
  : result unit :=
  if is_empty df then Raise (ValueError "Input DataFrame is empty.")
  else if negb (bool_decide (required_columns ⊆ list_to_set (column_names df))) then
    Raise (ValueError (columns_message required_columns))
  else Ok tt.

(** [for col in ma_columns: plt.plot(df.index, df[col], label=col)] *)
Fixpoint plot_columns (df : DataFrame) (cols : list string) : M (list plt_call) unit :=
  match cols with
  | [] => mret tt
  | col :: rest =>
      y ← lift (getitem col df);
      _ ← plt (plot y col);
      plot_columns df rest
  end.

Definition plot_price_with_ma (df : DataFrame) (ma_columns : list string) (text : string)
  : M (list plt_call) unit :=
  _ ← lift (_validate_dataframe df ({["Close"]} ∪ list_to_set ma_columns));
  _ ← plt (figure 12 6);
  close ← lift (getitem "Close" df);
  _ ← plt (plot close "Close Price");
  _ ← plot_columns df ma_columns;
  _ ← plt (title text);
  _ ← plt (xlabel "Date");
  _ ← plt (ylabel "Price");
  _ ← plt legend;
  _ ← plt (grid true);
  plt show.

Definition plot_rsi (df : DataFrame) (rsi_column : string) (text : string)
  : M (list plt_call) unit :=
  _ ← lift (_validate_dataframe df {[rsi_column]});
  _ ← plt (figure 12 4);
  y ← lift (getitem rsi_column df);
  _ ← plt (plot y "RSI");
  _ ← plt (axhline 70 "--");
  _ ← plt (axhline 30 "--");
  _ ← plt (title text);
  _ ← plt (xlabel "Date");
  _ ← plt (ylabel "RSI");
  _ ← plt legend;
  _ ← plt (grid true);
  plt show.

Definition plot_macd (macd_df : DataFrame) (text : string) : M (list plt_call) unit :=
  _ ← lift (_validate_dataframe macd_df {["MACD"; "Signal"; "Histogram"]});
  _ ← plt (figure 12 5);
  macd_line ← lift (getitem "MACD" macd_df);
  _ ← plt (plot macd_line "MACD");
  signal_line ← lift (getitem "Signal" macd_df);
  _ ← plt (plot signal_line "Signal");
  histogram ← lift (getitem "Histogram" macd_df);
  _ ← plt (bar histogram (Q2Qc (3 # 10)) "Histogram");
  _ ← plt (title text);
  _ ← plt (xlabel "Date");
  _ ← plt legend;
  _ ← plt (grid true);
  plt show.

End Charts.

End Visualization.

(** ** Market data: [src/data_loader.py] *)

Module DataLoader.

(** The loader with its ticker as [__init__] stores it. *)
Record MarketDataLoader : Type := { ticker : string }.

Definition _ALLOWED_PERIODS : list string :=
  ["1d"; "5d"; "1mo"; "3mo"; "6mo"; "1y"; "2y"; "5y"; "10y"; "ytd"; "max"].

Definition required_columns : list string := ["Open"; "High"; "Low"; "Close"; "Volume"].

(** The column labels of a downloaded table: names, or the tuples of a
    [MultiIndex], each with its first level and the further ones. *)
Inductive labels : Type :=
| Index (names : list string)
| MultiIndex (tuples : list (string * list string)).

(** [columns.get_level_values(0)] on a [MultiIndex]; the names
    themselves otherwise. *)
Definition level0 (l : labels) : list string :=
  match l with
  | Index names => names
  | MultiIndex tuples => fst <$> tuples
  end.

(** What [yf.download] returns: labels and, in their order, the columns. *)
Record Download : Type := {
  download_nrows : nat;
  download_labels : labels;
  download_cells : list Series
}.

(** The table once its labels are names. *)
Definition flat (df : Download) : DataFrame :=
  {| nrows := download_nrows df;
     columns := zip (level0 (download_labels df)) (download_cells df) |}.

(** [df.empty]: no row or no column. *)
Definition download_empty (df : Download) : bool :=
  bool_decide (download_nrows df = 0%nat)
  || match download_labels df with
     | Index names => bool_decide (names = [])
     | MultiIndex tuples => bool_decide (tuples = [])
     end.

(** A call of [yf.download(tickers, period, auto_adjust=False,
    progress=False)]. *)
Record request : Type := { tickers : string; period : string }.

Section Loader.

(** The service: what it answers to a request. *)
Variable yf_download : request -> lib_result Download.

(** The two texts that print a set. *)
Variable invalid_period_message : string -> string.
Variable required_columns_message : string.

(** The download, with the requests made so far as the state. *)
Definition download (r : request) : M (list request) Download := fun made =>
  (lift_lib (yf_download r), made ++ [r]).

(** [_validate_dataframe] replaces the labels of its argument by their
    first level; what it leaves is the table [load_by_period] returns. *)
Definition _validate_dataframe (df : Download) : result DataFrame :=
  if download_empty df then Raise (ValueError "No data returned for the given parameters.")
  else
    let df := flat df in
    if negb (forallb (fun name => has_column name df) required_columns)
    then Raise (ValueError required_columns_message)
    else Ok df.

Definition load_by_period (self : MarketDataLoader) (period : string)
  : M (list request) DataFrame :=
  if negb (bool_decide (period ∈ _ALLOWED_PERIODS)) then
    raise (ValueError (invalid_period_message period))
  else
    df ← download {| tickers := ticker self; period := period |};
    lift (_validate_dataframe df).

End Loader.

End DataLoader.

(** ** Reference definitions for the indicators and the builder *)

Module Reference.

(** The recursive exponential update from the first observation on:
    [y = (1 - alpha) * prev + alpha * x]. *)
Fixpoint recursive_ema (alpha prev : Qc) (xs : list Qc) : list Qc :=
  match xs with
  | [] => []
  | x :: tl =>
      let y := (1 - alpha) * prev + alpha * x in
      y :: recursive_ema alpha y tl
  end.

(** A cell that is missing or a number between 0 and 100. *)
Definition missing_or_percent (x : float64) : Prop :=
  x = NaN \/ exists q : Qc, x = Num q /\ 0 ≤ q /\ q ≤ Qc_of_Z 100.

(** A cell that is missing or a number that is not negative. *)
Definition missing_or_nonneg (x : float64) : Prop :=
  x = NaN \/ exists q : Qc, x = Num q /\ 0 ≤ q.

(** A column that is missing on its first [k] rows and on no other. *)
Definition warm_up (k : nat) (s : Series) : Prop :=
  forall (t : nat) (x : float64), s !! t = Some x -> (isnan x = true <-> (t < k)%nat).

(** A column without a missing cell. *)
Definition complete (s : Series) : Prop := Forall (fun x => isnan x = false) s.

(** The longest of the lags: as many leading rows have a lag column without
    a value. *)
Definition longest_lag (lags : list Z) : nat := Z.to_nat (foldr Z.max 0%Z lags).

End Reference.

(** * Theorems *)

(** ** Arithmetic of [float64] *)

Lemma ltb_Num (a b : Qc) : (Num a <? Num b)%flt = bool_decide (a < b).
Proof. reflexivity. Qed.

Lemma ltb_irrefl (x : float64) : (x <? x)%flt = false.
Proof.
  destruct x as [| | |q]; try reflexivity.
  rewrite ltb_Num. apply bool_decide_eq_false, (irreflexivity Qclt).
Qed.

(** ** Decision rule *)

Module StrategyProofs.
Import Strategy.

(** On finite numbers of either kind the code computes the [change] of the
    spec and runs its two tests in order. *)
Lemma recommend_Num (k1 k2 k3 : bool) (a b t : Qc) :
  a ≠ 0 ->
  recommend (__init__ {| numpy := k1; value := Num a |}
                  {| numpy := k2; value := Num b |}
                  {| numpy := k3; value := Num t |}) =
    Ok (if bool_decide (t < change a b) then BUY
        else if bool_decide (change a b < - t) then SELL
        else HOLD).
Proof.
  intros Ha. unfold recommend, __init__, truediv, sub, gt, lt, neg; simpl.
  rewrite (bool_decide_eq_false_2 (a = 0)) by done.
  change ((b + - a) / a) with (change a b).
  destruct (k2 || k1 || k1); simpl; by repeat case_bool_decide.
Qed.

(** C1, as the code has it: with [last_close] zero the rule validates
    nothing.  On built-in floats the division raises [ZeroDivisionError],
    the interpreter's error and not a validation error, whatever the other
    two arguments are; with a numpy scalar for [last_close] or for
    [predicted_price] nothing is raised and a recommendation is returned. *)
Theorem recommend_zero_last_close :
  (forall (predicted_price : float64) (threshold : number),
      recommend (__init__ (PyFloat (Num 0)) (PyFloat predicted_price) threshold)
        = Raise ZeroDivisionError)
  /\ is_ValidationError ZeroDivisionError = false
  /\ (forall predicted_price threshold : number,
        exists r, recommend (__init__ (NpFloat (Num 0)) predicted_price threshold) = Ok r)
  /\ (forall (predicted_price : float64) (threshold : number),
        exists r, recommend (__init__ (PyFloat (Num 0)) (NpFloat predicted_price) threshold)
                  = Ok r).
Proof.
  split; [done|]. split; [done|]. split.
  - intros p th. unfold recommend, __init__, truediv, sub; simpl.
    rewrite orb_true_r. simpl.
    destruct (gt _ _); [by eexists|]. destruct (lt _ _); by eexists.
  - intros p th. unfold recommend, __init__, truediv, sub; simpl.
    destruct (gt _ _); [by eexists|]. destruct (lt _ _); by eexists.
Qed.

(** C1 as stated fails: with [last_close = 0], [predicted_price = 1] and the
    default threshold no validation error is raised, neither on built-in
    floats, where the error is [ZeroDivisionError], nor with [last_close] a
    numpy scalar, where the change is infinite and the rule returns BUY. *)
Lemma recommend_zero_no_ValidationError :
  (~ exists e, recommend (__init__ (PyFloat (of_Z 0)) (PyFloat (of_Z 1)) default_threshold)
                 = Raise e
               /\ is_ValidationError e = true)
  /\ recommend (__init__ (NpFloat (of_Z 0)) (PyFloat (of_Z 1)) default_threshold) = Ok BUY.
Proof.
  split; [|reflexivity].
  intros (e & He & Hv). vm_compute in He. by simplify_eq.
Qed.




End StrategyProofs.

(** ** Rolling windows *)

Module PandasProofs.

Lemma length_rolling agg (window : nat) (xs : Series) :
  length (rolling agg window xs) = length xs.
Proof. unfold rolling. by rewrite length_fmap, length_seq. Qed.

Lemma lookup_rolling agg (window : nat) (xs : Series) (t : nat) :
  (t < length xs)%nat ->
  rolling agg window xs !! t =
    Some (let obs := observations (window_at window t xs) in
          if decide (window <= length obs)%nat then agg obs else NaN).
Proof.
  intros Ht. unfold rolling.
  by rewrite list_lookup_fmap, lookup_seq_lt.
Qed.

Lemma observations_cons (x : float64) (win : Series) :
  observations (x :: win) =
    match observation x with
    | Some q => q :: observations win
    | None => observations win
    end.
Proof. reflexivity. Qed.

Lemma length_observations (win : Series) :
  (length (observations win) <= length win)%nat.
Proof.
  induction win as [|x win IH]; [done|].
  rewrite observations_cons. destruct (observation x); simpl; lia.
Qed.

Lemma observations_finite (win : Series) (qs : list Qc) :
  finite_values win = Some qs -> observations win = qs /\ length qs = length win.
Proof.
  unfold finite_values. intros H%mapM_Some.
  induction H as [|x q win qs Hx _ [IH1 IH2]]; [done|].
  rewrite observations_cons, Hx. simpl. split; congruence.
Qed.

Lemma observations_not_finite (win : Series) :
  finite_values win = None -> (length (observations win) < length win)%nat.
Proof.
  unfold finite_values. intros H%mapM_None.
  induction H as [x win Hx|x win _ IH]; rewrite observations_cons.
  - pose proof (length_observations win). rewrite Hx. simpl. lia.
  - destruct (observation x); simpl; lia.
Qed.

Lemma length_window_at (window t : nat) (xs : Series) :
  (length (window_at window t xs) <= window `min` (t + 1))%nat.
Proof. unfold window_at. rewrite length_take. lia. Qed.

Lemma window_at_full (window t : nat) (xs : Series) :
  (window <= t + 1)%nat -> window_at window t xs = Spec.trailing_window window t xs.
Proof.
  intros H. unfold window_at, Spec.trailing_window. by rewrite Nat.min_l.
Qed.

Lemma length_trailing_window (window t : nat) (xs : Series) :
  (window <= t + 1)%nat -> (t < length xs)%nat ->
  length (Spec.trailing_window window t xs) = window.
Proof.
  intros H Ht. unfold Spec.trailing_window. rewrite length_take, length_drop. lia.
Qed.

(** A row with fewer than [window] rows up to it has no rolling value. *)
Lemma lookup_rolling_short agg (window t : nat) (xs : Series) :
  (t + 1 < window)%nat -> (t < length xs)%nat -> rolling agg window xs !! t = Some NaN.
Proof.
  intros Hw Ht. rewrite lookup_rolling by done. simpl.
  pose proof (length_observations (window_at window t xs)).
  pose proof (length_window_at window t xs).
  rewrite decide_False; [done | lia].
Qed.

(** A later row has the mean of its trailing window. *)
Lemma lookup_rolling_mean (window t : nat) (xs : Series) :
  (0 < window <= t + 1)%nat -> (t < length xs)%nat ->
  rolling_mean window xs !! t =
    Some (Spec.arithmetic_mean (Spec.trailing_window window t xs)).
Proof.
  intros Hw Ht. unfold rolling_mean. rewrite lookup_rolling by done. simpl.
  rewrite window_at_full by lia.
  pose proof (length_trailing_window window t xs ltac:(lia) Ht) as Hlen.
  unfold Spec.arithmetic_mean.
  destruct (finite_values (Spec.trailing_window window t xs)) as [qs|] eqn:Hfin.
  - apply observations_finite in Hfin as [-> Hqs].
    rewrite decide_True by lia. done.
  - apply observations_not_finite in Hfin.
    rewrite decide_False by lia. done.
Qed.

Lemma finite_values_numbers (qs : list Qc) : finite_values (Num <$> qs) = Some qs.
Proof.
  unfold finite_values. apply mapM_Some. induction qs; by constructor.
Qed.

(** The mean of a window of numbers is their sum over their count. *)
Lemma arithmetic_mean_numbers (win : Series) (qs : list Qc) :
  win = Num <$> qs ->
  Spec.arithmetic_mean win = Num (Qc_sum qs / Qc_of_nat (length qs)).
Proof.
  intros ->. unfold Spec.arithmetic_mean. by rewrite finite_values_numbers.
Qed.

End PandasProofs.

(** ** Heap *)

Lemma deref_run (l : loc) (h : heap) (d : DataFrame) :
  h !! l = Some d -> deref l h = (Ok d, h).
Proof. unfold deref. by intros ->. Qed.

Lemma copy_run (l : loc) (h : heap) (d : DataFrame) :
  h !! l = Some d -> copy l h = (Ok (fresh (dom h)), <[fresh (dom h) := d]> h).
Proof. intros Hl. unfold copy, new, mbind, M_bind. by rewrite (deref_run l h d). Qed.

(** The reference of a new object is none of the old ones. *)
Lemma fresh_not_allocated (h : heap) (l : loc) (d : DataFrame) :
  h !! l = Some d -> fresh (dom h) ≠ l.
Proof.
  intros Hl Heq. apply (is_fresh (dom h)). rewrite Heq.
  apply elem_of_dom. by eexists.
Qed.

(** *** Methods that touch one object *)

Lemma written_lookup (l : loc) (w : option DataFrame) (h h' : heap) :
  h !! l = h' !! l -> written l w h !! l = written l w h' !! l.
Proof. intros Hl. destruct w; simpl; [|done]. by rewrite !lookup_insert_eq. Qed.

Lemma written_frame (l l' : loc) (w : option DataFrame) (h : heap) :
  l' ≠ l -> written l w h !! l' = h !! l'.
Proof. intros Hne. destruct w; simpl; [|done]. by rewrite lookup_insert_ne. Qed.

Lemma written_written (l : loc) (w1 w2 : option DataFrame) (h : heap) :
  written l w2 (written l w1 h) =
    written l (match w2 with Some d => Some d | None => w1 end) h.
Proof. destruct w1, w2; simpl; try done. by rewrite insert_insert_eq. Qed.

Section Local.

Context {A B : Type}.
Variable l : loc.

Lemma local_ret (a : A) : local l (mret a : M heap A).
Proof. intros h h' _. by exists (Ok a), None. Qed.

Lemma local_raise (e : exn) : local l (raise e : M heap A).
Proof. intros h h' _. by exists (Raise e), None. Qed.

Lemma local_lift (r : result A) : local l (lift r : M heap A).
Proof. intros h h' _. by exists r, None. Qed.

Lemma local_deref : local l (deref l).
Proof.
  intros h h' Hl. unfold deref. rewrite <- Hl.
  destruct (h !! l) as [d|]; [by exists (Ok d), None|].
  by exists (Raise (LibraryError "ReferenceError")), None.
Qed.

Lemma local_assign (d : DataFrame) : local l (assign l d).
Proof. intros h h' _. by exists (Ok tt), (Some d). Qed.

Lemma local_bind (m : M heap A) (k : A -> M heap B) :
  local l m -> (forall a, local l (k a)) -> local l (m ≫= k).
Proof.
  intros Hm Hk h h' Hl. unfold mbind, M_bind.
  destruct (Hm h h' Hl) as (r & w & -> & ->).
  destruct r as [a|e]; [|by exists (Raise e), w].
  destruct (Hk a (written l w h) (written l w h') (written_lookup l w h h' Hl))
    as (r' & w' & -> & ->).
  exists r', (match w' with Some d => Some d | None => w end).
  by rewrite !written_written.
Qed.

(** On two heaps with the same object at [l] a local method returns the
    same and leaves the same object at [l]. *)
Lemma local_agree (m : M heap A) (h h' : heap) :
  local l m -> h !! l = h' !! l ->
  (m h).1 = (m h').1 /\ (m h).2 !! l = (m h').2 !! l.
Proof.
  intros Hm Hl. destruct (Hm h h' Hl) as (r & w & -> & ->).
  split; [done|]. by apply written_lookup.
Qed.

End Local.

(** ** Indicator engine *)

Module IndicatorsProofs.
Import Indicators PandasProofs.

Section Instance.

(** An indicator object whose table holds a Close column, as [__init__]
    leaves it. *)
Variables (self : TechnicalIndicators) (h : heap) (df : DataFrame) (close : Series).
Hypothesis Hdata : h !! data self = Some df.
Hypothesis Hclose : getitem "Close" df = Ok close.

Lemma Close_run : Close self h = (Ok close, h).
Proof using Hdata Hclose.
  unfold Close, deref, lift, mbind, M_bind. by rewrite Hdata, Hclose.
Qed.

Lemma sma_run (window : Z) :
  (0 < window)%Z -> sma self window h = (Ok (rolling_mean (Z.to_nat window) close), h).
Proof using Hdata Hclose.
  intros Hw. unfold sma. rewrite bool_decide_eq_false_2 by lia.
  unfold mbind, M_bind. by rewrite Close_run.
Qed.

Lemma ema_run (window : Z) :
  (0 < window)%Z -> ema self window h = (Ok (ewm_mean (Z.to_nat window) close), h).
Proof using Hdata Hclose.
  intros Hw. unfold ema. rewrite bool_decide_eq_false_2 by lia.
  unfold mbind, M_bind. by rewrite Close_run.
Qed.

Lemma rsi_run (window : Z) :
  (0 < window)%Z ->
  rsi self window h =
    (Ok (rsi_of_rs <$> series_div (avg_gain (Z.to_nat window) close)
                                  (avg_loss (Z.to_nat window) close)), h).
Proof using Hdata Hclose.
  intros Hw. unfold rsi. rewrite bool_decide_eq_false_2 by lia.
  unfold mbind, M_bind. by rewrite Close_run.
Qed.

End Instance.

(** C3: for a positive [window], [sma] returns a Series as long as Close;
    its entries before row [window - 1] are missing, and every later entry
    is the arithmetic mean of the trailing [window] Close values ending at
    and including its row: their sum over [window] when they are numbers. *)
Theorem sma_spec (self : TechnicalIndicators) (h : heap) (df : DataFrame)
    (close : Series) (window : Z) :
  h !! data self = Some df ->
  getitem "Close" df = Ok close ->
  (0 < window)%Z ->
  exists out : Series,
    sma self window h = (Ok out, h)
    /\ length out = length close
    /\ (forall t : nat, (t < Z.to_nat window - 1)%nat -> (t < length close)%nat ->
          out !! t = Some NaN)
    /\ (forall t : nat, (Z.to_nat window - 1 <= t < length close)%nat ->
          out !! t =
            Some (Spec.arithmetic_mean (Spec.trailing_window (Z.to_nat window) t close)))
    /\ (forall (t : nat) (qs : list Qc), (Z.to_nat window - 1 <= t < length close)%nat ->
          Spec.trailing_window (Z.to_nat window) t close = Num <$> qs ->
          out !! t = Some (Num (Qc_sum qs / Qc_of_Z window))).
Proof.
  intros Hdata Hclose Hw. eexists. split; [by eapply sma_run|].
  split; [apply length_rolling|]. split; [|split].
  - intros t Ht Hlen. apply lookup_rolling_short; lia.
  - intros t Ht. apply lookup_rolling_mean; lia.
  - intros t qs Ht Hqs. rewrite lookup_rolling_mean by lia.
    rewrite (arithmetic_mean_numbers _ qs Hqs). do 3 f_equal.
    assert (Hlen : length qs = Z.to_nat window).
    { rewrite <- (length_fmap Num qs), <- Hqs. apply length_trailing_window; lia. }
    unfold Qc_of_nat. rewrite Hlen. f_equal. lia.
Qed.

Lemma sma_spec_witness :
  let close := Examples.prices [10; 11; 13]%Z in
  let h := Examples.caller_heap (Examples.close_table close) in
  exists out : Series,
    sma {| data := Examples.caller |} 2 h = (Ok out, h)
    /\ length out = 3%nat
    /\ out !! 0%nat = Some NaN
    /\ out !! 2%nat = Some (Num (Qc_sum [Qc_of_Z 11; Qc_of_Z 13] / Qc_of_Z 2)).
Proof.
  intros close h.
  destruct (sma_spec {| data := Examples.caller |} h (Examples.close_table close) close 2)
    as (out & Hrun & Hlen & Hnan & _ & Hnum).
  - reflexivity.
  - reflexivity.
  - lia.
  - exists out. split; [exact Hrun|]. split; [exact Hlen|]. split.
    + apply Hnan; simpl; lia.
    + apply (Hnum 2%nat [Qc_of_Z 11; Qc_of_Z 13]); [simpl; lia | reflexivity].
Defined.

(** *** Exponential mean *)

Lemma length_ewm_scan (alpha : Qc) (st : ewm_state) (xs : Series) :
  length (ewm_scan alpha st xs) = length xs.
Proof.
  revert st. induction xs as [|x xs IH]; intros st; simpl; [done|]. by rewrite IH.
Qed.

Lemma length_ewm_mean (span : nat) (xs : Series) :
  length (ewm_mean span xs) = length xs.
Proof.
  unfold ewm_mean. rewrite <- (length_fmap (fun x => if isinf x then NaN else x) xs).
  fold (prep_values xs). destruct (prep_values xs); simpl; [done|].
  by rewrite length_ewm_scan.
Qed.

Lemma eqb_refl (x : float64) : isnan x = false -> Float.eqb x x = true.
Proof. destruct x; try done; intros _; by apply bool_decide_eq_true_2. Qed.

(** A running value equal to the observation stays where it is. *)
Lemma ewm_step_same (alpha w : Qc) (c : float64) :
  weighted (ewm_step alpha {| weighted := c; old_wt := w |} c) = c.
Proof.
  unfold ewm_step. simpl. destruct (isnan c) eqn:Hc; [done|]. simpl.
  by rewrite eqb_refl.
Qed.

Lemma ewm_scan_constant (alpha w : Qc) (c : float64) (n : nat) :
  ewm_scan alpha {| weighted := c; old_wt := w |} (replicate n c) = replicate n c.
Proof.
  revert w. induction n as [|n IH]; intros w; simpl; [done|].
  pose proof (ewm_step_same alpha w c) as Hw.
  destruct (ewm_step alpha {| weighted := c; old_wt := w |} c) as [c' w'].
  simpl in Hw. subst c'. simpl. by rewrite IH.
Qed.

Lemma ewm_mean_constant (span : nat) (c : Qc) (n : nat) :
  ewm_mean span (replicate n (Num c)) = replicate n (Num c).
Proof.
  unfold ewm_mean, prep_values. rewrite fmap_replicate. simpl.
  destruct n; simpl; [done|]. by rewrite ewm_scan_constant.
Qed.

(** *** MACD *)

Lemma length_series_sub (a b : Series) :
  length a = length b -> length (series_sub a b) = length a.
Proof. intros H. unfold series_sub. rewrite length_zip_with. lia. Qed.

Lemma lookup_series_sub (a b : Series) (t : nat) (x y : float64) :
  a !! t = Some x -> b !! t = Some y -> series_sub a b !! t = Some (x - y)%flt.
Proof.
  intros Ha Hb. unfold series_sub. by rewrite lookup_zip_with, Ha, Hb.
Qed.

Lemma macd_run (self : TechnicalIndicators) (h : heap) (df : DataFrame)
    (close : Series) (fast slow signal : Z) :
  h !! data self = Some df ->
  getitem "Close" df = Ok close ->
  (0 < fast)%Z -> (0 < slow)%Z -> (0 < signal)%Z ->
  let macd_line :=
    series_sub (ewm_mean (Z.to_nat fast) close) (ewm_mean (Z.to_nat slow) close) in
  let signal_line := ewm_mean (Z.to_nat signal) macd_line in
  macd self fast slow signal h =
    (Ok {| nrows := length macd_line;
           columns := [("MACD", macd_line); ("Signal", signal_line);
                       ("Histogram", series_sub macd_line signal_line)] |}, h).
Proof.
  intros Hdata Hclose Hf Hs Hg. simpl. unfold macd. simpl.
  rewrite !bool_decide_eq_true_2 by lia. simpl.
  unfold mbind, M_bind.
  rewrite (ema_run self h df close Hdata Hclose fast Hf).
  rewrite (ema_run self h df close Hdata Hclose slow Hs).
  reflexivity.
Qed.

(** C5: for positive periods [macd] returns a table whose MACD column is
    EMA(fast) - EMA(slow) of Close, whose Signal column is EMA(signal) of the
    MACD column, and whose Histogram column is MACD - Signal at every row. *)
Theorem macd_histogram_identity (self : TechnicalIndicators) (h : heap)
    (df : DataFrame) (close : Series) (fast slow signal : Z) :
  h !! data self = Some df ->
  getitem "Close" df = Ok close ->
  (0 < fast)%Z -> (0 < slow)%Z -> (0 < signal)%Z ->
  exists (table : DataFrame) (ema_fast ema_slow macd_line signal_line histogram : Series),
    macd self fast slow signal h = (Ok table, h)
    /\ ema self fast h = (Ok ema_fast, h)
    /\ ema self slow h = (Ok ema_slow, h)
    /\ getitem "MACD" table = Ok macd_line
    /\ getitem "Signal" table = Ok signal_line
    /\ getitem "Histogram" table = Ok histogram
    /\ signal_line = ewm_mean (Z.to_nat signal) macd_line
    /\ nrows table = length close
    /\ length macd_line = length close
    /\ length signal_line = length close
    /\ length histogram = length close
    /\ forall t : nat, (t < length close)%nat ->
         exists f s m g : float64,
           ema_fast !! t = Some f /\ ema_slow !! t = Some s
           /\ macd_line !! t = Some m /\ m = (f - s)%flt
           /\ signal_line !! t = Some g
           /\ histogram !! t = Some (m - g)%flt.
Proof.
  intros Hdata Hclose Hf Hs Hg.
  set (ema_fast := ewm_mean (Z.to_nat fast) close).
  set (ema_slow := ewm_mean (Z.to_nat slow) close).
  set (macd_line := series_sub ema_fast ema_slow).
  set (signal_line := ewm_mean (Z.to_nat signal) macd_line).
  assert (Hlf : length ema_fast = length close) by apply length_ewm_mean.
  assert (Hls : length ema_slow = length close) by apply length_ewm_mean.
  assert (Hlm : length macd_line = length close).
  { unfold macd_line. rewrite length_series_sub; congruence. }
  assert (Hlg : length signal_line = length close).
  { unfold signal_line. by rewrite length_ewm_mean. }
  exists {| nrows := length macd_line;
            columns := [("MACD", macd_line); ("Signal", signal_line);
                        ("Histogram", series_sub macd_line signal_line)] |},
    ema_fast, ema_slow, macd_line, signal_line, (series_sub macd_line signal_line).
  split; [by eapply macd_run|].
  split; [by eapply ema_run|].
  split; [by eapply ema_run|].
  do 3 (split; [reflexivity|]).
  split; [reflexivity|].
  split; [done|]. split; [done|]. split; [done|].
  split; [rewrite length_series_sub; congruence|].
  intros t Ht.
  destruct (lookup_lt_is_Some_2 ema_fast t) as [f Hf']; [lia|].
  destruct (lookup_lt_is_Some_2 ema_slow t) as [s Hs']; [lia|].
  destruct (lookup_lt_is_Some_2 signal_line t) as [g Hg']; [lia|].
  exists f, s, (f - s)%flt, g.
  assert (Hm : macd_line !! t = Some (f - s)%flt) by by apply lookup_series_sub.
  repeat split; try done. by apply lookup_series_sub.
Qed.

Lemma macd_histogram_identity_witness :
  let close := Examples.prices [10; 11; 13]%Z in
  let h := Examples.caller_heap (Examples.close_table close) in
  exists (table : DataFrame) (ema_fast ema_slow macd_line signal_line histogram : Series),
    macd {| data := Examples.caller |} macd_fast macd_slow macd_signal h = (Ok table, h)
    /\ ema {| data := Examples.caller |} macd_fast h = (Ok ema_fast, h)
    /\ ema {| data := Examples.caller |} macd_slow h = (Ok ema_slow, h)
    /\ getitem "MACD" table = Ok macd_line
    /\ getitem "Signal" table = Ok signal_line
    /\ getitem "Histogram" table = Ok histogram
    /\ signal_line = ewm_mean (Z.to_nat macd_signal) macd_line
    /\ nrows table = length close
    /\ length macd_line = length close
    /\ length signal_line = length close
    /\ length histogram = length close
    /\ forall t : nat, (t < length close)%nat ->
         exists f s m g : float64,
           ema_fast !! t = Some f /\ ema_slow !! t = Some s
           /\ macd_line !! t = Some m /\ m = (f - s)%flt
           /\ signal_line !! t = Some g
           /\ histogram !! t = Some (m - g)%flt.
Proof.
  intros close h.
  apply (macd_histogram_identity {| data := Examples.caller |} h
           (Examples.close_table close) close macd_fast macd_slow macd_signal).
  - reflexivity.
  - reflexivity.
  - reflexivity.
  - reflexivity.
  - reflexivity.
Defined.

(** *** RSI *)

Lemma Qc_sum_zeros (l : list Qc) : Forall (fun q => q = 0) l -> Qc_sum l = 0.
Proof.
  induction 1 as [|q l -> _ IH]; [done|].
  unfold Qc_sum in *. simpl. rewrite IH. ring.
Qed.

Lemma Qc_mean_zeros (l : list Qc) : Forall (fun q => q = 0) l -> Qc_mean l = 0.
Proof. intros H. unfold Qc_mean. rewrite Qc_sum_zeros by done. apply Qcmult_0_l. Qed.

Lemma observations_zeros (win : Series) :
  Forall nan_or_zero win -> Forall (fun q => q = 0) (observations win).
Proof.
  induction 1 as [|x win [->| ->] _ IH]; rewrite ?observations_cons; simpl; auto.
Qed.

Lemma rolling_mean_nan_or_zero (window : nat) (xs : Series) :
  Forall nan_or_zero xs -> Forall nan_or_zero (rolling_mean window xs).
Proof.
  intros Hxs. apply Forall_lookup. intros t x Hx.
  assert (Ht : (t < length xs)%nat).
  { apply lookup_lt_Some in Hx. unfold rolling_mean in Hx.
    by rewrite length_rolling in Hx. }
  unfold rolling_mean in Hx. rewrite lookup_rolling in Hx by done.
  simpl in Hx. injection Hx as <-.
  case_decide; [|by left]. right. f_equal.
  apply Qc_mean_zeros, observations_zeros.
  unfold window_at. by apply Forall_take, Forall_drop.
Qed.

Lemma zip_with_replicate_tail {A B} (f : A -> A -> B) (c : A) (n : nat) :
  zip_with f (replicate n c) (c :: replicate n c) = replicate n (f c c).
Proof. induction n as [|n IH]; simpl; [done|]. by rewrite IH. Qed.

Lemma diff_constant (c : float64) (n : nat) :
  diff (replicate (S n) c) = NaN :: replicate n (c - c)%flt.
Proof. simpl. by rewrite zip_with_replicate_tail. Qed.

Lemma sub_self (c : float64) : nan_or_zero (c - c)%flt.
Proof.
  destruct c as [| | |q]; try by left.
  right. unfold Float.sub. simpl. f_equal. ring.
Qed.

Lemma gain_constant (c : float64) (n : nat) : Forall nan_or_zero (gain (replicate n c)).
Proof.
  destruct n as [|n]; [by constructor|].
  unfold gain. rewrite diff_constant. unfold clip_lower.
  rewrite fmap_cons, fmap_replicate. constructor; [by left|].
  apply Forall_replicate.
  destruct (sub_self c) as [-> | ->]; [by left|]. right.
  unfold of_Z. rewrite Z2Qc_inj_0. by rewrite ltb_irrefl.
Qed.

Lemma loss_constant (c : float64) (n : nat) : Forall nan_or_zero (loss (replicate n c)).
Proof.
  destruct n as [|n]; [by constructor|].
  unfold loss. rewrite diff_constant. unfold clip_upper, series_neg.
  rewrite !fmap_cons, !fmap_replicate. constructor; [by left|].
  apply Forall_replicate.
  destruct (sub_self c) as [-> | ->]; [by left|]. right.
  unfold of_Z, Float.gtb. rewrite Z2Qc_inj_0. rewrite ltb_irrefl. simpl.
  by f_equal.
Qed.

Lemma rsi_of_rs_NaN : rsi_of_rs NaN = NaN.
Proof. reflexivity. Qed.

(** Both averages missing, or both zero: the ratio is NaN. *)
Lemma div_nan_or_zero (x y : float64) :
  nan_or_zero x -> nan_or_zero y -> (x / y)%flt = NaN.
Proof. by intros [-> | ->] [-> | ->]. Qed.

Lemma rsi_of_rs_saturated (g : Qc) :
  0 < g -> rsi_of_rs (Num g / Num 0)%flt = of_Z 100.
Proof.
  intros Hg. unfold Float.div. rewrite bool_decide_eq_true_2 by done.
  unfold inf_signed. rewrite bool_decide_eq_true_2 by done.
  unfold rsi_of_rs, of_Z. simpl. f_equal. ring.
Qed.

(** Either infinity saturates, so the sign of a zero average loss, which
    the one zero of [float64] does not keep, makes no difference. *)
Lemma rsi_of_rs_inf : rsi_of_rs PInf = of_Z 100 /\ rsi_of_rs NInf = of_Z 100.
Proof. unfold rsi_of_rs, of_Z. simpl. split; f_equal; ring. Qed.

Lemma lookup_rsi (self : TechnicalIndicators) (h : heap) (df : DataFrame)
    (close : Series) (window : Z) (t : nat) (g l : float64) :
  h !! data self = Some df ->
  getitem "Close" df = Ok close ->
  (0 < window)%Z ->
  avg_gain (Z.to_nat window) close !! t = Some g ->
  avg_loss (Z.to_nat window) close !! t = Some l ->
  exists out : Series,
    rsi self window h = (Ok out, h) /\ out !! t = Some (rsi_of_rs (g / l)%flt).
Proof.
  intros Hdata Hclose Hw Hg Hl. eexists. split; [by eapply rsi_run|].
  unfold series_div. by rewrite list_lookup_fmap, lookup_zip_with, Hg, Hl.
Qed.

Lemma rsi_constant_run (n : nat) (c : float64) (window : nat) :
  rsi_of_rs <$> series_div (avg_gain window (replicate n c))
                           (avg_loss window (replicate n c)) = replicate n NaN.
Proof.
  pose proof (rolling_mean_nan_or_zero window _ (gain_constant c n)) as Hg.
  pose proof (rolling_mean_nan_or_zero window _ (loss_constant c n)) as Hl.
  fold (avg_gain window (replicate n c)) in Hg.
  fold (avg_loss window (replicate n c)) in Hl.
  assert (Hlg : length (avg_gain window (replicate n c)) = n).
  { unfold avg_gain, rolling_mean, gain, clip_lower.
    rewrite length_rolling, length_fmap.
    destruct n; [done|]. rewrite diff_constant. simpl. by rewrite length_replicate. }
  assert (Hll : length (avg_loss window (replicate n c)) = n).
  { unfold avg_loss, rolling_mean, loss, clip_upper, series_neg.
    rewrite length_rolling, !length_fmap.
    destruct n; [done|]. rewrite diff_constant. simpl. by rewrite length_replicate. }
  revert Hg Hl Hlg Hll.
  generalize (avg_gain window (replicate n c)) (avg_loss window (replicate n c)).
  clear. induction n as [|n IH]; intros [|g gs] [|l ls] Hg Hl Hlg Hll;
    simplify_eq/=; [done|].
  inversion_clear Hg as [|? ? Hg1 Hgs]. inversion_clear Hl as [|? ? Hl1 Hls].
  rewrite (div_nan_or_zero g l) by done. rewrite rsi_of_rs_NaN.
  f_equal. by apply IH.
Qed.

(** On a constant Close series [ema] repeats the constant and [rsi] is
    missing throughout. *)
Lemma constant_close_run (self : TechnicalIndicators) (h : heap)
    (df : DataFrame) (window : Z) (c : Qc) (n : nat) :
  h !! data self = Some df ->
  (0 < window)%Z ->
  getitem "Close" df = Ok (replicate n (Num c)) ->
  ema self window h = (Ok (replicate n (Num c)), h)
  /\ rsi self window h = (Ok (replicate n NaN), h).
Proof.
  intros Hdata Hw Hclose. split.
  - rewrite (ema_run self h df _ Hdata Hclose) by done.
    by rewrite ewm_mean_constant.
  - rewrite (rsi_run self h df _ Hdata Hclose) by done.
    by rewrite rsi_constant_run.
Qed.

(** C2, amended: on a Close series of constant value [c], [ema] equals [c]
    at every row and [rsi] is a missing value at every row, since the
    rolling average gain is zero wherever the rolling average loss is; on
    any Close series [rsi] reports 100 on the rows where the rolling
    average loss is zero and the rolling average gain is positive. *)
Theorem constant_series_ema_rsi (self : TechnicalIndicators) (h : heap)
    (df : DataFrame) (window : Z) :
  h !! data self = Some df ->
  (0 < window)%Z ->
  (forall (c : Qc) (n : nat),
      getitem "Close" df = Ok (replicate n (Num c)) ->
      ema self window h = (Ok (replicate n (Num c)), h)
      /\ rsi self window h = (Ok (replicate n NaN), h))
  /\ (forall (close : Series) (t : nat) (g : Qc),
        getitem "Close" df = Ok close ->
        avg_loss (Z.to_nat window) close !! t = Some (Num 0) ->
        avg_gain (Z.to_nat window) close !! t = Some (Num g) ->
        0 < g ->
        exists out : Series,
          rsi self window h = (Ok out, h) /\ out !! t = Some (of_Z 100)).
Proof.
  intros Hdata Hw. split.
  - intros c n Hclose. by apply (constant_close_run self h df).
  - intros close t g Hclose Hl Hg Hpos.
    destruct (lookup_rsi self h df close window t _ _ Hdata Hclose Hw Hg Hl)
      as (out & Hrun & Hout).
    exists out. split; [done|]. by rewrite Hout, rsi_of_rs_saturated.
Qed.

Lemma constant_series_ema_rsi_witness :
  let ti := {| data := Examples.caller |} in
  let flat := Examples.caller_heap (Examples.close_table (replicate 3 (of_Z 5))) in
  let rising := Examples.caller_heap (Examples.close_table (Examples.prices [1; 2; 3]%Z)) in
  (ema ti 2 flat = (Ok (replicate 3 (of_Z 5)), flat)
   /\ rsi ti 2 flat = (Ok (replicate 3 NaN), flat))
  /\ exists out : Series, rsi ti 2 rising = (Ok out, rising) /\ out !! 2%nat = Some (of_Z 100).
Proof.
  intros ti flat rising. split.
  - apply (constant_series_ema_rsi ti flat
             (Examples.close_table (replicate 3 (of_Z 5))) 2); [reflexivity | lia | reflexivity].
  - apply (proj2 (constant_series_ema_rsi ti rising
                    (Examples.close_table (Examples.prices [1; 2; 3]%Z)) 2
                    ltac:(reflexivity) ltac:(lia))
             (Examples.prices [1; 2; 3]%Z) 2%nat 1).
    + reflexivity.
    + apply (bool_decide_unpack _). by vm_compute.
    + apply (bool_decide_unpack _). by vm_compute.
    + reflexivity.
Defined.

(** C2 as stated fails: on the constant series 5, 5, 5 with [window = 2] the
    rolling average loss of row 2 is zero and [rsi] is missing there, not
    100. *)
Lemma rsi_constant_not_saturated :
  let ti := {| data := Examples.caller |} in
  let close := replicate 3 (of_Z 5) in
  let h := Examples.caller_heap (Examples.close_table close) in
  ~ (forall (t : nat) (out : Series),
       avg_loss 2 close !! t = Some (Num 0) ->
       rsi ti 2 h = (Ok out, h) ->
       out !! t = Some (of_Z 100)).
Proof.
  intros ti close h H.
  specialize (H 2%nat (replicate 3 NaN)).
  assert (Hloss : avg_loss 2 close !! 2%nat = Some (Num 0)).
  { apply (bool_decide_unpack _). by vm_compute. }
  assert (Hrsi : rsi ti 2 h = (Ok (replicate 3 NaN), h)).
  { apply (constant_close_run ti h (Examples.close_table close) 2 (Qc_of_Z 5) 3);
      [reflexivity | lia | reflexivity]. }
  specialize (H Hloss Hrsi). discriminate H.
Qed.

End IndicatorsProofs.

(** ** Forecast selector *)

Module ForecastingProofs.
Import Forecasting.

(** *** The split *)

Lemma n_train_floor (n : nat) : n_train n = (4 * n / 5)%nat.
Proof.
  unfold n_train, n_test.
  pose proof (Nat.div_mod_eq (n + 4) 5). pose proof (Nat.div_mod_eq (4 * n) 5).
  pose proof (Nat.mod_upper_bound (n + 4) 5). pose proof (Nat.mod_upper_bound (4 * n) 5).
  lia.
Qed.

Lemma n_test_ceil (n : nat) : (n <= 5 * n_test n < n + 5)%nat.
Proof.
  unfold n_test. pose proof (Nat.div_mod_eq (n + 4) 5).
  pose proof (Nat.mod_upper_bound (n + 4) 5). lia.
Qed.

Lemma n_train_zero (n : nat) : n_train n = 0%nat <-> (n < 2)%nat.
Proof. rewrite n_train_floor. pose proof (Nat.div_mod_eq (4 * n) 5).
  pose proof (Nat.mod_upper_bound (4 * n) 5). lia. Qed.

Lemma assoc_get_fmap (f : Series -> Series) (name : string) (cols : list (string * Series)) :
  assoc_get name (prod_map id f <$> cols) = f <$> assoc_get name cols.
Proof.
  induction cols as [|[k s] cols IH]; [done|].
  simpl. by case_decide.
Qed.

Section Prepare.

Variables (self : PriceForecaster) (h : heap) (d : DataFrame) (y : Series).
Hypothesis Hdf : h !! df self = Some d.
Hypothesis Hy : getitem (target self) d = Ok y.

Lemma _prepare_data_run :
  _prepare_data self h =
    (train_test_split (drop_column (target self) d) y, h).
Proof using Hdf Hy.
  unfold _prepare_data, deref, lift, mbind, M_bind. by rewrite Hdf, Hy.
Qed.

Lemma _prepare_data_small :
  (nrows d < 2)%nat -> _prepare_data self h = (Raise (LibraryError "ValueError"), h).
Proof using Hdf Hy.
  intros Hn. rewrite _prepare_data_run. unfold train_test_split. simpl.
  by rewrite decide_True by by apply n_train_zero.
Qed.

Lemma _prepare_data_split :
  (2 <= nrows d)%nat ->
  let X := drop_column (target self) d in
  let k := n_train (nrows d) in
  _prepare_data self h = (Ok (head_rows k X, tail_rows k X, take k y, drop k y), h).
Proof using Hdf Hy.
  intros Hn. simpl. rewrite _prepare_data_run. unfold train_test_split. simpl.
  rewrite decide_False; [done|]. rewrite n_train_zero. lia.
Qed.

End Prepare.

Lemma assoc_get_elem (name : string) (cols : list (string * Series)) (s : Series) :
  assoc_get name cols = Some s -> (name, s) ∈ cols.
Proof.
  induction cols as [|[k s'] cols IH]; [done|]. simpl.
  case_decide; intros Hs; simplify_eq; [left|right; auto].
Qed.

Lemma drop_column_length (name col_name : string) (d : DataFrame) (col : Series) :
  well_formed d ->
  assoc_get col_name (columns (drop_column name d)) = Some col ->
  length col = nrows d.
Proof.
  intros Hwf Hcol%assoc_get_elem. simpl in Hcol.
  apply list_elem_of_filter in Hcol as [_ Hcol].
  unfold well_formed in Hwf. rewrite list.Forall_forall in Hwf.
  by apply (Hwf (col_name, col)).
Qed.

(** C6, amended: a table of at least two rows is split, in row order and
    with nothing but the row count deciding where, into its leading
    [floor(0.8 n)] rows, the training part, and its trailing [ceil(0.2 n)]
    rows, the test part; running the split again gives the same parts.  A
    table of fewer than two rows is not split: the call fails with the
    [ValueError] of [train_test_split]. *)
Theorem _prepare_data_spec (self : PriceForecaster) (h : heap) (d : DataFrame)
    (y : Series) :
  h !! df self = Some d ->
  getitem (target self) d = Ok y ->
  well_formed d ->
  let n := nrows d in
  let X := drop_column (target self) d in
  ((n < 2)%nat -> _prepare_data self h = (Raise (LibraryError "ValueError"), h))
  /\ ((2 <= n)%nat ->
      exists (X_train X_test : DataFrame) (y_train y_test : Series),
        _prepare_data self h = (Ok (X_train, X_test, y_train, y_test), h)
        /\ _prepare_data self (_prepare_data self h).2 = _prepare_data self h
        /\ nrows X_train = (4 * n / 5)%nat
        /\ nrows X_test = (n - 4 * n / 5)%nat
        /\ (n <= 5 * nrows X_test < n + 5)%nat
        /\ length y_train = nrows X_train
        /\ length y_test = nrows X_test
        /\ y_train ++ y_test = y
        /\ forall (name : string) (col : Series),
             assoc_get name (columns X) = Some col ->
             exists tr te : Series,
               assoc_get name (columns X_train) = Some tr
               /\ assoc_get name (columns X_test) = Some te
               /\ length tr = nrows X_train
               /\ tr ++ te = col).
Proof.
  intros Hdf Hy Hwf n X. split; [by apply (_prepare_data_small self h d y)|].
  intros Hn. set (k := n_train n).
  assert (Hk : k = (4 * n / 5)%nat) by apply n_train_floor.
  assert (Hkn : (k <= n)%nat) by (unfold k, n_train; lia).
  assert (Hylen : length y = n).
  { unfold getitem in Hy.
    destruct (assoc_get (target self) (columns d)) as [s|] eqn:Hs; simplify_eq.
    apply assoc_get_elem in Hs. unfold well_formed in Hwf.
    rewrite list.Forall_forall in Hwf. by apply (Hwf (target self, y)). }
  exists (head_rows k X), (tail_rows k X), (take k y), (drop k y).
  pose proof (_prepare_data_split self h d y Hdf Hy Hn) as Hrun.
  simpl in Hrun. fold n X k in Hrun.
  split; [done|]. split; [by rewrite Hrun|].
  pose proof (n_test_ceil n) as Hceil.
  assert (Htest : (n - k)%nat = n_test n) by (unfold k, n_train; lia).
  assert (Hhead : nrows (head_rows k X) = k) by (simpl; fold n; lia).
  assert (Htail : nrows (tail_rows k X) = n_test n) by (simpl; by fold n).
  rewrite Hhead, Htail.
  split; [lia|]. split; [lia|]. split; [done|].
  split; [rewrite length_take; lia|].
  split; [rewrite length_drop; lia|].
  split; [apply take_drop|].
  intros name col Hcol. exists (take k col), (drop k col).
  pose proof (drop_column_length _ _ _ _ Hwf Hcol) as Hlen. fold n in Hlen.
  unfold head_rows, tail_rows; simpl columns. simpl in Hcol.
  rewrite !assoc_get_fmap, Hcol. simpl.
  split; [done|]. split; [done|].
  split; [rewrite length_take; lia|]. apply take_drop.
Qed.

Lemma _prepare_data_spec_witness :
  let d := Examples.feature_table (Examples.prices [1; 2; 3; 4; 5; 6]%Z)
                                  (Examples.prices [10; 11; 13; 12; 14; 15]%Z) in
  let small := Examples.close_table (Examples.prices [10]%Z) in
  let self := {| df := Examples.caller; target := "Close"; model := None;
                 rmse := None; best_model_name := None |} in
  (exists (X_train X_test : DataFrame) (y_train y_test : Series),
      _prepare_data self (Examples.caller_heap d)
        = (Ok (X_train, X_test, y_train, y_test), Examples.caller_heap d)
      /\ nrows X_train = 4%nat /\ nrows X_test = 2%nat
      /\ y_train = Examples.prices [10; 11; 13; 12]%Z
      /\ y_test = Examples.prices [14; 15]%Z)
  /\ _prepare_data self (Examples.caller_heap small)
      = (Raise (LibraryError "ValueError"), Examples.caller_heap small).
Proof.
  intros d small self. split.
  - destruct (_prepare_data_spec self (Examples.caller_heap d) d
                (Examples.prices [10; 11; 13; 12; 14; 15]%Z)) as [_ Hsplit].
    + reflexivity.
    + reflexivity.
    + unfold well_formed. simpl. repeat constructor.
    + destruct Hsplit as (X_train & X_test & y_train & y_test & Hrun & _ & Htr & Hte & _);
        [simpl; lia|].
      exists X_train, X_test, y_train, y_test.
      split; [exact Hrun|]. split; [exact Htr|]. split; [exact Hte|].
      vm_compute in Hrun. by simplify_eq.
  - apply (_prepare_data_spec self (Examples.caller_heap small) small
             (Examples.prices [10]%Z)).
    + reflexivity.
    + reflexivity.
    + unfold well_formed. simpl. repeat constructor.
    + simpl. lia.
Defined.

(** C6 as stated fails on a table of one row: it is not split at all. *)
Lemma _prepare_data_one_row :
  let h := Examples.caller_heap (Examples.close_table (Examples.prices [10]%Z)) in
  let self := {| df := Examples.caller; target := "Close"; model := None;
                 rmse := None; best_model_name := None |} in
  ~ exists parts, _prepare_data self h = (Ok parts, h).
Proof. intros h self [parts Hrun]. vm_compute in Hrun. discriminate Hrun. Qed.

(** *** Scores *)

Lemma Qc_square_nonneg (x : Qc) : 0 ≤ x * x.
Proof.
  destruct (Qclt_le_dec x 0) as [Hx|Hx].
  - replace (x * x) with ((- x) * (- x)) by ring.
    assert (0 ≤ - x).
    { apply Qclt_le_weak, Qcopp_le_compat in Hx. by replace (- 0) with 0 in Hx by ring. }
    by apply Qcmult_nonneg_nonneg.
  - by apply Qcmult_nonneg_nonneg.
Qed.

Lemma Qc_sum_nonneg (l : list Qc) : Forall (fun q => 0 ≤ q) l -> 0 ≤ Qc_sum l.
Proof.
  induction 1 as [|q l Hq _ IH]; [done|].
  unfold Qc_sum in *. simpl. by apply Qcplus_nonneg_nonneg.
Qed.

Lemma Qc_of_nat_pos (n : nat) : (0 < n)%nat -> 0 < Qc_of_nat n.
Proof.
  intros Hn. unfold Qc_of_nat. rewrite <- Z2Qc_inj_0.
  apply (proj1 (Z2Qc_inj_lt 0 (Z.of_nat n))). lia.
Qed.

Lemma Qc_mean_nonneg (l : list Qc) : l ≠ [] -> Forall (fun q => 0 ≤ q) l -> 0 ≤ Qc_mean l.
Proof.
  intros Hne Hl. unfold Qc_mean, Qcdiv.
  apply Qcmult_nonneg_nonneg; [by apply Qc_sum_nonneg|].
  apply Qclt_le_weak, Qcinv_pos, Qc_of_nat_pos.
  destruct l; [done|simpl; lia].
Qed.

Lemma squares_nonneg (a b : list Qc) :
  Forall (fun q => 0 ≤ q) (zip_with (fun u v => (u - v) * (u - v)) a b).
Proof.
  revert b. induction a as [|u a IH]; intros [|v b]; simpl; try by constructor.
  constructor; [apply Qc_square_nonneg|apply IH].
Qed.

(** A mean squared error is a finite non-negative number. *)
Lemma mean_squared_error_Ok (y_true y_pred : Series) (mse : float64) :
  mean_squared_error y_true y_pred = Ok mse -> exists q : Qc, mse = Num q /\ 0 ≤ q.
Proof.
  unfold mean_squared_error.
  destruct (finite_values y_true) as [a|]; [|done].
  destruct (finite_values y_pred) as [b|]; [|done].
  case_decide as Hlen; [|done]. destruct Hlen as [Hlen Hne].
  intros [= <-]. eexists. split; [done|].
  apply Qc_mean_nonneg; [|apply squares_nonneg].
  destruct a, b; simplify_eq/=; done.
Qed.

Section CandidatesProofs.

Variable sqrt : Qc -> Qc.
Variables LinearRegression RandomForestRegressor : Regressor.

Lemma np_sqrt_nonneg (q : Qc) : 0 ≤ q -> np_sqrt sqrt (Num q) = Num (sqrt q).
Proof.
  intros Hq. unfold np_sqrt. rewrite bool_decide_eq_false_2; [done|].
  by apply Qcle_not_lt.
Qed.

Lemma score_evaluated (candidate : Regressor) (X_train X_test : DataFrame)
    (y_train y_test : Series) (m : Model) (r : float64) :
  score sqrt candidate X_train X_test y_train y_test = Ok (m, r)
  <-> evaluated sqrt candidate X_train X_test y_train y_test m r.
Proof.
  unfold score, evaluated, mbind, result_bind, bind, mret, result_ret, lift_lib.
  split.
  - destruct (candidate X_train y_train) as [m'|]; [|done].
    destruct (m' X_test) as [preds|] eqn:Hp; [|done].
    destruct (mean_squared_error y_test preds) as [mse|] eqn:Hmse; [|done].
    intros [= <- <-]. by exists preds, mse.
  - intros (preds & mse & -> & -> & -> & ->). done.
Qed.

(** The root of a mean squared error is a finite number. *)
Lemma evaluated_finite (candidate : Regressor) (X_train X_test : DataFrame)
    (y_train y_test : Series) (m : Model) (r : float64) :
  evaluated sqrt candidate X_train X_test y_train y_test m r -> exists q : Qc, r = Num q.
Proof.
  intros (preds & mse & _ & _ & Hmse & ->).
  apply mean_squared_error_Ok in Hmse as (q & -> & Hq).
  rewrite np_sqrt_nonneg by done. by eexists.
Qed.

(** The forecaster after the selection of [m] with score [r]. *)
Lemma train_and_select_model_run (h : heap) (self : PriceForecaster)
    (X_train X_test : DataFrame) (y_train y_test : Series)
    (m1 m2 : Model) (q1 q2 : Qc) :
  _prepare_data self h = (Ok (X_train, X_test, y_train, y_test), h) ->
  score sqrt LinearRegression X_train X_test y_train y_test = Ok (m1, Num q1) ->
  score sqrt RandomForestRegressor X_train X_test y_train y_test = Ok (m2, Num q2) ->
  train_and_select_model sqrt LinearRegression RandomForestRegressor h self =
    if bool_decide (q2 < q1) then
      (Ok (Some m2, Num q2),
       {| df := df self; target := target self; model := Some (Some m2);
          rmse := Some (Num q2); best_model_name := Some "RandomForest" |})
    else
      (Ok (Some m1, Num q1),
       {| df := df self; target := target self; model := Some (Some m1);
          rmse := Some (Num q1); best_model_name := Some "LinearRegression" |}).
Proof.
  intros Hprep H1 H2.
  unfold train_and_select_model, mbind, M_bind, lift. rewrite Hprep. simpl.
  unfold mbind, M_bind, lift. rewrite H1. simpl. rewrite H2. simpl.
  by case_bool_decide.
Qed.

(** A run that returns has split the table and evaluated both candidates,
    and has assigned [model]. *)
Lemma train_and_select_model_inv (h : heap) (self self' : PriceForecaster)
    (best : option Model * float64) :
  train_and_select_model sqrt LinearRegression RandomForestRegressor h self
    = (Ok best, self') ->
  model self' = Some best.1
  /\ exists (X_train X_test : DataFrame) (y_train y_test : Series)
       (m1 m2 : Model) (r1 r2 : float64),
       _prepare_data self h = (Ok (X_train, X_test, y_train, y_test), h)
       /\ score sqrt LinearRegression X_train X_test y_train y_test = Ok (m1, r1)
       /\ score sqrt RandomForestRegressor X_train X_test y_train y_test = Ok (m2, r2).
Proof.
  unfold train_and_select_model, mbind, M_bind, lift.
  destruct (_prepare_data self h) as [[[[[X_train X_test] y_train] y_test]|e] h'] eqn:Hprep;
    simpl; [|done].
  assert (h' = h) as ->.
  { revert Hprep. unfold _prepare_data, deref, lift, mbind, M_bind.
    destruct (h !! df self); [|by intros [= _ <-]].
    destruct (getitem _ _); by intros [= _ <-]. }
  unfold mbind, M_bind, lift.
  destruct (score sqrt LinearRegression _ _ _ _) as [[m1 r1]|] eqn:H1; simpl; [|done].
  destruct (score sqrt RandomForestRegressor _ _ _ _) as [[m2 r2]|] eqn:H2.
  2: { by destruct (r1 <? PInf)%flt. }
  intros Hrun. split; [|by exists X_train, X_test, y_train, y_test, m1, m2, r1, r2].
  revert Hrun.
  destruct (r1 <? PInf)%flt; simpl;
    match goal with |- context [(r2 <? ?b)%flt] => destruct (r2 <? b)%flt end;
    simpl; by intros [= <- <-].
Qed.

(** A run that raises leaves [model] as it was. *)
Lemma train_and_select_model_raise (h : heap) (self self' : PriceForecaster) (e : exn) :
  train_and_select_model sqrt LinearRegression RandomForestRegressor h self
    = (Raise e, self') ->
  model self' = model self.
Proof.
  unfold train_and_select_model, mbind, M_bind, lift.
  destruct (_prepare_data self h) as [[[[[X_train X_test] y_train] y_test]|e'] h'];
    simpl; [|by intros [= _ <-]].
  unfold mbind, M_bind, lift.
  destruct (score sqrt LinearRegression _ _ _ _) as [[m1 r1]|]; simpl;
    [|by intros [= _ <-]].
  destruct (score sqrt RandomForestRegressor _ _ _ _) as [[m2 r2]|].
  2: { destruct (r1 <? PInf)%flt; simpl; by intros [= _ <-]. }
  destruct (r1 <? PInf)%flt; simpl;
    match goal with |- context [(r2 <? ?b)%flt] => destruct (r2 <? b)%flt end;
    simpl; done.
Qed.


End CandidatesProofs.


(** *** Prediction *)

Lemma __init___untrained (l : loc) (target : string) (h h' : heap)
    (self : PriceForecaster) :
  __init__ l target h = (Ok self, h') -> model self = None.
Proof.
  unfold __init__, raise, mbind, M_bind, mret, M_ret.
  destruct (h !! l) as [d|] eqn:Hl; [|by unfold deref; rewrite Hl].
  rewrite (deref_run l h d Hl).
  destruct (has_column target d); simpl; [|done].
  rewrite (copy_run l h d Hl). by intros [= <- _].
Qed.

Lemma predict_next_untrained (self : PriceForecaster) (X_last : DataFrame) :
  model self = None -> predict_next self X_last = Raise NotTrainedError.
Proof. unfold predict_next. by intros ->. Qed.

Lemma predict_next_trained (self : PriceForecaster) (X_last : DataFrame)
    (m : option Model) :
  model self = Some m -> predict_next self X_last ≠ Raise NotTrainedError.
Proof.
  unfold predict_next, mbind, result_bind, bind, lift_lib. intros ->.
  destruct m as [m|]; [|done].
  destruct (m X_last) as [[|p preds]|cls]; done.
Qed.

(** C8: [predict_next] raises the not-trained error on a forecaster fresh
    from [__init__], and still after a [train_and_select_model] that
    raised; after a [train_and_select_model] that returned it does not
    raise that error. *)
Theorem predict_next_NotTrainedError (sqrt : Qc -> Qc)
    (LinearRegression RandomForestRegressor : Regressor) :
  (forall (l : loc) (target : string) (h h' : heap) (self : PriceForecaster)
          (X_last : DataFrame),
      __init__ l target h = (Ok self, h') ->
      predict_next self X_last = Raise NotTrainedError)
  /\ (forall (h : heap) (self self' : PriceForecaster) (e : exn) (X_last : DataFrame),
        model self = None ->
        train_and_select_model sqrt LinearRegression RandomForestRegressor h self
          = (Raise e, self') ->
        predict_next self' X_last = Raise NotTrainedError)
  /\ (forall (h : heap) (self self' : PriceForecaster)
             (best : option Model * float64) (X_last : DataFrame),
        train_and_select_model sqrt LinearRegression RandomForestRegressor h self
          = (Ok best, self') ->
        predict_next self' X_last ≠ Raise NotTrainedError).
Proof.
  split; [|split].
  - intros l target h h' self X_last Hinit.
    by eapply predict_next_untrained, __init___untrained.
  - intros h self self' e X_last Hm Hrun.
    apply predict_next_untrained.
    apply train_and_select_model_raise in Hrun. congruence.
  - intros h self self' best X_last Hrun.
    apply train_and_select_model_inv in Hrun as [Hm _].
    by eapply predict_next_trained.
Qed.

Lemma predict_next_NotTrainedError_witness :
  let d := Examples.feature_table (Examples.prices [1; 2; 3; 4; 5; 6]%Z)
                                  (Examples.prices [10; 11; 13; 12; 14; 15]%Z) in
  let h := Examples.caller_heap d in
  let small := Examples.caller_heap (Examples.close_table (Examples.prices [10]%Z)) in
  let X_last := Examples.feature_table (Examples.prices [7]%Z) [] in
  let train := train_and_select_model (fun x => x) Examples.first_value
                 Examples.always_zero in
  (exists (self self' : PriceForecaster) (h' : heap) (best : option Model * float64),
      __init__ Examples.caller "Close" h = (Ok self, h')
      /\ predict_next self X_last = Raise NotTrainedError
      /\ train h' self = (Ok best, self')
      /\ predict_next self' X_last ≠ Raise NotTrainedError)
  /\ (exists (self self' : PriceForecaster) (h' : heap) (e : exn),
        __init__ Examples.caller "Close" small = (Ok self, h')
        /\ train h' self = (Raise e, self')
        /\ predict_next self' X_last = Raise NotTrainedError).
Proof.
  intros d h small X_last train.
  pose proof (predict_next_NotTrainedError (fun x => x) Examples.first_value
                Examples.always_zero) as (Hfresh & Hfailed & Htrained).
  split.
  - destruct (__init__ Examples.caller "Close" h) as [[self|e] h'] eqn:Hinit;
      [|vm_compute in Hinit; discriminate Hinit].
    destruct (train h' self) as [[best|e] self'] eqn:Htrain.
    + exists self, self', h', best.
      split; [reflexivity|]. split; [by eapply Hfresh|].
      split; [exact Htrain|]. by eapply Htrained.
    + vm_compute in Hinit. injection Hinit as <- <-.
      vm_compute in Htrain. discriminate Htrain.
  - destruct (__init__ Examples.caller "Close" small) as [[self|e] h'] eqn:Hinit;
      [|vm_compute in Hinit; discriminate Hinit].
    destruct (train h' self) as [[best|e] self'] eqn:Htrain.
    + vm_compute in Hinit. injection Hinit as <- <-.
      vm_compute in Htrain. discriminate Htrain.
    + exists self, self', h', e.
      split; [reflexivity|]. split; [exact Htrain|].
      eapply Hfailed; [|exact Htrain].
      vm_compute in Hinit. by injection Hinit as <- <-.
Defined.

End ForecastingProofs.

(** ** Feature builder *)

Module FeaturesProofs.
Import Features.

Lemma assoc_get_set_ne (name name' : string) (s : Series) (cols : list (string * Series)) :
  name' ≠ name -> assoc_get name (assoc_set name' s cols) = assoc_get name cols.
Proof.
  intros Hne. induction cols as [|[k s'] cols IH]; simpl.
  - by rewrite decide_False.
  - destruct (decide (k = name')) as [->|Hk]; simpl.
    + by rewrite !decide_False.
    + by rewrite IH.
Qed.

Lemma lag_column_not_Close (lag : Z) : lag_column lag ≠ "Close".
Proof. unfold lag_column. simpl. discriminate. Qed.

Lemma getitem_Close_setitem_lag (lag : Z) (s : Series) (d : DataFrame) :
  getitem "Close" (setitem (lag_column lag) s d) = getitem "Close" d.
Proof.
  unfold getitem, setitem. simpl.
  by rewrite assoc_get_set_ne by apply lag_column_not_Close.
Qed.

(** The loop adds the columns of the positive lags in order, and stops at
    the first lag that is not positive with those before it already
    added. *)
Lemma add_lag_features_loop_run (self : FeatureEngineer) (close : Series)
    (good : list Z) :
  Forall (fun lag => 0 < lag)%Z good ->
  forall (h : heap) (d : DataFrame),
    h !! df self = Some d ->
    getitem "Close" d = Ok close ->
    add_lag_features_loop self good h = (Ok tt, <[df self := with_lags close good d]> h)
    /\ forall (bad : Z) (rest : list Z), (bad <= 0)%Z ->
         add_lag_features_loop self (good ++ bad :: rest) h =
           (Raise (ValueError "Lag values must be positive."),
            <[df self := with_lags close good d]> h).
Proof.
  induction 1 as [|lag good Hlag _ IH]; intros h d Hd Hclose.
  - simpl. rewrite insert_id by done. split; [done|].
    intros bad rest Hbad. by rewrite bool_decide_eq_true_2.
  - assert (Hstep : forall lags,
               add_lag_features_loop self (lag :: lags) h =
                 add_lag_features_loop self lags
                   (<[df self := setitem (lag_column lag) (shift (Z.to_nat lag) close) d]> h)).
    { intros lags. simpl. rewrite bool_decide_eq_false_2 by lia.
      unfold mbind, M_bind, lift, assign. by rewrite (deref_run _ _ d Hd), Hclose. }
    set (d1 := setitem (lag_column lag) (shift (Z.to_nat lag) close) d) in *.
    destruct (IH (<[df self := d1]> h) d1) as [IHok IHbad].
    { by rewrite lookup_insert_eq. }
    { unfold d1. by rewrite getitem_Close_setitem_lag. }
    rewrite insert_insert_eq in IHok.
    split; [by rewrite Hstep|].
    intros bad rest Hbad. rewrite <- app_comm_cons, Hstep, IHbad by done.
    by rewrite insert_insert_eq.
Qed.


End FeaturesProofs.

(** ** Private copies *)

Module ComponentsProofs.
Import Components.

Ltac local_step :=
  first
    [ apply local_ret | apply local_raise | apply local_lift
    | apply local_deref | apply local_assign
    | apply local_bind; [|intros ?]
    | match goal with
      | |- local _ (if ?b then _ else _) => destruct b
      end ].

Ltac local_solve := repeat local_step.

(** *** Every method touches the component's own table only *)

Lemma Close_local (ti : Indicators.TechnicalIndicators) :
  local (Indicators.data ti) (Indicators.Close ti).
Proof. unfold Indicators.Close. local_solve. Qed.

Lemma sma_local (ti : Indicators.TechnicalIndicators) (window : Z) :
  local (Indicators.data ti) (Indicators.sma ti window).
Proof. unfold Indicators.sma. local_solve. Qed.

Lemma ema_local (ti : Indicators.TechnicalIndicators) (window : Z) :
  local (Indicators.data ti) (Indicators.ema ti window).
Proof. unfold Indicators.ema. local_solve. Qed.

Lemma rsi_local (ti : Indicators.TechnicalIndicators) (window : Z) :
  local (Indicators.data ti) (Indicators.rsi ti window).
Proof. unfold Indicators.rsi. local_solve. Qed.

Lemma macd_local (ti : Indicators.TechnicalIndicators) (fast slow signal : Z) :
  local (Indicators.data ti) (Indicators.macd ti fast slow signal).
Proof. unfold Indicators.macd. local_solve; apply ema_local. Qed.

Lemma add_lag_features_local (fe : Features.FeatureEngineer) (lags : list Z) :
  local (Features.df fe) (Features.add_lag_features fe lags).
Proof.
  unfold Features.add_lag_features. apply local_bind; [|intros; apply local_ret].
  induction lags as [|lag lags IH]; simpl; local_solve. apply IH.
Qed.

Lemma add_returns_local (fe : Features.FeatureEngineer) :
  local (Features.df fe) (Features.add_returns fe).
Proof. unfold Features.add_returns. local_solve. Qed.

Lemma add_volatility_local (sqrt : Qc -> Qc) (fe : Features.FeatureEngineer) (window : Z) :
  local (Features.df fe) (Features.add_volatility sqrt fe window).
Proof. unfold Features.add_volatility. local_solve. Qed.

Lemma drop_na_local (fe : Features.FeatureEngineer) :
  local (Features.df fe) (Features.drop_na fe).
Proof. unfold Features.drop_na. local_solve. Qed.

Lemma _prepare_data_local (pf : Forecasting.PriceForecaster) :
  local (Forecasting.df pf) (Forecasting._prepare_data pf).
Proof. unfold Forecasting._prepare_data. local_solve. Qed.

(** *** One call *)

Lemma method_frame {A} (table : loc) (c : component) (f : A -> value)
    (m : M heap A) (h h' : heap) :
  local (own c) m ->
  own c ≠ table ->
  agree_off table h h' ->
  (method c f m h).1 = (method c f m h').1
  /\ (method c f m h).2 !! table = h !! table
  /\ (method c f m h').2 !! table = h' !! table
  /\ agree_off table (method c f m h).2 (method c f m h').2.
Proof.
  intros Hm Hne Hagree. unfold method.
  destruct (Hm h h' (Hagree _ Hne)) as (r & w & -> & ->). simpl.
  split; [done|]. rewrite !written_frame by done.
  split; [done|]. split; [done|].
  intros l Hl. destruct (decide (l = own c)) as [->|Hl'].
  - apply written_lookup. by apply Hagree.
  - rewrite !written_frame by done. by apply Hagree.
Qed.

Lemma method_own {A} (c : component) (f : A -> value) (m : M heap A) (h : heap) :
  (method c f m h).1.2 = c.
Proof. unfold method. by destruct (m h). Qed.

Section InvokeProofs.

Variable sqrt : Qc -> Qc.
Variables LinearRegression RandomForestRegressor : Regressor.

Abbreviation invoke := (Components.invoke sqrt LinearRegression RandomForestRegressor).
Abbreviation run := (Components.run sqrt LinearRegression RandomForestRegressor).
Abbreviation train := (Forecasting.train_and_select_model sqrt LinearRegression
                         RandomForestRegressor).

(** Training reads the forecaster's table and keeps its reference. *)
Lemma train_df (h : heap) (pf : Forecasting.PriceForecaster) :
  Forecasting.df (train h pf).2 = Forecasting.df pf.
Proof.
  unfold Forecasting.train_and_select_model, mbind, M_bind, lift.
  destruct (Forecasting._prepare_data pf h)
    as [[[[[X_train X_test] y_train] y_test]|e'] h']; simpl; [|done].
  unfold mbind, M_bind, lift.
  destruct (Forecasting.score sqrt LinearRegression _ _ _ _) as [[m1 r1]|]; simpl; [|done].
  destruct (Forecasting.score sqrt RandomForestRegressor _ _ _ _) as [[m2 r2]|].
  2: { by destruct (r1 <? PInf)%flt. }
  destruct (r1 <? PInf)%flt; simpl;
    match goal with |- context [(r2 <? ?b)%flt] => destruct (r2 <? b)%flt end;
    simpl; done.
Qed.

Lemma train_agree (h h' : heap) (pf : Forecasting.PriceForecaster) :
  h !! Forecasting.df pf = h' !! Forecasting.df pf -> train h pf = train h' pf.
Proof.
  intros Hl. unfold Forecasting.train_and_select_model.
  by destruct (local_agree _ _ h h' (_prepare_data_local pf) Hl) as [-> _].
Qed.

(** A call returns the same, and leaves the component and every table but
    the caller's the same, whatever the caller's table holds; it does not
    write to the caller's table. *)
Lemma invoke_frame (table : loc) (c : component) (op : call) (h h' : heap) :
  own c ≠ table ->
  agree_off table h h' ->
  (invoke c op h).1 = (invoke c op h').1
  /\ own (invoke c op h).1.2 = own c
  /\ (invoke c op h).2 !! table = h !! table
  /\ (invoke c op h').2 !! table = h' !! table
  /\ agree_off table (invoke c op h).2 (invoke c op h').2.
Proof.
  intros Hne Hagree.
  assert (Hmethod : forall A (f : A -> value) (m : M heap A),
             local (own c) m ->
             (method c f m h).1 = (method c f m h').1
             /\ own (method c f m h).1.2 = own c
             /\ (method c f m h).2 !! table = h !! table
             /\ (method c f m h').2 !! table = h' !! table
             /\ agree_off table (method c f m h).2 (method c f m h').2).
  { intros A f m Hm.
    destruct (method_frame table c f m h h' Hm Hne Hagree) as (H1 & H2 & H3 & H4).
    by rewrite method_own. }
  destruct c as [ti|fe|pf], op; simpl; try done.
  - apply Hmethod, sma_local.
  - apply Hmethod, ema_local.
  - apply Hmethod, rsi_local.
  - apply Hmethod, macd_local.
  - apply Hmethod, add_lag_features_local.
  - apply Hmethod, add_returns_local.
  - apply Hmethod, add_volatility_local.
  - apply Hmethod, drop_na_local.
  - apply Hmethod, _prepare_data_local.
  - rewrite <- (train_agree h h' pf) by by apply Hagree.
    pose proof (train_df h pf) as Hdf.
    destruct (train h pf) as [r pf']. by simpl in *.
Qed.

End InvokeProofs.

(** *** Construction *)

(** A component that was built works on a new object with the cells of the
    caller's table. *)
Lemma construct_copy (k : class) (table : loc) (h h1 : heap) (d : DataFrame)
    (c : component) :
  h !! table = Some d ->
  construct k table h = (Ok c, h1) ->
  own c = fresh (dom h) /\ h1 = <[fresh (dom h) := d]> h.
Proof.
  intros Hd. destruct k as [| |target]; simpl.
  - unfold Indicators.__init__, mbind, M_bind. rewrite (copy_run table h d Hd).
    unfold Indicators._validate, mbind, M_bind, raise, mret, M_ret.
    rewrite (deref_run _ _ d) by by rewrite lookup_insert_eq.
    destruct (negb (has_column "Close" d)); [done|].
    destruct (is_empty d); [done|]. by intros [= <- <-].
  - unfold Features.__init__, mbind, M_bind, raise, mret, M_ret.
    rewrite (deref_run table h d Hd).
    destruct (is_empty d); [done|]. rewrite (copy_run table h d Hd).
    by intros [= <- <-].
  - unfold Forecasting.__init__, mbind, M_bind, raise, mret, M_ret.
    rewrite (deref_run table h d Hd).
    destruct (negb (has_column target d)); [done|]. rewrite (copy_run table h d Hd).
    by intros [= <- <-].
Qed.

(** *** A sequence of calls and writes *)

Section RunProofs.

Variable sqrt : Qc -> Qc.
Variables LinearRegression RandomForestRegressor : Regressor.

Abbreviation run := (Components.run sqrt LinearRegression RandomForestRegressor).

Lemma agree_off_insert (table : loc) (h h' : heap) (d : DataFrame) :
  agree_off table h h' -> agree_off table (<[table := d]> h) h'.
Proof. intros Hagree l Hl. rewrite lookup_insert_ne by done. by apply Hagree. Qed.

(** The calls return the same with the caller's writes in between as
    without them, and leave the component and its table the same; the
    caller's table changes by the caller's writes only. *)
Lemma run_frame (table : loc) (evs : list event) :
  forall (c : component) (h h' : heap) (d d' : DataFrame),
    own c ≠ table ->
    agree_off table h h' ->
    h !! table = Some d ->
    h' !! table = Some d' ->
    (run table c evs h).1 = (run table c (filter is_call evs) h').1
    /\ agree_off table (run table c evs h).2 (run table c (filter is_call evs) h').2
    /\ (run table c evs h).2 !! table = Some (caller_table d evs)
    /\ (run table c (filter is_call evs) h').2 !! table = Some d'.
Proof.
  induction evs as [|[op|d0] evs IH]; intros c h h' d d' Hne Hagree Hd Hd'.
  - done.
  - change (filter is_call (Call op :: evs)) with (Call op :: filter is_call evs).
    simpl.
    destruct (invoke_frame sqrt LinearRegression RandomForestRegressor table c op h h'
                Hne Hagree) as (Hres & Hown & Hh & Hh' & Hagree').
    destruct (Components.invoke _ _ _ c op h) as [[r c1] h1].
    destruct (Components.invoke _ _ _ c op h') as [[r' c1'] h1'].
    simpl in *. injection Hres as <- <-.
    specialize (IH c1 h1 h1' d d').
    destruct IH as (IH1 & IH2 & IH3 & IH4); [congruence|done|congruence|congruence|].
    destruct (Components.run _ _ _ table c1 evs h1) as [[rs c2] h2].
    destruct (Components.run _ _ _ table c1 (filter is_call evs) h1') as [[rs' c2'] h2'].
    simpl in *. by injection IH1 as <- <-.
  - change (filter is_call (CallerAssign d0 :: evs)) with (filter is_call evs).
    simpl. apply IH; try done.
    + by apply agree_off_insert.
    + by rewrite lookup_insert_eq.
Qed.

End RunProofs.

(** C10: a component built from the caller's table works on a new object
    with the same cells; no sequence of calls on it writes to the caller's
    table, and with writes of the caller to its table in between the calls
    return the same, and leave the component and its table the same, as
    without them. *)
Theorem component_private_copy (sqrt : Qc -> Qc)
    (LinearRegression RandomForestRegressor : Regressor)
    (k : class) (table : loc) (h h1 : heap) (d : DataFrame) (c : component) :
  h !! table = Some d ->
  construct k table h = (Ok c, h1) ->
  own c ≠ table
  /\ h1 !! own c = Some d
  /\ h1 !! table = Some d
  /\ forall evs : list event,
       let mixed := Components.run sqrt LinearRegression RandomForestRegressor
                      table c evs h1 in
       let quiet := Components.run sqrt LinearRegression RandomForestRegressor
                      table c (filter is_call evs) h1 in
       quiet.2 !! table = Some d
       /\ mixed.2 !! table = Some (caller_table d evs)
       /\ mixed.1.1 = quiet.1.1
       /\ mixed.1.2 = quiet.1.2
       /\ mixed.2 !! own c = quiet.2 !! own c.
Proof.
  intros Hd Hc. destruct (construct_copy k table h h1 d c Hd Hc) as [Hown ->].
  assert (Hne : own c ≠ table) by (rewrite Hown; by eapply fresh_not_allocated).
  assert (Hd1 : <[fresh (dom h) := d]> h !! table = Some d).
  { rewrite lookup_insert_ne; [done|]. by rewrite <- Hown. }
  split; [done|]. split; [by rewrite Hown, lookup_insert_eq|]. split; [done|].
  intros evs mixed quiet.
  destruct (run_frame sqrt LinearRegression RandomForestRegressor table evs c
              _ _ d d Hne ltac:(done) Hd1 Hd1) as (Hres & Hagree & Hmixed & Hquiet).
  fold mixed quiet in Hres, Hagree, Hmixed, Hquiet.
  split; [done|]. split; [done|].
  split; [by rewrite Hres|]. split; [by rewrite Hres|]. by apply Hagree.
Qed.

Lemma component_private_copy_witness :
  let d := Examples.close_table (Examples.prices [10; 11; 13]%Z) in
  let h := Examples.caller_heap d in
  let evs := [Call (AddLagFeatures [1%Z]);
              CallerAssign (Examples.close_table (Examples.prices [0]%Z));
              Call AddReturns; Call DropNa] in
  exists (c : component) (h1 : heap),
    construct FeatureEngineer Examples.caller h = (Ok c, h1)
    /\ own c ≠ Examples.caller
    /\ h1 !! Examples.caller = Some d
    /\ (Components.run (fun x => x) Examples.first_value Examples.always_zero
          Examples.caller c (filter is_call evs) h1).2 !! Examples.caller = Some d
    /\ (Components.run (fun x => x) Examples.first_value Examples.always_zero
          Examples.caller c evs h1).1.1
       = (Components.run (fun x => x) Examples.first_value Examples.always_zero
            Examples.caller c (filter is_call evs) h1).1.1.
Proof.
  intros d h evs.
  destruct (construct FeatureEngineer Examples.caller h) as [[c|e] h1] eqn:Hc;
    [|vm_compute in Hc; discriminate Hc].
  destruct (component_private_copy (fun x => x) Examples.first_value
              Examples.always_zero FeatureEngineer Examples.caller h h1 d c
              ltac:(reflexivity) Hc) as (Hne & _ & Hd1 & Hruns).
  destruct (Hruns evs) as (Hquiet & _ & Hres & _).
  exists c, h1. by repeat split.
Defined.

End ComponentsProofs.

(** * Further properties *)

(** ** Indicator engine: construction, arguments, shapes *)

Module IndicatorsMore.
Import Indicators PandasProofs IndicatorsProofs Reference.

Lemma has_column_getitem (name : string) (d : DataFrame) :
  has_column name d = true <-> exists s : Series, getitem name d = Ok s.
Proof.
  unfold has_column, column_names, getitem.
  induction (columns d) as [|[k s] cols IH]; simpl.
  - split; [done|by intros [s ?]].
  - destruct (decide (k = name)) as [->|Hne].
    + split; [by eexists|]. intros _. apply bool_decide_eq_true. by left.
    + rewrite <- IH. rewrite !bool_decide_eq_true, elem_of_cons.
      split; [by intros [?|?]|by right].
Qed.

(** X1: [__init__] copies the table and then accepts it iff it has a Close
    column and a row; either way the caller's table is as it was.  On an
    accepted table [sma], [ema] and [rsi] return for a positive window and
    raise for any other, [macd] returns when its three periods are positive
    and raises when one is not, and none of them writes. *)
Theorem indicators_accepts_and_rejects (table : loc) (h : heap) (d : DataFrame) :
  h !! table = Some d ->
  let self := {| data := fresh (dom h) |} in
  let h1 := <[fresh (dom h) := d]> h in
  h1 !! table = Some d
  /\ (has_column "Close" d = false ->
      __init__ table h
        = (Raise (ValueError "DataFrame must contain a 'Close' column."), h1))
  /\ (has_column "Close" d = true -> nrows d = 0%nat ->
      __init__ table h = (Raise (ValueError "Input DataFrame is empty."), h1))
  /\ (has_column "Close" d = true -> nrows d ≠ 0%nat ->
      __init__ table h = (Ok self, h1)
      /\ (forall window : Z, (0 < window)%Z ->
            (exists out, sma self window h1 = (Ok out, h1))
            /\ (exists out, ema self window h1 = (Ok out, h1))
            /\ (exists out, rsi self window h1 = (Ok out, h1)))
      /\ (forall window : Z, (window <= 0)%Z ->
            let e := ValueError "Window must be a positive integer." in
            sma self window h1 = (Raise e, h1)
            /\ ema self window h1 = (Raise e, h1)
            /\ rsi self window h1 = (Raise e, h1))
      /\ (forall fast slow signal : Z, (0 < fast)%Z -> (0 < slow)%Z -> (0 < signal)%Z ->
            exists out, macd self fast slow signal h1 = (Ok out, h1))
      /\ (forall fast slow signal : Z, (fast <= 0)%Z \/ (slow <= 0)%Z \/ (signal <= 0)%Z ->
            macd self fast slow signal h1
              = (Raise (ValueError "All periods must be positive integers."), h1))).
Proof.
  intros Hd self h1.
  assert (Hne : fresh (dom h) ≠ table) by by eapply fresh_not_allocated.
  assert (Hinit : __init__ table h =
            if negb (has_column "Close" d) then
              (Raise (ValueError "DataFrame must contain a 'Close' column."), h1)
            else if is_empty d then (Raise (ValueError "Input DataFrame is empty."), h1)
            else (Ok self, h1)).
  { unfold __init__, mbind, M_bind. rewrite (copy_run table h d Hd).
    unfold _validate, mbind, M_bind, raise, mret, M_ret.
    rewrite (deref_run _ _ d) by by rewrite lookup_insert_eq.
    destruct (negb (has_column "Close" d)); [done|]. by destruct (is_empty d). }
  split; [unfold h1; by rewrite lookup_insert_ne|].
  split; [intros Hc; by rewrite Hinit, Hc|]. split.
  { intros Hc Hn. rewrite Hinit, Hc. simpl. unfold is_empty.
    by rewrite (bool_decide_eq_true_2 _ Hn). }
  intros Hc Hn.
  destruct (proj1 (has_column_getitem "Close" d) Hc) as [close Hclose].
  assert (Hself : h1 !! data self = Some d) by apply lookup_insert_eq.
  split.
  { rewrite Hinit, Hc. simpl. unfold is_empty.
    rewrite (bool_decide_eq_false_2 _ Hn). simpl.
    rewrite bool_decide_eq_false_2; [done|].
    unfold getitem in Hclose. by destruct (columns d). }
  split.
  { intros window Hw. split; [|split]; eexists.
    - by apply (sma_run self h1 d close).
    - by apply (ema_run self h1 d close).
    - by apply (rsi_run self h1 d close). }
  split.
  { intros window Hw e. unfold sma, ema, rsi.
    by rewrite !bool_decide_eq_true_2 by done. }
  split.
  { intros fast slow signal Hf Hs Hg. eexists.
    by apply (macd_run self h1 d close). }
  intros fast slow signal Hbad. unfold macd. simpl.
  destruct Hbad as [Hbad|[Hbad|Hbad]];
    repeat case_bool_decide; simpl; try done; lia.
Qed.

Lemma indicators_accepts_and_rejects_witness :
  let d := Examples.close_table (Examples.prices [10; 11; 13]%Z) in
  let h := Examples.caller_heap d in
  exists (self : TechnicalIndicators) (h1 : heap) (out : Series),
    __init__ Examples.caller h = (Ok self, h1)
    /\ sma self 2 h1 = (Ok out, h1)
    /\ ema self 0 h1 = (Raise (ValueError "Window must be a positive integer."), h1)
    /\ __init__ Examples.caller (Examples.caller_heap (Examples.close_table []))
       = (Raise (ValueError "Input DataFrame is empty."),
          <[fresh (dom (Examples.caller_heap (Examples.close_table []))) :=
              Examples.close_table []]> (Examples.caller_heap (Examples.close_table []))).
Proof.
  intros d h.
  destruct (indicators_accepts_and_rejects Examples.caller h d ltac:(reflexivity))
    as (_ & _ & _ & Hok).
  destruct Hok as (Hinit & Hpos & Hneg & _); [reflexivity | simpl; lia |].
  destruct (Hpos 2%Z ltac:(lia)) as [[out Hsma] _].
  destruct (Hneg 0%Z ltac:(lia)) as (_ & Hema & _).
  eexists _, _, out. split; [exact Hinit|]. split; [exact Hsma|]. split; [exact Hema|].
  by apply (indicators_accepts_and_rejects Examples.caller
              (Examples.caller_heap (Examples.close_table [])) (Examples.close_table [])).
Defined.

(** *** The exponential mean of numbers *)

Lemma span_alpha_complement (alpha : Qc) : 1 * (1 - alpha) + alpha = 1.
Proof. ring. Qed.

Lemma ewm_step_numbers (alpha y x : Qc) :
  ewm_step alpha {| weighted := Num y; old_wt := 1 |} (Num x)
    = {| weighted := Num ((1 - alpha) * y + alpha * x); old_wt := 1 |}.
Proof.
  unfold ewm_step. simpl. f_equal.
  unfold Float.eqb. case_bool_decide as Heq.
  - injection Heq as ->. f_equal. ring.
  - simpl. rewrite span_alpha_complement.
    rewrite bool_decide_eq_false_2 by done. f_equal. field. done.
Qed.

Lemma ewm_scan_cons (alpha : Qc) (st : ewm_state) (cur : float64) (tl : Series) :
  ewm_scan alpha st (cur :: tl) =
    weighted (ewm_step alpha st cur) :: ewm_scan alpha (ewm_step alpha st cur) tl.
Proof. reflexivity. Qed.

Lemma ewm_scan_numbers (alpha y : Qc) (xs : list Qc) :
  ewm_scan alpha {| weighted := Num y; old_wt := 1 |} (Num <$> xs)
    = Num <$> recursive_ema alpha y xs.
Proof.
  revert y. induction xs as [|x xs IH]; intros y; [done|].
  rewrite fmap_cons, ewm_scan_cons, ewm_step_numbers.
  cbn [weighted recursive_ema]. by rewrite fmap_cons, IH.
Qed.

Lemma prep_values_numbers (qs : list Qc) : prep_values (Num <$> qs) = Num <$> qs.
Proof. unfold prep_values. rewrite <- list_fmap_compose. by apply list_fmap_ext. Qed.

(** X2: On a Close column of numbers [ema] starts at the first price and then
    follows the recursive update [(1 - alpha) * previous + alpha * price]
    with [alpha = 2 / (window + 1)]. *)
Theorem ema_recursive_update (self : TechnicalIndicators) (h : heap) (d : DataFrame)
    (x0 : Qc) (xs : list Qc) (window : Z) :
  h !! data self = Some d ->
  getitem "Close" d = Ok (Num <$> x0 :: xs) ->
  (0 < window)%Z ->
  ema self window h =
    (Ok (Num <$> x0 :: recursive_ema (Qc_of_Z 2 / (Qc_of_Z window + 1)) x0 xs), h).
Proof.
  intros Hd Hclose Hw. rewrite (ema_run self h d _ Hd Hclose) by done.
  unfold ewm_mean. rewrite prep_values_numbers. rewrite !fmap_cons.
  rewrite ewm_scan_numbers. unfold span_alpha, Qc_of_nat.
  by rewrite Z2Nat.id by lia.
Qed.

Lemma ema_recursive_update_witness :
  let close := Examples.prices [10; 11; 13]%Z in
  let h := Examples.caller_heap (Examples.close_table close) in
  ema {| data := Examples.caller |} 3 h =
    (Ok (Num <$> Qc_of_Z 10 ::
           recursive_ema (Qc_of_Z 2 / (Qc_of_Z 3 + 1)) (Qc_of_Z 10) [Qc_of_Z 11; Qc_of_Z 13]),
     h).
Proof.
  intros close h.
  apply (ema_recursive_update {| data := Examples.caller |} h
           (Examples.close_table close) (Qc_of_Z 10) [Qc_of_Z 11; Qc_of_Z 13] 3).
  - reflexivity.
  - reflexivity.
  - lia.
Defined.

(** *** A flat price *)

Lemma series_sub_constant (c : Qc) (n : nat) :
  series_sub (replicate n (Num c)) (replicate n (Num c)) = replicate n (Num 0).
Proof.
  unfold series_sub. rewrite zip_with_replicate. f_equal.
  unfold Float.sub. simpl. f_equal. ring.
Qed.

(** X3: On a Close column of constant value the three columns of [macd] are
    zero on every row. *)
Theorem macd_flat_price (self : TechnicalIndicators) (h : heap) (d : DataFrame)
    (c : Qc) (n : nat) (fast slow signal : Z) :
  h !! data self = Some d ->
  getitem "Close" d = Ok (replicate n (Num c)) ->
  (0 < fast)%Z -> (0 < slow)%Z -> (0 < signal)%Z ->
  exists table : DataFrame,
    macd self fast slow signal h = (Ok table, h)
    /\ getitem "MACD" table = Ok (replicate n (Num 0))
    /\ getitem "Signal" table = Ok (replicate n (Num 0))
    /\ getitem "Histogram" table = Ok (replicate n (Num 0)).
Proof.
  intros Hd Hclose Hf Hs Hg. eexists. split; [by eapply macd_run|].
  rewrite !ewm_mean_constant, series_sub_constant, ewm_mean_constant,
    series_sub_constant.
  by repeat split.
Qed.

Lemma macd_flat_price_witness :
  let h := Examples.caller_heap (Examples.close_table (replicate 4 (Num (Qc_of_Z 7)))) in
  exists table : DataFrame,
    macd {| data := Examples.caller |} macd_fast macd_slow macd_signal h = (Ok table, h)
    /\ getitem "MACD" table = Ok (replicate 4 (Num 0))
    /\ getitem "Signal" table = Ok (replicate 4 (Num 0))
    /\ getitem "Histogram" table = Ok (replicate 4 (Num 0)).
Proof.
  intros h.
  apply (macd_flat_price {| data := Examples.caller |} h
           (Examples.close_table (replicate 4 (Num (Qc_of_Z 7)))) (Qc_of_Z 7) 4);
    reflexivity.
Defined.

(** *** The shape of RSI *)

(** A cell that, when it is a number, is not negative. *)
Lemma gain_nonneg (close : Series) :
  Forall (fun x => forall q, x = Num q -> 0 ≤ q) (gain close).
Proof.
  unfold gain, clip_lower. apply Forall_fmap, Forall_true. intros x q. simpl.
  unfold of_Z. rewrite Z2Qc_inj_0.
  destruct x as [| | |q0]; simpl; try done; try by intros [= <-].
  case_bool_decide as Hlt; intros [= <-]; [done|]. by apply Qcnot_lt_le.
Qed.

Lemma loss_nonneg (close : Series) :
  Forall (fun x => forall q, x = Num q -> 0 ≤ q) (loss close).
Proof.
  unfold loss, clip_upper, series_neg. rewrite <- list_fmap_compose.
  apply Forall_fmap, Forall_true. intros x q. simpl.
  unfold of_Z, Float.gtb. rewrite Z2Qc_inj_0.
  destruct x as [| | |q0]; simpl; try done.
  - by intros [= <-].
  - case_bool_decide as Hlt; simpl; intros [= <-].
    + done.
    + apply Qcnot_lt_le in Hlt. apply Qcopp_le_compat in Hlt.
      by replace (- 0) with 0 in Hlt by ring.
Qed.

Lemma observations_nonneg (win : Series) :
  Forall (fun x => forall q, x = Num q -> 0 ≤ q) win ->
  Forall (fun q => 0 ≤ q) (observations win).
Proof.
  induction 1 as [|x win Hx _ IH]; [constructor|].
  rewrite observations_cons. destruct x; simpl; try done.
  constructor; [by apply Hx|done].
Qed.

Lemma rolling_mean_nonneg (window : nat) (xs : Series) :
  (0 < window)%nat ->
  Forall (fun x => forall q, x = Num q -> 0 ≤ q) xs ->
  Forall missing_or_nonneg (rolling_mean window xs).
Proof.
  intros Hw Hxs. apply Forall_lookup. intros t x Hx.
  assert (Ht : (t < length xs)%nat).
  { apply lookup_lt_Some in Hx. unfold rolling_mean in Hx.
    by rewrite length_rolling in Hx. }
  unfold rolling_mean in Hx. rewrite lookup_rolling in Hx by done.
  simpl in Hx. injection Hx as <-.
  case_decide as Hlen; [|by left]. right. eexists. split; [done|].
  apply ForecastingProofs.Qc_mean_nonneg.
  - intros Hnil. rewrite Hnil in Hlen. simpl in Hlen. lia.
  - apply observations_nonneg. unfold window_at. by apply Forall_take, Forall_drop.
Qed.

(** A Series that starts with a missing cell has no rolling value on its
    first [window] rows. *)
Lemma lookup_rolling_after_missing agg (window t : nat) (tl : Series) :
  (t < window)%nat -> (t < S (length tl))%nat ->
  rolling agg window (NaN :: tl) !! t = Some NaN.
Proof.
  intros Hw Ht. rewrite lookup_rolling by done. simpl.
  rewrite decide_False; [done|].
  unfold window_at. replace (t + 1 - window)%nat with 0%nat by lia.
  rewrite drop_0. replace (window `min` (t + 1))%nat with (S t) by lia.
  rewrite firstn_cons, observations_cons. simpl.
  pose proof (length_observations (take t tl)) as Hobs.
  rewrite length_take in Hobs. lia.
Qed.

Lemma diff_length (xs : Series) : length (diff xs) = length xs.
Proof.
  destruct xs as [|x tl]; [done|]. simpl. rewrite length_zip_with. simpl. lia.
Qed.

Lemma gain_loss_head (close : Series) :
  close ≠ [] ->
  (exists tl, gain close = NaN :: tl) /\ (exists tl, loss close = NaN :: tl).
Proof.
  destruct close as [|x tl]; [done|]. intros _.
  unfold gain, loss, clip_lower, clip_upper, series_neg. simpl.
  split; by eexists.
Qed.

Lemma gain_length (close : Series) : length (gain close) = length close.
Proof. unfold gain, clip_lower. by rewrite length_fmap, diff_length. Qed.

Lemma loss_length (close : Series) : length (loss close) = length close.
Proof. unfold loss, clip_upper, series_neg. by rewrite !length_fmap, diff_length. Qed.

Lemma percent_bounds (r : Qc) :
  0 ≤ r ->
  0 ≤ Qc_of_Z 100 - Qc_of_Z 100 / (1 + r)
  /\ Qc_of_Z 100 - Qc_of_Z 100 / (1 + r) ≤ Qc_of_Z 100.
Proof.
  intros Hr.
  assert (Hpos : 0 < 1 + r) by (apply Qcplus_pos_nonneg; done).
  assert (Hinv : 0 < / (1 + r)) by by apply Qcinv_pos.
  assert (H100 : 0 < Qc_of_Z 100) by done.
  assert (Hle : / (1 + r) ≤ 1).
  { apply (Qcmult_le_mono_pos_r _ _ (1 + r) Hpos).
    rewrite Qcmult_inv_l by (by apply Qclt_not_eq in Hpos).
    rewrite Qcmult_1_l. rewrite <- (Qcplus_0_r 1) at 1.
    by apply Qcplus_le_mono_l. }
  unfold Qcdiv. split.
  - apply Qcle_minus_iff.
    replace (Qc_of_Z 100 - Qc_of_Z 100 * / (1 + r) + - 0)
      with (Qc_of_Z 100 * (1 - / (1 + r))) by ring.
    apply Qcmult_nonneg_nonneg; [by apply Qclt_le_weak|].
    by apply Qcle_minus_iff in Hle.
  - apply Qcle_minus_iff.
    replace (Qc_of_Z 100 + - (Qc_of_Z 100 - Qc_of_Z 100 * / (1 + r)))
      with (Qc_of_Z 100 * / (1 + r)) by ring.
    apply Qcmult_nonneg_nonneg; by apply Qclt_le_weak.
Qed.

Lemma rsi_of_ratio (g l : float64) :
  missing_or_nonneg g -> missing_or_nonneg l -> missing_or_percent (rsi_of_rs (g / l)%flt).
Proof.
  intros [-> | (qg & -> & Hg)] [-> | (ql & -> & Hl)]; try by left.
  unfold Float.div. case_bool_decide as Hzero.
  - unfold inf_signed. repeat case_bool_decide; [| |by left].
    + right. exists (Qc_of_Z 100). rewrite (proj1 rsi_of_rs_inf).
      split; [done|]. split; [done|]. apply Qcle_refl.
    + right. exists (Qc_of_Z 100). rewrite (proj2 rsi_of_rs_inf).
      split; [done|]. split; [done|]. apply Qcle_refl.
  - assert (Hlpos : 0 < ql).
    { destruct (Qcle_lt_or_eq _ _ Hl) as [?|Heq]; [done|]. by symmetry in Heq. }
    assert (Hr : 0 ≤ qg / ql).
    { unfold Qcdiv. apply Qcmult_nonneg_nonneg; [done|].
      by apply Qclt_le_weak, Qcinv_pos. }
    destruct (percent_bounds _ Hr) as [Hlo Hhi].
    unfold rsi_of_rs, of_Z. simpl. rewrite Z2Qc_inj_1.
    rewrite bool_decide_eq_false_2.
    + right. eexists. split; [reflexivity|]. by split.
    + intros Heq. assert (0 < 1 + qg / ql) by by apply Qcplus_pos_nonneg.
      rewrite Heq in *. by apply (irreflexivity Qclt 0).
Qed.

(** X4: For a positive window [rsi] returns a Series as long as Close whose
    first [window] rows are missing and whose every other entry is missing
    or a number between 0 and 100, whatever Close holds. *)
Theorem rsi_shape (self : TechnicalIndicators) (h : heap) (d : DataFrame)
    (close : Series) (window : Z) :
  h !! data self = Some d ->
  getitem "Close" d = Ok close ->
  (0 < window)%Z ->
  exists out : Series,
    rsi self window h = (Ok out, h)
    /\ length out = length close
    /\ (forall t : nat, (t < Z.to_nat window)%nat -> (t < length close)%nat ->
          out !! t = Some NaN)
    /\ Forall missing_or_percent out.
Proof.
  intros Hd Hclose Hw. eexists. split; [by eapply rsi_run|].
  set (w := Z.to_nat window). assert (Hwpos : (0 < w)%nat) by (unfold w; lia).
  assert (Hlg : length (avg_gain w close) = length close).
  { unfold avg_gain, rolling_mean. by rewrite length_rolling, gain_length. }
  assert (Hll : length (avg_loss w close) = length close).
  { unfold avg_loss, rolling_mean. by rewrite length_rolling, loss_length. }
  split; [|split].
  - unfold series_div. rewrite length_fmap, length_zip_with. lia.
  - intros t Ht Hlen.
    assert (Hne : close ≠ []) by (intros ->; simpl in Hlen; lia).
    destruct (gain_loss_head close Hne) as [[tg Hg] [tl Hl]].
    assert (Hag : avg_gain w close !! t = Some NaN).
    { unfold avg_gain, rolling_mean. rewrite Hg.
      apply lookup_rolling_after_missing; [done|].
      change (S (length tg)) with (length (NaN :: tg)).
      by rewrite <- Hg, gain_length. }
    destruct (lookup_lt_is_Some_2 (avg_loss w close) t) as [l Hal]; [lia|].
    unfold series_div. by rewrite list_lookup_fmap, lookup_zip_with, Hag, Hal.
  - pose proof (rolling_mean_nonneg w _ Hwpos (gain_nonneg close)) as Hg.
    pose proof (rolling_mean_nonneg w _ Hwpos (loss_nonneg close)) as Hl.
    fold (avg_gain w close) in Hg. fold (avg_loss w close) in Hl.
    apply Forall_lookup. intros t x Hx.
    unfold series_div in Hx. rewrite list_lookup_fmap, lookup_zip_with in Hx.
    destruct (avg_gain w close !! t) as [g|] eqn:Hgt; [|done].
    destruct (avg_loss w close !! t) as [l|] eqn:Hlt; [|done].
    simpl in Hx. injection Hx as <-.
    apply rsi_of_ratio.
    + by eapply (proj1 (Forall_lookup _ _) Hg).
    + by eapply (proj1 (Forall_lookup _ _) Hl).
Qed.

Lemma rsi_shape_witness :
  let close := Examples.prices [10; 11; 13; 12]%Z in
  let h := Examples.caller_heap (Examples.close_table close) in
  exists out : Series,
    rsi {| data := Examples.caller |} 2 h = (Ok out, h)
    /\ length out = 4%nat
    /\ out !! 1%nat = Some NaN
    /\ Forall missing_or_percent out.
Proof.
  intros close h.
  destruct (rsi_shape {| data := Examples.caller |} h (Examples.close_table close) close 2)
    as (out & Hrun & Hlen & Hwarm & Hrange).
  - reflexivity.
  - reflexivity.
  - lia.
  - exists out. split; [exact Hrun|]. split; [exact Hlen|].
    split; [apply Hwarm; simpl; lia|exact Hrange].
Defined.

End IndicatorsMore.

(** ** Feature builder: columns, missing rows, composition *)

Module FeaturesMore.
Import Features FeaturesProofs PandasProofs ForecastingProofs Reference.

(** *** Lag columns *)

Lemma to_int_nonnil (z : Z) : Z.to_int z ≠ Decimal.Pos Decimal.Nil
                              /\ Z.to_int z ≠ Decimal.Neg Decimal.Nil.
Proof.
  destruct z as [|p|p]; simpl; split; try done; intros [= H];
    by apply (DecimalPos.Unsigned.to_uint_nonnil p).
Qed.

Lemma lag_column_inj (k k' : Z) : lag_column k = lag_column k' -> k = k'.
Proof.
  unfold lag_column. simpl. intros [= H].
  apply DecimalZ.to_int_inj.
  destruct (to_int_nonnil k) as [Hp Hn]. destruct (to_int_nonnil k') as [Hp' Hn'].
  pose proof (DecimalString.NilZero.isi _ Hp Hn) as Hk.
  pose proof (DecimalString.NilZero.isi _ Hp' Hn') as Hk'.
  change ("" +:+ ?x) with x in H.
  rewrite H in Hk. rewrite Hk in Hk'. by injection Hk'.
Qed.

Lemma assoc_get_set (name name' : string) (s : Series) (cols : list (string * Series)) :
  assoc_get name (assoc_set name' s cols) =
    if decide (name' = name) then Some s else assoc_get name cols.
Proof.
  case_decide as Heq; [subst|by apply assoc_get_set_ne].
  induction cols as [|[k s'] cols IH]; simpl.
  - by rewrite decide_True.
  - destruct (decide (k = name)) as [->|Hk]; simpl.
    + by rewrite decide_True.
    + by rewrite decide_False.
Qed.

Lemma length_shift (k : nat) (xs : Series) : length (shift k xs) = length xs.
Proof. unfold shift. rewrite length_take, length_app. lia. Qed.

(** The value [k] rows earlier, and no value on the first [k] rows. *)
Lemma lookup_shift (k t : nat) (xs : Series) :
  (t < length xs)%nat ->
  shift k xs !! t = if decide (t < k)%nat then Some NaN else xs !! (t - k)%nat.
Proof.
  intros Ht. unfold shift. rewrite lookup_take_lt by done.
  case_decide as Hk.
  - rewrite lookup_app_l by (by rewrite length_replicate).
    by apply lookup_replicate_2.
  - rewrite lookup_app_r by (rewrite length_replicate; lia).
    by rewrite length_replicate.
Qed.

Lemma with_lags_snoc (close : Series) (lags : list Z) (k : Z) (d : DataFrame) :
  with_lags close (lags ++ [k]) d =
    setitem (lag_column k) (shift (Z.to_nat k) close) (with_lags close lags d).
Proof. unfold with_lags. by rewrite foldl_app. Qed.

Lemma with_lags_nrows (close : Series) (lags : list Z) (d : DataFrame) :
  nrows (with_lags close lags d) = nrows d.
Proof.
  induction lags as [|k lags IH] using rev_ind; [done|].
  by rewrite with_lags_snoc.
Qed.

Lemma with_lags_lookup (close : Series) (lags : list Z) (k : Z) (d : DataFrame) :
  k ∈ lags ->
  assoc_get (lag_column k) (columns (with_lags close lags d))
    = Some (shift (Z.to_nat k) close).
Proof.
  induction lags as [|k' lags IH] using rev_ind; [by intros ?%elem_of_nil|].
  rewrite with_lags_snoc. simpl. rewrite assoc_get_set.
  intros Hk. case_decide as Heq; [by apply lag_column_inj in Heq as ->|].
  apply IH. apply elem_of_app in Hk as [Hk|Hk%list_elem_of_singleton]; [done|].
  by subst.
Qed.

Lemma with_lags_other (close : Series) (lags : list Z) (name : string) (d : DataFrame) :
  (forall k, k ∈ lags -> lag_column k ≠ name) ->
  assoc_get name (columns (with_lags close lags d)) = assoc_get name (columns d).
Proof.
  induction lags as [|k' lags IH] using rev_ind; [done|].
  intros Hname. rewrite with_lags_snoc. simpl. rewrite assoc_get_set.
  rewrite decide_False by (apply Hname, elem_of_app; right; by left).
  apply IH. intros k Hk. apply Hname, elem_of_app. by left.
Qed.

(** X5: With a Close column and positive lags only, [add_lag_features] returns
    the builder; the table then holds for every lag [k] a column
    [Close_lag_k] whose row [t] is missing for [t < k] and is Close of row
    [t - k] otherwise; its other columns and its row count are as before. *)
Theorem add_lag_features_columns (self : FeatureEngineer) (h : heap) (d : DataFrame)
    (close : Series) (lags : list Z) :
  h !! df self = Some d ->
  getitem "Close" d = Ok close ->
  Forall (fun lag => 0 < lag)%Z lags ->
  exists d' : DataFrame,
    add_lag_features self lags h = (Ok self, <[df self := d']> h)
    /\ nrows d' = nrows d
    /\ (forall k : Z, k ∈ lags ->
          exists col : Series,
            getitem (lag_column k) d' = Ok col
            /\ length col = length close
            /\ forall t : nat, (t < length close)%nat ->
                 col !! t = if decide (t < Z.to_nat k)%nat then Some NaN
                            else close !! (t - Z.to_nat k)%nat)
    /\ (forall name : string, (forall k, k ∈ lags -> lag_column k ≠ name) ->
          getitem name d' = getitem name d).
Proof.
  intros Hd Hclose Hpos. exists (with_lags close lags d).
  destruct (add_lag_features_loop_run self close lags Hpos h d Hd Hclose) as [Hrun _].
  split.
  { unfold add_lag_features, mbind, M_bind. by rewrite Hrun. }
  split; [apply with_lags_nrows|]. split.
  - intros k Hk. exists (shift (Z.to_nat k) close).
    split; [unfold getitem; by rewrite with_lags_lookup|].
    split; [apply length_shift|]. intros t Ht. by apply lookup_shift.
  - intros name Hname. unfold getitem. by rewrite with_lags_other.
Qed.

Lemma add_lag_features_columns_witness :
  let close := Examples.prices [10; 11; 13]%Z in
  let d := Examples.close_table close in
  let h := Examples.caller_heap d in
  let fe := {| df := Examples.caller |} in
  exists (d' : DataFrame) (col : Series),
    add_lag_features fe [1; 2]%Z h = (Ok fe, <[Examples.caller := d']> h)
    /\ getitem (lag_column 2) d' = Ok col
    /\ col !! 1%nat = Some NaN
    /\ col !! 2%nat = Some (of_Z 10)
    /\ getitem "Close" d' = Ok close.
Proof.
  intros close d h fe.
  destruct (add_lag_features_columns fe h d close [1; 2]%Z)
    as (d' & Hrun & _ & Hlags & Hother).
  - reflexivity.
  - reflexivity.
  - repeat constructor.
  - destruct (Hlags 2%Z) as (col & Hcol & _ & Hrows).
    { apply list_elem_of_In. simpl. tauto. }
    exists d', col. split; [exact Hrun|]. split; [exact Hcol|].
    split; [apply (Hrows 1%nat); simpl; lia|].
    split; [apply (Hrows 2%nat); simpl; lia|].
    rewrite Hother; [reflexivity|]. intros k _. apply lag_column_not_Close.
Defined.

(** *** Rows with a missing cell *)

Lemma filter_all {A} (P : A -> Prop) `{!forall x, Decision (P x)} (l : list A) :
  Forall P l -> filter P l = l.
Proof.
  induction 1 as [|x l Hx _ IH]; [done|].
  by rewrite filter_cons_True, IH.
Qed.

Lemma filter_none {A} (P : A -> Prop) `{!forall x, Decision (P x)} (l : list A) :
  Forall (fun x => ~ P x) l -> filter P l = [].
Proof.
  induction 1 as [|x l Hx _ IH]; [done|].
  by rewrite filter_cons_False.
Qed.

Lemma filter_ext_elem {A} (P Q : A -> Prop) `{!forall x, Decision (P x)}
    `{!forall x, Decision (Q x)} (l : list A) :
  Forall (fun x => P x <-> Q x) l -> filter P l = filter Q l.
Proof.
  induction 1 as [|x l Hx _ IH]; [done|].
  rewrite !filter_cons, IH. destruct (decide (P x)), (decide (Q x)); tauto.
Qed.

Lemma length_keep_rows_from (keep : nat -> bool) (s : Series) (j : nat) :
  length (filter (fun p : nat * float64 => keep p.1 = true) (zip (seq j (length s)) s))
    = length (filter (fun t => keep t = true) (seq j (length s))).
Proof.
  revert j. induction s as [|x s IH]; intros j; [done|]. simpl.
  rewrite !filter_cons. simpl. specialize (IH (S j)).
  destruct (decide (keep j = true)); simpl; by rewrite IH.
Qed.

Lemma length_keep_rows (keep : nat -> bool) (s : Series) :
  length (keep_rows keep s) = length (filter (fun t => keep t = true) (seq 0 (length s))).
Proof. unfold keep_rows. rewrite length_fmap. apply length_keep_rows_from. Qed.

Lemma keep_rows_elem (keep : nat -> bool) (s : Series) (x : float64) :
  x ∈ keep_rows keep s -> exists t : nat, s !! t = Some x /\ keep t = true.
Proof.
  unfold keep_rows. intros ([t y] & -> & Hin)%list_elem_of_fmap.
  apply list_elem_of_filter in Hin as [Hk Hin].
  apply list_elem_of_lookup in Hin as [i Hi].
  apply lookup_zip_with_Some in Hi as (t' & y' & [= -> ->] & Ht%lookup_seq & Hy).
  destruct Ht as [-> _]. by exists i.
Qed.

Lemma keep_rows_ext (keep keep' : nat -> bool) (s : Series) :
  (forall t : nat, (t < length s)%nat -> keep t = keep' t) ->
  keep_rows keep s = keep_rows keep' s.
Proof.
  intros Hext. unfold keep_rows. f_equal. apply filter_ext_elem.
  apply list.Forall_forall. intros [t y] Hin. simpl.
  apply list_elem_of_lookup in Hin as [i Hi].
  apply lookup_zip_with_Some in Hi as (t' & y' & [= -> ->] & Ht%lookup_seq & Hy).
  destruct Ht as [-> Hlt]. by rewrite Hext.
Qed.

Lemma keep_rows_all (s : Series) : keep_rows (fun _ => true) s = s.
Proof.
  unfold keep_rows. rewrite filter_all; [|by apply list.Forall_forall].
  apply snd_zip. by rewrite length_seq.
Qed.

Lemma keep_rows_from (k : nat) (s : Series) :
  keep_rows (fun t => bool_decide (k ≤ t)%nat) s = drop k s.
Proof.
  unfold keep_rows.
  destruct (decide (k ≤ length s)%nat) as [Hk|Hk].
  - rewrite <- (take_drop k s) at 2.
    replace (length s) with (k + length (drop k s))%nat by (rewrite length_drop; lia).
    rewrite seq_app, zip_with_app by (by rewrite length_seq, length_take, Nat.min_l).
    rewrite list.filter_app, filter_none, filter_all; simpl.
    + apply snd_zip. by rewrite length_seq.
    + apply list.Forall_forall. intros [t y] Hin. simpl. apply bool_decide_eq_true.
      apply list_elem_of_lookup in Hin as [i Hi].
      apply lookup_zip_with_Some in Hi as (t' & y' & [= -> ->] & Ht%lookup_seq & Hy).
      lia.
    + apply list.Forall_forall. intros [t y] Hin. simpl.
      rewrite bool_decide_eq_true.
      apply list_elem_of_lookup in Hin as [i Hi].
      apply lookup_zip_with_Some in Hi as (t' & y' & [= -> ->] & Ht%lookup_seq & Hy).
      lia.
  - rewrite drop_ge by lia. rewrite filter_none; [done|].
    apply list.Forall_forall. intros [t y] Hin. simpl.
    rewrite bool_decide_eq_true.
    apply list_elem_of_lookup in Hin as [i Hi].
    apply lookup_zip_with_Some in Hi as (t' & y' & [= -> ->] & Ht%lookup_seq & Hy).
    lia.
Qed.

Lemma row_complete_true (d : DataFrame) (t : nat) :
  row_complete d t = true <->
  forall (name : string) (col : Series),
    (name, col) ∈ columns d -> isnan (nth t col NaN) = false.
Proof.
  unfold row_complete. rewrite forallb_forall. split.
  - intros H name col Hin. apply negb_true_iff.
    by apply (H (name, col)), list_elem_of_In.
  - intros H [name col] Hin%list_elem_of_In. apply negb_true_iff.
    by apply (H name).
Qed.

Lemma dropna_columns (d : DataFrame) (name : string) (col' : Series) :
  (name, col') ∈ columns (dropna d) ->
  exists col : Series, (name, col) ∈ columns d /\ col' = keep_rows (row_complete d) col.
Proof.
  simpl. intros ([name' col] & [= -> ->] & Hin)%list_elem_of_fmap. by exists col.
Qed.

Lemma dropna_well_formed (d : DataFrame) : well_formed d -> well_formed (dropna d).
Proof.
  unfold well_formed. rewrite !list.Forall_forall. intros Hwf [name col'] Hin.
  apply dropna_columns in Hin as (col & Hin & ->). simpl.
  rewrite length_keep_rows. specialize (Hwf _ Hin). simpl in Hwf. by rewrite Hwf.
Qed.

Lemma dropna_complete (d : DataFrame) (name : string) (col' : Series) :
  (name, col') ∈ columns (dropna d) -> complete col'.
Proof.
  intros (col & Hin & ->)%dropna_columns.
  apply list.Forall_forall. intros x (t & Hx & Hrow)%keep_rows_elem.
  rewrite row_complete_true in Hrow. specialize (Hrow _ _ Hin).
  by rewrite (nth_lookup_Some _ _ _ _ Hx) in Hrow.
Qed.

Lemma complete_row_complete (d : DataFrame) (t : nat) :
  well_formed d ->
  (forall name col, (name, col) ∈ columns d -> complete col) ->
  (t < nrows d)%nat -> row_complete d t = true.
Proof.
  intros Hwf Hall Ht. apply row_complete_true. intros name col Hin.
  unfold well_formed in Hwf. rewrite list.Forall_forall in Hwf.
  pose proof (Hwf _ Hin) as Hlen. simpl in Hlen.
  destruct (lookup_lt_is_Some_2 col t) as [x Hx]; [lia|].
  rewrite (nth_lookup_Some _ _ _ _ Hx).
  specialize (Hall _ _ Hin). unfold complete in Hall.
  rewrite list.Forall_forall in Hall. apply Hall. by eapply list_elem_of_lookup_2.
Qed.

(** A table without a missing cell is left as it is. *)
Lemma dropna_complete_id (d : DataFrame) :
  well_formed d ->
  (forall name col, (name, col) ∈ columns d -> complete col) ->
  dropna d = d.
Proof.
  intros Hwf Hall. destruct d as [n cols]. unfold dropna. simpl. f_equal.
  - rewrite filter_all, length_seq; [done|].
    apply list.Forall_forall. intros t Ht%elem_of_seq.
    apply (complete_row_complete _ _ Hwf Hall). simpl. lia.
  - transitivity (id <$> cols); [|apply list_fmap_id]. apply Forall_fmap_ext_1.
    apply list.Forall_forall. intros [name col] Hin. unfold prod_map. simpl. f_equal.
    rewrite (keep_rows_ext _ (fun _ => true)); [apply keep_rows_all|].
    intros t Ht. apply (complete_row_complete _ _ Hwf Hall). simpl.
    unfold well_formed in Hwf. rewrite list.Forall_forall in Hwf.
    specialize (Hwf _ Hin). simpl in Hwf. lia.
Qed.

(** A table whose rows are incomplete exactly up to row [k] loses these
    rows. *)
Lemma dropna_tail (k : nat) (d : DataFrame) :
  well_formed d ->
  (forall t : nat, (t < nrows d)%nat -> row_complete d t = bool_decide (k ≤ t)%nat) ->
  dropna d = tail_rows k d.
Proof.
  intros Hwf Hrow. unfold dropna, tail_rows. f_equal.
  - rewrite <- (length_replicate (nrows d) NaN) at 2. rewrite <- length_drop.
    rewrite <- keep_rows_from, length_keep_rows, length_replicate.
    f_equal. apply filter_ext_elem.
    apply list.Forall_forall. intros t Ht%elem_of_seq.
    by rewrite Hrow by lia.
  - apply Forall_fmap_ext_1.
    apply list.Forall_forall. intros [name col] Hin. unfold prod_map. simpl. f_equal.
    rewrite <- keep_rows_from. apply keep_rows_ext. intros t Ht. apply Hrow.
    unfold well_formed in Hwf. rewrite list.Forall_forall in Hwf.
    specialize (Hwf _ Hin). simpl in Hwf. lia.
Qed.

(** *** [drop_na] *)

(** X6: On a table whose columns have one cell per row, [drop_na] returns the
    builder's own table, now without a missing cell, with the same columns
    and no more rows than before; a second call changes nothing, and a
    table without a missing cell is left as it is. *)
Theorem drop_na_clean (self : FeatureEngineer) (h : heap) (d : DataFrame) :
  h !! df self = Some d ->
  well_formed d ->
  exists d' : DataFrame,
    drop_na self h = (Ok (df self), <[df self := d']> h)
    /\ well_formed d'
    /\ column_names d' = column_names d
    /\ (nrows d' ≤ nrows d)%nat
    /\ (forall name col, (name, col) ∈ columns d' -> complete col)
    /\ drop_na self (<[df self := d']> h) = (Ok (df self), <[df self := d']> h)
    /\ ((forall name col, (name, col) ∈ columns d -> complete col) -> d' = d).
Proof.
  intros Hd Hwf. exists (dropna d).
  assert (Hrun : forall h0 d0, h0 !! df self = Some d0 ->
            drop_na self h0 = (Ok (df self), <[df self := dropna d0]> h0)).
  { intros h0 d0 H0. unfold drop_na, mbind, M_bind, assign.
    by rewrite (deref_run _ _ d0 H0). }
  assert (Hcomplete : forall name col, (name, col) ∈ columns (dropna d) -> complete col).
  { intros name col. apply dropna_complete. }
  split; [by apply Hrun|].
  split; [by apply dropna_well_formed|].
  split.
  { unfold column_names. simpl. rewrite <- list_fmap_compose.
    apply Forall_fmap_ext_1, list.Forall_forall. by intros [name col] _. }
  split.
  { simpl. etransitivity; [apply length_filter|]. by rewrite length_seq. }
  split; [done|].
  split.
  { rewrite (Hrun _ (dropna d)) by (by rewrite lookup_insert_eq).
    rewrite insert_insert_eq.
    by rewrite dropna_complete_id by (by auto using dropna_well_formed). }
  intros Hall. by apply dropna_complete_id.
Qed.

Lemma drop_na_clean_witness :
  let d := {| nrows := 3%nat;
              columns := [("Close", Examples.prices [10; 11; 13]%Z);
                          ("Return", [NaN; of_Z 1; of_Z 2])] |} in
  let fe := {| df := Examples.caller |} in
  exists d' : DataFrame,
    drop_na fe (Examples.caller_heap d)
      = (Ok Examples.caller, <[Examples.caller := d']> (Examples.caller_heap d))
    /\ (nrows d' ≤ 3)%nat
    /\ forall name col, (name, col) ∈ columns d' -> complete col.
Proof.
  intros d fe.
  destruct (drop_na_clean fe (Examples.caller_heap d) d)
    as (d' & Hrun & _ & _ & Hrows & Hcomplete & _).
  - reflexivity.
  - repeat constructor.
  - exists d'. split; [exact Hrun|]. split; [exact Hrows|exact Hcomplete].
Defined.

(** *** Lags, then [drop_na] *)

Lemma longest_lag_ge (lags : list Z) (k : Z) :
  k ∈ lags -> (Z.to_nat k ≤ longest_lag lags)%nat.
Proof.
  unfold longest_lag. induction lags as [|k' lags IH]; [by intros ?%elem_of_nil|].
  intros [->|Hk]%elem_of_cons; simpl; [lia|]. specialize (IH Hk). lia.
Qed.

Lemma longest_lag_attained (lags : list Z) :
  (0 < longest_lag lags)%nat ->
  exists k : Z, k ∈ lags /\ Z.to_nat k = longest_lag lags.
Proof.
  unfold longest_lag. induction lags as [|k' lags IH]; simpl; [lia|].
  intros Hpos. destruct (Z.max_spec k' (foldr Z.max 0%Z lags)) as [[Hlt Hmax]|[Hle Hmax]].
  - rewrite Hmax in *. destruct (IH Hpos) as (k & Hk & Heq).
    exists k. split; [by right|done].
  - rewrite Hmax. exists k'. split; [by left|done].
Qed.

Lemma assoc_set_elem (name : string) (s : Series) (cols : list (string * Series))
    (c : string * Series) :
  c ∈ assoc_set name s cols -> c ∈ cols \/ c = (name, s).
Proof.
  induction cols as [|[k s'] cols IH]; simpl.
  - intros ->%list_elem_of_singleton. by right.
  - case_decide as Hk.
    + intros [->|Hc]%elem_of_cons; [subst; by right|left; by right].
    + intros [->|Hc]%elem_of_cons; [left; by left|].
      destruct (IH Hc) as [?|?]; [left; by right|by right].
Qed.

Lemma with_lags_elem (close : Series) (lags : list Z) (d : DataFrame)
    (c : string * Series) :
  c ∈ columns (with_lags close lags d) ->
  c ∈ columns d \/ exists k : Z, k ∈ lags /\ c.2 = shift (Z.to_nat k) close.
Proof.
  induction lags as [|k' lags IH] using rev_ind; [by left|].
  rewrite with_lags_snoc. simpl. intros [Hc| ->]%assoc_set_elem.
  - destruct (IH Hc) as [?|(k & Hk & ?)]; [by left|].
    right. exists k. split; [|done]. apply elem_of_app. by left.
  - right. exists k'. split; [|done]. apply elem_of_app. right. by left.
Qed.

Lemma with_lags_well_formed (close : Series) (lags : list Z) (d : DataFrame) :
  well_formed d -> length close = nrows d -> well_formed (with_lags close lags d).
Proof.
  intros Hwf Hlen. unfold well_formed. rewrite with_lags_nrows.
  apply list.Forall_forall. intros c [Hc|(k & _ & ->)]%with_lags_elem.
  - unfold well_formed in Hwf. rewrite list.Forall_forall in Hwf. by apply Hwf.
  - by rewrite length_shift.
Qed.

Lemma complete_nth (col : Series) (t : nat) :
  complete col -> (t < length col)%nat -> isnan (nth t col NaN) = false.
Proof.
  intros Hall Ht. destruct (lookup_lt_is_Some_2 col t Ht) as [x Hx].
  rewrite (nth_lookup_Some _ _ _ _ Hx).
  unfold complete in Hall. rewrite list.Forall_forall in Hall.
  apply Hall. by eapply list_elem_of_lookup_2.
Qed.

(** With the lag columns added, a row is complete from the longest lag
    on. *)
Lemma with_lags_row_complete (close : Series) (lags : list Z) (d : DataFrame) (t : nat) :
  well_formed d ->
  (forall name col, (name, col) ∈ columns d -> complete col) ->
  getitem "Close" d = Ok close ->
  (t < nrows d)%nat ->
  row_complete (with_lags close lags d) t = bool_decide (longest_lag lags ≤ t)%nat.
Proof.
  intros Hwf Hall Hclose Ht.
  assert (Hin : ("Close", close) ∈ columns d).
  { unfold getitem in Hclose. destruct (assoc_get "Close" (columns d)) eqn:Hs; [|done].
    injection Hclose as ->. by apply assoc_get_elem. }
  assert (Hlen : length close = nrows d).
  { unfold well_formed in Hwf. rewrite list.Forall_forall in Hwf. by apply (Hwf _ Hin). }
  pose proof (Hall _ _ Hin) as Hcc.
  case_bool_decide as Hm.
  - apply row_complete_true. intros name col [Hc|(k & Hk & Hcol)]%with_lags_elem.
    + apply complete_nth; [by eapply Hall|].
      unfold well_formed in Hwf. rewrite list.Forall_forall in Hwf.
      specialize (Hwf _ Hc). simpl in Hwf. lia.
    + simpl in Hcol. subst col. pose proof (longest_lag_ge _ _ Hk) as Hge.
      assert (Hl : shift (Z.to_nat k) close !! t = close !! (t - Z.to_nat k)%nat).
      { rewrite lookup_shift by lia. by rewrite decide_False by lia. }
      destruct (lookup_lt_is_Some_2 close (t - Z.to_nat k)) as [x Hx]; [lia|].
      rewrite Hx in Hl. rewrite (nth_lookup_Some _ _ _ _ Hl).
      unfold complete in Hcc. rewrite list.Forall_forall in Hcc.
      apply Hcc. by eapply list_elem_of_lookup_2.
  - destruct (row_complete (with_lags close lags d) t) eqn:Hrow; [|done].
    rewrite row_complete_true in Hrow.
    destruct (longest_lag_attained lags) as (k & Hk & Heq); [lia|].
    pose proof (with_lags_lookup close lags k d Hk) as Hcol%assoc_get_elem.
    specialize (Hrow _ _ Hcol).
    assert (Hl : shift (Z.to_nat k) close !! t = Some NaN).
    { rewrite lookup_shift by lia. by rewrite decide_True by lia. }
    by rewrite (nth_lookup_Some _ _ _ _ Hl) in Hrow.
Qed.

(** X7: On a table without a missing cell, [add_lag_features(lags).drop_na()]
    with positive lags leaves the table with its lag columns and without
    its first rows, as many as the longest lag: Close starts at that row,
    and the column of lag [k] holds Close of [k] rows earlier. *)
Theorem lags_then_drop_na (self : FeatureEngineer) (h : heap) (d : DataFrame)
    (close : Series) (lags : list Z) :
  h !! df self = Some d ->
  well_formed d ->
  (forall name col, (name, col) ∈ columns d -> complete col) ->
  getitem "Close" d = Ok close ->
  Forall (fun lag => 0 < lag)%Z lags ->
  let m := longest_lag lags in
  exists d' : DataFrame,
    (fe ← add_lag_features self lags; drop_na fe) h
      = (Ok (df self), <[df self := d']> h)
    /\ nrows d' = (nrows d - m)%nat
    /\ getitem "Close" d' = Ok (drop m close)
    /\ forall k : Z, k ∈ lags ->
         exists col : Series,
           getitem (lag_column k) d' = Ok col
           /\ length col = (nrows d - m)%nat
           /\ forall t : nat, (t < nrows d - m)%nat ->
                col !! t = close !! (m + t - Z.to_nat k)%nat.
Proof.
  intros Hd Hwf Hall Hclose Hpos m.
  assert (Hin : ("Close", close) ∈ columns d).
  { unfold getitem in Hclose. destruct (assoc_get "Close" (columns d)) eqn:Hs; [|done].
    injection Hclose as ->. by apply assoc_get_elem. }
  assert (Hlen : length close = nrows d).
  { unfold well_formed in Hwf. rewrite list.Forall_forall in Hwf. by apply (Hwf _ Hin). }
  exists (tail_rows m (with_lags close lags d)).
  destruct (add_lag_features_loop_run self close lags Hpos h d Hd Hclose) as [Hrun _].
  split.
  { unfold add_lag_features, drop_na, mbind, M_bind, mret, M_ret, assign.
    rewrite Hrun.
    rewrite (deref_run _ _ (with_lags close lags d)) by (by rewrite lookup_insert_eq).
    rewrite insert_insert_eq. do 2 f_equal.
    apply dropna_tail; [by apply with_lags_well_formed|].
    intros t Ht. rewrite with_lags_nrows in Ht. by apply with_lags_row_complete. }
  split; [simpl; by rewrite with_lags_nrows|].
  split.
  { unfold getitem. simpl. rewrite assoc_get_fmap, with_lags_other.
    - unfold getitem in Hclose.
      by destruct (assoc_get "Close" (columns d)); simplify_eq.
    - intros k _. apply lag_column_not_Close. }
  intros k Hk. exists (drop m (shift (Z.to_nat k) close)).
  pose proof (longest_lag_ge _ _ Hk) as Hge. fold m in Hge.
  split; [unfold getitem; simpl; by rewrite assoc_get_fmap, with_lags_lookup|].
  split; [by rewrite length_drop, length_shift, Hlen|].
  intros t Ht. rewrite lookup_drop, lookup_shift by lia.
  by rewrite decide_False by lia.
Qed.

Lemma lags_then_drop_na_witness :
  let close := Examples.prices [10; 11; 13; 12]%Z in
  let d := Examples.close_table close in
  let h := Examples.caller_heap d in
  let fe := {| df := Examples.caller |} in
  exists d' : DataFrame,
    (fe' ← add_lag_features fe [1; 2]%Z; drop_na fe') h
      = (Ok Examples.caller, <[Examples.caller := d']> h)
    /\ nrows d' = 2%nat
    /\ getitem "Close" d' = Ok (Examples.prices [13; 12]%Z).
Proof.
  intros close d h fe.
  destruct (lags_then_drop_na fe h d close [1; 2]%Z)
    as (d' & Hrun & Hrows & Hclose & _).
  - reflexivity.
  - repeat constructor.
  - intros name col [[= -> ->]|Hin%elem_of_nil]%elem_of_cons; [|done].
    repeat constructor.
  - reflexivity.
  - repeat constructor.
  - exists d'. split; [exact Hrun|]. split; [exact Hrows|exact Hclose].
Defined.

(** *** Returns and volatility *)

Lemma length_pct_change (xs : Series) : length (pct_change xs) = length xs.
Proof.
  destruct xs as [|x tl]; [done|]. simpl. rewrite length_zip_with. simpl. lia.
Qed.

Lemma add_returns_run (self : FeatureEngineer) (h : heap) (d : DataFrame) (close : Series) :
  h !! df self = Some d ->
  getitem "Close" d = Ok close ->
  add_returns self h = (Ok self, <[df self := setitem "Return" (pct_change close) d]> h).
Proof.
  intros Hd Hclose. unfold add_returns, mbind, M_bind, lift, assign.
  by rewrite (deref_run _ _ d Hd), Hclose.
Qed.

Lemma getitem_setitem (name name' : string) (s : Series) (d : DataFrame) :
  getitem name (setitem name' s d) = if decide (name' = name) then Ok s else getitem name d.
Proof. unfold getitem. simpl. rewrite assoc_get_set. by case_decide. Qed.

(** The deviation of one observation has no value. *)
Lemma rolling_std_one (sqrt : Qc -> Qc) (xs : Series) :
  rolling_std sqrt 1 xs = replicate (length xs) NaN.
Proof.
  apply list_eq. intros t. destruct (decide (t < length xs)%nat) as [Ht|Ht].
  - rewrite lookup_replicate_2 by done.
    unfold rolling_std. rewrite lookup_rolling by done. simpl.
    pose proof (length_observations (window_at 1 t xs)) as Hobs.
    rewrite length_window_at in Hobs.
    case_decide; [|done]. by rewrite decide_True by lia.
  - rewrite !lookup_ge_None_2; [done| |].
    + rewrite length_replicate. lia.
    + unfold rolling_std. rewrite length_rolling. lia.
Qed.



(** X9: A Return column that the table already has is taken as it is, whatever
    it holds: [add_volatility] neither recomputes it nor reads Close, which
    may even be absent.  A window that is not positive is rejected before
    the table is touched. *)
Theorem add_volatility_existing_return (sqrt : Qc -> Qc) (self : FeatureEngineer)
    (h : heap) (d : DataFrame) (ret : Series) (window : Z) :
  h !! df self = Some d ->
  getitem "Return" d = Ok ret ->
  add_volatility sqrt self window h =
    if bool_decide (window ≤ 0)%Z
    then (Raise (ValueError "Window must be positive."), h)
    else (Ok self,
          <[df self := setitem "Volatility" (rolling_std sqrt (Z.to_nat window) ret) d]> h).
Proof.
  intros Hd Hret. unfold add_volatility. case_bool_decide; [done|].
  assert (Hhas : has_column "Return" d = true).
  { apply IndicatorsMore.has_column_getitem. by exists ret. }
  unfold mbind, M_bind, lift, assign, mret, M_ret.
  rewrite (deref_run _ _ d Hd), Hhas. simpl.
  by rewrite (deref_run _ _ d Hd), Hret.
Qed.

Lemma add_volatility_existing_return_witness :
  let d := {| nrows := 2%nat; columns := [("Return", [of_Z 5; of_Z 7])] |} in
  let fe := {| df := Examples.caller |} in
  add_volatility (fun q => q) fe 1 (Examples.caller_heap d) =
    (Ok fe, <[Examples.caller :=
               setitem "Volatility" (rolling_std (fun q => q) 1 [of_Z 5; of_Z 7]) d]>
              (Examples.caller_heap d)).
Proof.
  intros d fe.
  exact (add_volatility_existing_return (fun q => q) fe (Examples.caller_heap d) d
           [of_Z 5; of_Z 7] 1 eq_refl eq_refl).
Defined.

(** *** A table without Close *)

(** X10: The builder takes any table that is not empty, Close or not, and
    copies it; a table with no row or no column is rejected.  Without a
    Close column, [add_returns], [add_lag_features] on a positive first lag
    and [add_volatility] on a positive window, when there is no Return
    column either, fail with the [KeyError] of pandas and leave the table
    as it was; [add_lag_features] on no lag at all returns. *)
Theorem builder_without_close (sqrt : Qc -> Qc) (table : loc) (h : heap) (d : DataFrame) :
  h !! table = Some d ->
  if is_empty d then
    Features.__init__ table h = (Raise (ValueError "Input DataFrame is empty."), h)
  else
    exists (self : FeatureEngineer) (h1 : heap),
      Features.__init__ table h = (Ok self, h1)
      /\ h1 !! df self = Some d
      /\ df self ≠ table
      /\ h1 !! table = Some d
      /\ (has_column "Close" d = false ->
            add_returns self h1 = (Raise (LibraryError "KeyError"), h1)
            /\ add_lag_features self [] h1 = (Ok self, h1)
            /\ (forall lag rest, (0 < lag)%Z ->
                  add_lag_features self (lag :: rest) h1
                    = (Raise (LibraryError "KeyError"), h1))
            /\ (forall window, (0 < window)%Z -> has_column "Return" d = false ->
                  add_volatility sqrt self window h1
                    = (Raise (LibraryError "KeyError"), h1))).
Proof.
  intros Hd. unfold Features.__init__, mbind, M_bind.
  rewrite (deref_run _ _ d Hd).
  destruct (is_empty d) eqn:Hempty; [done|].
  rewrite (copy_run _ _ d Hd). set (l := fresh (dom h)).
  assert (Hl : l ≠ table).
  { intros Heq. pose proof (fresh_not_allocated h table d Hd) as Hf. by apply Hf. }
  exists {| df := l |}, (<[l := d]> h). simpl.
  split; [done|]. split; [by rewrite lookup_insert_eq|]. split; [done|].
  split; [by rewrite lookup_insert_ne|].
  intros Hclose.
  assert (Hget : getitem "Close" d = Raise (LibraryError "KeyError")).
  { unfold getitem. destruct (assoc_get "Close" (columns d)) as [s|] eqn:Hs; [|done].
    assert (has_column "Close" d = true); [|congruence].
    apply IndicatorsMore.has_column_getitem. exists s. unfold getitem. by rewrite Hs. }
  assert (Hderef : deref l (<[l := d]> h) = (Ok d, <[l := d]> h)).
  { apply deref_run. by rewrite lookup_insert_eq. }
  assert (Hret : add_returns {| df := l |} (<[l := d]> h)
                 = (Raise (LibraryError "KeyError"), <[l := d]> h)).
  { unfold add_returns, mbind, M_bind, lift. simpl. by rewrite Hderef, Hget. }
  split; [done|]. split; [done|]. split.
  - intros lag rest Hlag. unfold add_lag_features, mbind, M_bind. simpl.
    rewrite bool_decide_eq_false_2 by lia.
    unfold mbind, M_bind, lift. by rewrite Hderef, Hget.
  - intros window Hw Hnoret. unfold add_volatility.
    rewrite bool_decide_eq_false_2 by lia.
    unfold mbind, M_bind. simpl. rewrite Hderef, Hnoret. simpl. by rewrite Hret.
Qed.

Lemma builder_without_close_witness :
  let d := {| nrows := 2%nat; columns := [("Open", Examples.prices [10; 11]%Z)] |} in
  exists (self : FeatureEngineer) (h1 : heap),
    Features.__init__ Examples.caller (Examples.caller_heap d) = (Ok self, h1)
    /\ add_returns self h1 = (Raise (LibraryError "KeyError"), h1).
Proof.
  intros d.
  pose proof (builder_without_close (fun q => q) Examples.caller
                (Examples.caller_heap d) d eq_refl) as H.
  change (is_empty d) with false in H.
  destruct H as (self & h1 & Hinit & _ & _ & _ & Hops).
  exists self, h1. split; [exact Hinit|]. apply Hops. reflexivity.
Defined.

End FeaturesMore.

(** ** Forecast selector: construction, features, failures *)

Module ForecastingMore.
Import Forecasting ForecastingProofs.

Lemma has_column_getitem_Ok (name : string) (d : DataFrame) :
  has_column name d = true -> exists s : Series, getitem name d = Ok s.
Proof. apply IndicatorsMore.has_column_getitem. Qed.

Section Selection.

Variable sqrt : Qc -> Qc.
Variables LinearRegression RandomForestRegressor : Regressor.

(** X11: [__init__] asks for the target column only: a table without it is
    rejected and nothing is copied; any other table is copied, one with a
    single row or none included.  On such a table the training fails
    with the [ValueError] of the split, sets no attribute, and the
    forecaster stays untrained. *)
Theorem forecaster_small_table (table : loc) (target : string) (h : heap)
    (d : DataFrame) (X_last : DataFrame) :
  h !! table = Some d ->
  if has_column target d then
    exists (self : PriceForecaster) (h1 : heap),
      __init__ table target h = (Ok self, h1)
      /\ h1 !! df self = Some d
      /\ df self ≠ table
      /\ h1 !! table = Some d
      /\ ((nrows d < 2)%nat ->
            train_and_select_model sqrt LinearRegression RandomForestRegressor h1 self = (Raise (LibraryError "ValueError"), self)
            /\ predict_next self X_last = Raise NotTrainedError)
  else __init__ table target h = (Raise (ValueError "Target column not found."), h).
Proof.
  intros Hd. unfold __init__, mbind, M_bind. rewrite (deref_run _ _ d Hd).
  destruct (has_column target d) eqn:Hhas; [|done]. simpl.
  rewrite (copy_run _ _ d Hd). set (l := fresh (dom h)).
  assert (Hl : l ≠ table).
  { intros Heq. pose proof (fresh_not_allocated h table d Hd) as Hf. by apply Hf. }
  eexists _, _. split; [reflexivity|]. simpl.
  split; [by rewrite lookup_insert_eq|]. split; [done|].
  split; [by rewrite lookup_insert_ne|].
  intros Hn. split; [|done].
  destruct (has_column_getitem_Ok _ _ Hhas) as [y Hy].
  unfold train_and_select_model, mbind, M_bind, lift.
  rewrite (_prepare_data_small _ (<[l := d]> h) d y); try done.
  simpl. by rewrite lookup_insert_eq.
Qed.

(** X12: The features never hold the target: whatever [_prepare_data] returns,
    neither part of X has a column of the target's name, and both have the
    other columns of the table, in the table's order. *)
Theorem features_exclude_target (self : PriceForecaster) (h h' : heap) (d : DataFrame)
    (X_train X_test : DataFrame) (y_train y_test : Series) :
  h !! df self = Some d ->
  _prepare_data self h = (Ok (X_train, X_test, y_train, y_test), h') ->
  has_column (target self) X_train = false
  /\ has_column (target self) X_test = false
  /\ column_names X_train = filter (fun name => name ≠ target self) (column_names d)
  /\ column_names X_test = column_names X_train.
Proof.
  intros Hd. unfold _prepare_data, mbind, M_bind, lift.
  rewrite (deref_run _ _ d Hd).
  destruct (getitem (target self) d) as [y|]; [|done].
  unfold train_test_split. case_decide; [done|]. intros [= <- <- _ _ _].
  assert (Hnames : forall f : Series -> Series,
             (prod_map id f <$>
                filter (fun c : string * Series => c.1 ≠ target self) (columns d)).*1
             = filter (fun name => name ≠ target self) (column_names d)).
  { intros f. rewrite <- list_fmap_compose. unfold column_names.
    induction (columns d) as [|[k s] cols IH]; [done|].
    rewrite fmap_cons, !filter_cons. simpl.
    case_decide; [|done]. rewrite fmap_cons. simpl. by f_equal. }
  unfold has_column, column_names, head_rows, tail_rows, drop_column. simpl columns.
  rewrite !Hnames. split; [|split]; [| |done].
  - apply bool_decide_eq_false. by intros [? _]%list_elem_of_filter.
  - apply bool_decide_eq_false. by intros [? _]%list_elem_of_filter.
Qed.



End Selection.

Lemma forecaster_small_table_witness :
  let d := Examples.close_table (Examples.prices [10]%Z) in
  exists (self : PriceForecaster) (h1 : heap),
    __init__ Examples.caller "Close" (Examples.caller_heap d) = (Ok self, h1)
    /\ train_and_select_model (fun x => x) Examples.first_value Examples.always_zero
         h1 self = (Raise (LibraryError "ValueError"), self).
Proof.
  intros d.
  pose proof (forecaster_small_table (fun x => x) Examples.first_value
                Examples.always_zero Examples.caller "Close"
                (Examples.caller_heap d) d d eq_refl) as H.
  change (has_column "Close" d) with true in H.
  destruct H as (self & h1 & Hinit & _ & _ & _ & Htrain).
  exists self, h1. split; [exact Hinit|]. apply Htrain. simpl. lia.
Defined.

Lemma features_exclude_target_witness :
  let d := Examples.feature_table (Examples.prices [1; 2; 3; 4; 5; 6]%Z)
                                  (Examples.prices [10; 11; 13; 12; 14; 15]%Z) in
  let self := {| df := Examples.caller; target := "Close"; model := None;
                 rmse := None; best_model_name := None |} in
  exists (X_train X_test : DataFrame) (y_train y_test : Series),
    _prepare_data self (Examples.caller_heap d)
      = (Ok (X_train, X_test, y_train, y_test), Examples.caller_heap d)
    /\ has_column "Close" X_train = false
    /\ column_names X_test = column_names X_train.
Proof.
  intros d self.
  destruct (_prepare_data self (Examples.caller_heap d))
    as [[[[[X_train X_test] y_train] y_test]|e] h'] eqn:Hprep;
    [|vm_compute in Hprep; discriminate Hprep].
  assert (h' = Examples.caller_heap d) as ->.
  { vm_compute in Hprep. by injection Hprep as _ _ _ _ <-. }
  destruct (features_exclude_target self (Examples.caller_heap d) _ d _ _ _ _
              eq_refl Hprep)
    as (Htr & _ & _ & Hnames).
  by exists X_train, X_test, y_train, y_test.
Defined.



End ForecastingMore.

(** ** Decision rule: price bands, scale, missing values *)

Module StrategyMore.
Import Strategy StrategyProofs.

Lemma change_mul (a b : Qc) : a ≠ 0 -> change a b * a = b - a.
Proof. intros Ha. unfold change. by field. Qed.

Lemma Qcopp_lt_iff (x y : Qc) : x < y <-> - y < - x.
Proof.
  rewrite (Qclt_minus_iff x y), (Qclt_minus_iff (- y) (- x)).
  by replace (- x + - - y) with (y + - x) by ring.
Qed.

Lemma change_gt_pos (a b t : Qc) : 0 < a -> (t < change a b <-> a * (1 + t) < b).
Proof.
  intros Ha. assert (a ≠ 0) by (intros ->; by apply (irreflexivity Qclt 0)).
  rewrite (Qcmult_lt_mono_pos_r _ _ a Ha), change_mul by done.
  rewrite (Qcplus_lt_mono_r _ _ a).
  by replace (t * a + a) with (a * (1 + t)) by ring;
     replace (b - a + a) with b by ring.
Qed.

Lemma change_lt_pos (a b t : Qc) : 0 < a -> (change a b < t <-> b < a * (1 + t)).
Proof.
  intros Ha. assert (a ≠ 0) by (intros ->; by apply (irreflexivity Qclt 0)).
  rewrite (Qcmult_lt_mono_pos_r _ _ a Ha), change_mul by done.
  rewrite (Qcplus_lt_mono_r _ _ a).
  by replace (t * a + a) with (a * (1 + t)) by ring;
     replace (b - a + a) with b by ring.
Qed.

Lemma change_opp (a b : Qc) : a ≠ 0 -> change (- a) (- b) = change a b.
Proof.
  intros Ha. unfold change. field. split; [done|].
  intros H. apply Ha. rewrite <- (Qcopp_involutive a), H. ring.
Qed.

Lemma change_gt_neg (a b t : Qc) : a < 0 -> (t < change a b <-> b < a * (1 + t)).
Proof.
  intros Ha. assert (a ≠ 0) by (intros ->; by apply (irreflexivity Qclt 0)).
  assert (Hpos : 0 < - a) by (apply Qcopp_lt_iff; by rewrite Qcopp_involutive).
  rewrite <- change_opp by done. rewrite (change_gt_pos _ _ _ Hpos).
  rewrite (Qcopp_lt_iff b). by replace (- (a * (1 + t))) with (- a * (1 + t)) by ring.
Qed.

Lemma change_lt_neg (a b t : Qc) : a < 0 -> (change a b < t <-> a * (1 + t) < b).
Proof.
  intros Ha. assert (a ≠ 0) by (intros ->; by apply (irreflexivity Qclt 0)).
  assert (Hpos : 0 < - a) by (apply Qcopp_lt_iff; by rewrite Qcopp_involutive).
  rewrite <- change_opp by done. rewrite (change_lt_pos _ _ _ Hpos).
  rewrite (Qcopp_lt_iff _ b). by replace (- (a * (1 + t))) with (- a * (1 + t)) by ring.
Qed.

Lemma band_order (a t : Qc) : 0 ≤ a -> 0 ≤ t -> a * (1 - t) ≤ a * (1 + t).
Proof.
  intros Ha Ht. apply Qcmult_le_mono_nonneg_l; [done|].
  apply Qcplus_le_mono_l. trans 0; [|done].
  apply Qcopp_le_compat in Ht. by rewrite Qcopp_involutive in Ht || exact Ht.
Qed.







(** X18: A missing value, NaN, in any of the three arguments is not reported:
    every comparison with it is false, and the rule answers HOLD.  The one
    exception is the division of built-in floats by a zero last close,
    which raises before anything is compared. *)
Theorem recommend_missing_value (self : TradingStrategy) :
  isnan (value (last_close self)) || isnan (value (predicted_price self))
    || isnan (value (threshold self)) = true ->
  recommend self =
    if negb (numpy (predicted_price self) || numpy (last_close self))
       && is_zero (value (last_close self))
    then Raise ZeroDivisionError
    else Ok HOLD.
Proof.
  destruct self as [[k1 a] [k2 b] [k3 t]]. simpl. intros Hnan.
  unfold recommend, truediv, sub, gt, lt, neg. simpl.
  rewrite <- orb_assoc, orb_diag.
  destruct (k2 || k1); simpl;
    destruct a as [| | |a], b as [| | |b], t as [| | |t]; simpl in *; try done;
    repeat (case_bool_decide; simpl; try done);
    unfold inf_signed; repeat (case_bool_decide; simpl; try done).
Qed.

Lemma recommend_missing_value_witness :
  recommend (__init__ (PyFloat (of_Z 100)) (NpFloat NaN) default_threshold) = Ok HOLD.
Proof.
  exact (recommend_missing_value
           (__init__ (PyFloat (of_Z 100)) (NpFloat NaN) default_threshold) eq_refl).
Defined.

End StrategyMore.

(** ** Charts: validation and what is drawn *)

Module VisualizationMore.
Import Visualization.

Lemma has_column_elem (name : string) (d : DataFrame) :
  has_column name d = true <-> name ∈ column_names d.
Proof. unfold has_column. apply bool_decide_eq_true. Qed.

Lemma getitem_elem (name : string) (d : DataFrame) :
  name ∈ column_names d -> exists y : Series, getitem name d = Ok y.
Proof. intros H. by apply IndicatorsMore.has_column_getitem, has_column_elem. Qed.

Lemma getitem_not_elem (name : string) (d : DataFrame) :
  name ∉ column_names d -> getitem name d = Raise (LibraryError "KeyError").
Proof.
  intros H. unfold getitem.
  destruct (assoc_get name (columns d)) as [y|] eqn:Hy; [|done].
  destruct H. apply has_column_elem, IndicatorsMore.has_column_getitem.
  exists y. unfold getitem. by rewrite Hy.
Qed.

Section ChartsProofs.

Variable columns_message : gset string -> string.

Lemma chart_validation (df : DataFrame) (required : gset string) :
  _validate_dataframe columns_message df required =
    if is_empty df then Raise (ValueError "Input DataFrame is empty.")
    else if bool_decide (forall name, name ∈ required -> name ∈ column_names df)
    then Ok tt
    else Raise (ValueError (columns_message required)).
Proof.
  unfold _validate_dataframe. destruct (is_empty df); [done|].
  assert (Hiff : required ⊆ list_to_set (column_names df)
                 <-> forall name, name ∈ required -> name ∈ column_names df).
  { split.
    - intros Hsub name Hname. specialize (Hsub name Hname).
      by rewrite elem_of_list_to_set in Hsub.
    - intros Hall name Hname. rewrite elem_of_list_to_set. by apply Hall. }
  rewrite (bool_decide_ext _ _ Hiff). by case_bool_decide.
Qed.

Lemma plot_columns_run (df : DataFrame) (cols : list string) :
  Forall (fun col => col ∈ column_names df) cols ->
  exists ys : list Series,
    Forall2 (fun col y => getitem col df = Ok y) cols ys
    /\ forall calls : list plt_call,
         plot_columns df cols calls = (Ok tt, calls ++ zip_with plot ys cols).
Proof.
  induction 1 as [|col cols Hcol _ (ys & Hys & IH)].
  - exists []. split; [constructor|]. intros calls. simpl. by rewrite app_nil_r.
  - destruct (getitem_elem _ _ Hcol) as [y Hy]. exists (y :: ys).
    split; [by constructor|]. intros calls. simpl.
    unfold mbind, M_bind, lift, plt. rewrite Hy, IH. by rewrite <- app_assoc.
Qed.

(** X19: [plot_price_with_ma] draws all or nothing.  On an empty table, or one
    that lacks Close or one of the averages, it raises the [ValueError] of
    the validation before the first call into matplotlib.  On any other
    table it returns, no column lookup fails, and the calls are: the
    figure, the Close line, one line for every name of [ma_columns] in
    their order, a name given twice drawn twice, then the title, the
    axis labels, the legend, the grid and [show]. *)
Theorem plot_price_with_ma_draws (df : DataFrame) (ma_columns : list string)
    (text : string) (calls : list plt_call) :
  if is_empty df then
    plot_price_with_ma columns_message df ma_columns text calls
      = (Raise (ValueError "Input DataFrame is empty."), calls)
  else if bool_decide ("Close" ∈ column_names df
                       /\ Forall (fun col => col ∈ column_names df) ma_columns) then
    exists (close : Series) (ys : list Series),
      getitem "Close" df = Ok close
      /\ Forall2 (fun col y => getitem col df = Ok y) ma_columns ys
      /\ plot_price_with_ma columns_message df ma_columns text calls
         = (Ok tt,
            calls ++ [figure 12 6; plot close "Close Price"]
                  ++ zip_with plot ys ma_columns
                  ++ [title text; xlabel "Date"; ylabel "Price"; legend; grid true; show])
  else
    plot_price_with_ma columns_message df ma_columns text calls
      = (Raise (ValueError (columns_message ({["Close"]} ∪ list_to_set ma_columns))), calls).
Proof.
  unfold plot_price_with_ma. rewrite chart_validation.
  destruct (is_empty df); [done|].
  assert (Hiff : (forall name, name ∈ ({["Close"]} ∪ list_to_set ma_columns : gset string)
                    -> name ∈ column_names df)
                 <-> "Close" ∈ column_names df
                     /\ Forall (fun col => col ∈ column_names df) ma_columns).
  { rewrite list.Forall_forall. split.
    - intros Hall. split; [apply Hall; set_solver|].
      intros col Hcol. apply Hall. set_solver.
    - intros [Hclose Hma] name [->%elem_of_singleton|Hin%elem_of_list_to_set]%elem_of_union;
        auto. }
  rewrite (bool_decide_ext _ _ Hiff). case_bool_decide as Hcols; [|done].
  destruct Hcols as [Hclose Hma].
  destruct (getitem_elem _ _ Hclose) as [close Hc].
  destruct (plot_columns_run df ma_columns Hma) as (ys & Hys & Hrun).
  exists close, ys. split; [done|]. split; [done|].
  unfold mbind, M_bind, lift, plt. rewrite Hc, Hrun.
  by rewrite <- !app_assoc.
Qed.

(** X20: [plot_rsi] draws all or nothing as well: a missing column is the
    [ValueError] of the validation, not a [KeyError] of the lookup after
    the figure is opened; the line has the label RSI whatever the column
    is called, and the two levels are at 70 and 30. *)
Theorem plot_rsi_draws (df : DataFrame) (column text : string) (calls : list plt_call) :
  plot_rsi columns_message df column text calls =
    if is_empty df then (Raise (ValueError "Input DataFrame is empty."), calls)
    else match getitem column df with
         | Ok y =>
             (Ok tt,
              calls ++ [figure 12 4; plot y "RSI"; axhline 70 "--"; axhline 30 "--";
                        title text; xlabel "Date"; ylabel "RSI"; legend; grid true; show])
         | Raise _ => (Raise (ValueError (columns_message {[column]})), calls)
         end.
Proof.
  unfold plot_rsi. rewrite chart_validation.
  destruct (is_empty df); [done|].
  assert (Hiff : (forall name, name ∈ ({[column]} : gset string) -> name ∈ column_names df)
                 <-> column ∈ column_names df).
  { split; [intros Hall; apply Hall; set_solver|].
    by intros Hc name ->%elem_of_singleton. }
  rewrite (bool_decide_ext _ _ Hiff). case_bool_decide as Hcol.
  - destruct (getitem_elem _ _ Hcol) as [y Hy]. rewrite Hy.
    unfold mbind, M_bind, lift, plt. by rewrite <- !app_assoc.
  - by rewrite getitem_not_elem.
Qed.

(** X21: The table [macd] returns for a Close column that is not empty is one
    [plot_macd] accepts: the chart has the MACD line, the Signal line and
    the bars of their difference. *)
Theorem macd_then_plot_macd (self : Indicators.TechnicalIndicators) (h : heap)
    (d : DataFrame) (close : Series) (fast slow signal : Z) (text : string)
    (calls : list plt_call) :
  h !! Indicators.data self = Some d ->
  getitem "Close" d = Ok close ->
  close ≠ [] ->
  (0 < fast)%Z -> (0 < slow)%Z -> (0 < signal)%Z ->
  let macd_line :=
    series_sub (ewm_mean (Z.to_nat fast) close) (ewm_mean (Z.to_nat slow) close) in
  let signal_line := ewm_mean (Z.to_nat signal) macd_line in
  exists macd_df : DataFrame,
    Indicators.macd self fast slow signal h = (Ok macd_df, h)
    /\ plot_macd columns_message macd_df text calls =
         (Ok tt,
          calls ++ [figure 12 5; plot macd_line "MACD"; plot signal_line "Signal";
                    bar (series_sub macd_line signal_line) (Q2Qc (3 # 10)) "Histogram";
                    title text; xlabel "Date"; legend; grid true; show]).
Proof.
  intros Hd Hclose Hne Hf Hs Hg macd_line signal_line.
  eexists. split; [by apply (IndicatorsProofs.macd_run self h d close)|].
  fold macd_line signal_line.
  assert (Hlen : length macd_line ≠ 0%nat).
  { unfold macd_line.
    rewrite IndicatorsProofs.length_series_sub
      by (by rewrite !IndicatorsProofs.length_ewm_mean).
    rewrite IndicatorsProofs.length_ewm_mean.
    destruct close; [done|]. simpl. lia. }
  unfold plot_macd. rewrite chart_validation.
  unfold is_empty. simpl.
  rewrite bool_decide_eq_false_2 by done. simpl.
  rewrite bool_decide_eq_true_2.
  - unfold mbind, M_bind, lift, plt. simpl. by rewrite <- !app_assoc.
  - unfold column_names. simpl.
    intros name [[->%elem_of_singleton| ->%elem_of_singleton]%elem_of_union
                | ->%elem_of_singleton]%elem_of_union;
      apply list_elem_of_In; simpl; tauto.
Qed.

End ChartsProofs.

Lemma macd_then_plot_macd_witness :
  let close := Examples.prices [10; 11; 13]%Z in
  let h := Examples.caller_heap (Examples.close_table close) in
  exists (macd_df : DataFrame) (drawn : list plt_call),
    Indicators.macd {| Indicators.data := Examples.caller |} 1 2 1 h = (Ok macd_df, h)
    /\ plot_macd (fun _ => "columns") macd_df macd_title [] = (Ok tt, drawn)
    /\ list.last drawn = Some show.
Proof.
  intros close h.
  destruct (macd_then_plot_macd (fun _ => "columns")
              {| Indicators.data := Examples.caller |} h
              (Examples.close_table close) close 1 2 1 macd_title [])
    as (macd_df & Hmacd & Hplot); try done.
  eexists macd_df, _. split; [exact Hmacd|]. split; [exact Hplot|]. reflexivity.
Defined.

End VisualizationMore.

(** ** Market data: what the loader asks for and what it returns *)

Module DataLoaderMore.
Import DataLoader.

Section LoaderProofs.

Variable yf_download : request -> lib_result Download.
Variable invalid_period_message : string -> string.
Variable required_columns_message : string.

Lemma downloaded_table_valid (df : Download) (t : DataFrame) :
  _validate_dataframe required_columns_message df = Ok t ->
  t = flat df
  /\ is_empty t = false
  /\ Forall (fun name => has_column name t = true) required_columns.
Proof.
  unfold _validate_dataframe.
  destruct (download_empty df) eqn:Hempty; [done|].
  destruct (forallb _ required_columns) eqn:Hall; [|done].
  simpl. intros [= <-]. split; [done|].
  assert (Hcols : Forall (fun name => has_column name (flat df) = true) required_columns).
  { apply Forall_forall. by apply forallb_forall. }
  split; [|done].
  unfold download_empty in Hempty. apply orb_false_elim in Hempty as [Hrows _].
  unfold is_empty. simpl. rewrite Hrows. simpl.
  apply bool_decide_eq_false. intros Hnil.
  assert (Hclose : has_column "Open" (flat df) = true).
  { rewrite list.Forall_forall in Hcols. apply Hcols.
    apply list_elem_of_In. simpl. tauto. }
  unfold has_column, column_names in Hclose. simpl in Hclose. rewrite Hnil in Hclose.
  apply bool_decide_eq_true in Hclose. by apply elem_of_nil in Hclose.
Qed.

(** X22: A period outside the allowed ones is rejected before anything is
    requested.  A call that returns has made one request, for the loader's
    ticker and the period; the table it returns is the downloaded one with
    the first level of its labels for names, it has a row and the columns
    Open, High, Low, Close and Volume, and the indicator engine, the
    feature builder and the forecast selector all take it. *)
Theorem load_by_period_returns (self : MarketDataLoader) (period : string)
    (made : list request) :
  (period ∉ _ALLOWED_PERIODS ->
     load_by_period yf_download invalid_period_message
       required_columns_message self period made = (Raise (ValueError (invalid_period_message period)), made))
  /\ (forall (t : DataFrame) (made' : list request),
        load_by_period yf_download invalid_period_message
       required_columns_message self period made = (Ok t, made') ->
        let r := {| tickers := ticker self; period := period |} in
        period ∈ _ALLOWED_PERIODS
        /\ made' = made ++ [r]
        /\ (exists df : Download, yf_download r = Returns df /\ t = flat df)
        /\ is_empty t = false
        /\ Forall (fun name => has_column name t = true) required_columns
        /\ forall (h : heap) (table : loc), h !! table = Some t ->
             (exists ti h1, Indicators.__init__ table h = (Ok ti, h1))
             /\ (exists fe h1, Features.__init__ table h = (Ok fe, h1))
             /\ (exists pf h1,
                   Forecasting.__init__ table Forecasting.default_target h = (Ok pf, h1))).
Proof.
  unfold load_by_period. split.
  - intros Hp. by rewrite bool_decide_eq_false_2.
  - intros t made'. case_bool_decide as Hp; [|done]. simpl.
    unfold mbind, M_bind, download, lift.
    destruct (yf_download _) as [df|cls] eqn:Hdown; [|done]. simpl.
    destruct (_validate_dataframe _ df) as [t'|e] eqn:Hvalid; [|done].
    intros [= -> <-].
    destruct (downloaded_table_valid _ _ Hvalid) as (Hflat & Hempty & Hcols).
    split; [done|]. split; [done|]. split; [by exists df|].
    split; [done|]. split; [done|].
    assert (Hclose : has_column "Close" t = true).
    { rewrite list.Forall_forall in Hcols. apply Hcols.
      apply list_elem_of_In. simpl. tauto. }
    intros h table Ht. split; [|split].
    + unfold Indicators.__init__, Indicators._validate, mbind, M_bind.
      rewrite (copy_run _ _ t Ht). simpl.
      rewrite (deref_run _ _ t) by (by rewrite lookup_insert_eq).
      rewrite Hclose, Hempty. simpl. by eexists _, _.
    + unfold Features.__init__, mbind, M_bind.
      rewrite (deref_run _ _ t Ht), Hempty, (copy_run _ _ t Ht). by eexists _, _.
    + unfold Forecasting.__init__, Forecasting.default_target, mbind, M_bind.
      rewrite (deref_run _ _ t Ht), Hclose. simpl.
      rewrite (copy_run _ _ t Ht). by eexists _, _.
Qed.

End LoaderProofs.

Lemma load_by_period_returns_witness :
  let day := Examples.prices [10; 11]%Z in
  let answer : Download :=
    {| download_nrows := 2;
       download_labels :=
         MultiIndex [("Adj Close", ["AAPL"]); ("Close", ["AAPL"]); ("High", ["AAPL"]);
                     ("Low", ["AAPL"]); ("Open", ["AAPL"]); ("Volume", ["AAPL"])];
       download_cells := [day; day; day; day; day; day] |} in
  let loader := {| ticker := "AAPL" |} in
  load_by_period (fun _ => Returns answer) (fun _ => "period") "columns" loader "1week" []
    = (Raise (ValueError "period"), [])
  /\ exists t : DataFrame,
       load_by_period (fun _ => Returns answer) (fun _ => "period") "columns" loader "1y" []
         = (Ok t, [{| tickers := "AAPL"; period := "1y" |}])
       /\ has_column "Close" t = true.
Proof.
  intros day answer loader.
  destruct (load_by_period_returns (fun _ => Returns answer) (fun _ => "period") "columns"
              loader "1week" []) as [Hinvalid _].
  destruct (load_by_period_returns (fun _ => Returns answer) (fun _ => "period") "columns"
              loader "1y" []) as [_ Hvalid].
  split.
  - apply Hinvalid. intros Hin%list_elem_of_In. simpl in Hin.
    repeat (destruct Hin as [Hin|Hin]; [discriminate Hin|]). exact Hin.
  - destruct (Hvalid (flat answer) [{| tickers := "AAPL"; period := "1y" |}] eq_refl)
      as (_ & _ & _ & _ & Hcols & _).
    exists (flat answer). split; [reflexivity|]. reflexivity.
Defined.

End DataLoaderMore.
